(** * Progress, completion and certificate pipeline of the online course platform

    Shallow embedding of
    - [src/unnamed/part_010] (the second, current [progressSchema]:
      [calculateOverallProgress], [calculateCompletionPercentage],
      [calculateFinalScore], [updateProgress], the virtuals
      [isCompleted] and [completionStatus]),
    - [src/backend/models/certificate.js] ([issueCertificate],
      [revokeCertificate], [verifyCertificate], the virtuals
      [completionPercentage] and [overallPerformance], the pre-save hook
      and the unique indexes of [certificateSchema]),
    - [src/backend/controllers/certificateController.js]
      ([generateCertificate], [autoGenerateCertificate],
      [revokeCertificate]),
    - [src/backend/controllers/progressController.js]
      ([createProgressRecord], [markLessonComplete], [markModuleComplete],
      [addTimeSpent]).

    JavaScript numbers are IEEE-754 binary64 values.  They are represented
    here by the rationals they denote, and every arithmetic operation of the
    source is followed by round-to-nearest-even to 53 significant bits
    ([JsNumber.fl]).  The exponent range is not bounded (no overflow to
    Infinity, no subnormals), so [fl] is JavaScript's rounding only for
    results up to [Number.MAX_VALUE] in magnitude; the theorems about sums
    that can grow without bound (total time, counters) assume that no sum
    exceeds it.

    Mongoose runs schema validation before the [pre('save')] hooks, so a
    certificate document the controllers build without [certificateId]
    fails validation ([CertificateModel.validate_certificate]); a progress
    document loaded from the collection is saved by its [_id]
    ([Pipeline.save_progress]). *)

From Stdlib Require Import ZArith QArith Qround Qpower Lqa List Bool Lia Ascii String Relations.
From Stdlib Require Import Permutation.
Import ListNotations.

(** ** JavaScript [Number] arithmetic *)
Module JsNumber.

Open Scope Q_scope.

(** [rne x]: the integer nearest to [x], ties to even. *)
Definition rne (x : Q) : Z :=
  let f := Qfloor x in
  match Qcompare (x - inject_Z f) (1 # 2) with
  | Lt => f
  | Gt => (f + 1)%Z
  | Eq => if Z.even f then f else (f + 1)%Z
  end.

(** Binade exponent of a positive rational [v]: the [e] with
    [2^(52+e) <= v < 2^(53+e)], so that [v / 2^e] has 53 integer bits. *)
Definition expo (v : Q) : Z :=
  let L := (Z.log2 (Qnum v) - Z.log2 (Zpos (Qden v)))%Z in
  if Qle_bool ((2 # 1) ^ L) v then (L - 52)%Z else (L - 53)%Z.

Definition fl_pos (v : Q) : Q :=
  let e := expo v in
  inject_Z (rne (v / (2 # 1) ^ e)) * (2 # 1) ^ e.

(** Round a real result to the nearest binary64 value.  The exponent is
    not bounded, so [fl v] is JavaScript's result only while it does not
    exceed [Number.MAX_VALUE] in magnitude (beyond it JavaScript gives
    [Infinity]), and, for a product or a quotient, while it is not below
    [2^-1022], where JavaScript keeps fewer bits (a sum of two binary64
    values is exact there).  The theorems about sums that may grow state
    the no-overflow condition as a hypothesis. *)
Definition fl (v : Q) : Q :=
  match Qcompare v 0 with
  | Eq => 0
  | Gt => fl_pos v
  | Lt => - fl_pos (- v)
  end.

(** The operators [+], [*] and [/] of JavaScript on numbers.  Division by
    zero is never reached by the modelled code (each division is guarded). *)
Definition js_add (x y : Q) : Q := fl (x + y).
Definition js_mul (x y : Q) : Q := fl (x * y).
Definition js_div (x y : Q) : Q := fl (x / y).

(** [Number.MAX_VALUE], the largest finite binary64 value. *)
Definition MAX_VALUE : Q := inject_Z ((2 ^ 53 - 1) * 2 ^ 971).

(** The binary64 values of the literals [0.4] and [0.6]. *)
Definition lit_0_4 : Q := fl (4 # 10).
Definition lit_0_6 : Q := fl (6 # 10).

(** The comparison operators of JavaScript on numbers. *)
Definition js_lt (x y : Q) : bool := negb (Qle_bool y x).
Definition js_gt (x y : Q) : bool := js_lt y x.
Definition js_le (x y : Q) : bool := Qle_bool x y.
Definition js_ge (x y : Q) : bool := Qle_bool y x.
Definition js_eq (x y : Q) : bool := Qeq_bool x y.

(** [Math.round]: the integer closest to [x], ties towards +Infinity. *)
Definition Math_round (x : Q) : Z := Qfloor (x + (1 # 2)).

End JsNumber.

(** ** The Enrollment Record: [progressSchema] of [src/unnamed/part_010] *)
Module ProgressModel.

Import JsNumber.
Open Scope Q_scope.

(** One entry of [moduleProgress].  Object ids are [nat]; dates are
    millisecond timestamps ([Z]); numbers are [Q]. *)
Record ModuleProgress := mkModuleProgress {
  moduleId : nat;
  completed : bool;
  completedLessons : list nat;
  timeSpent : Q;
  lastAccessed : Z
}.

(** The document of [progressSchema] (the fields the pipeline reads or writes;
    [quizResults], [submissions] and the timestamps are left out). *)
Record Progress := mkProgress {
  progress_oid : nat;
  student : nat;
  course : nat;
  overallProgress : Q;
  completionPercentage : Q;
  moduleProgress : list ModuleProgress;
  totalAssignments : Q;
  completedAssignments : Q;
  totalQuizzes : Q;
  completedQuizzes : Q;
  avgQuizScore : Q;
  avgAssignmentScore : Q;
  finalScore : Q;
  enrolledAt : Z;
  totalTimeSpent : Q;
  lastActivity : Z;
  completionDate : option Z;
  completedAt : option Z;
  certificateEarned : option nat;
  certificateGenerated : bool
}.

(** Field assignments on a module entry. *)
Definition set_completedLessons (m : ModuleProgress) (l : list nat) : ModuleProgress :=
  mkModuleProgress (moduleId m) (completed m) l (timeSpent m) (lastAccessed m).
Definition set_module_timeSpent (m : ModuleProgress) (t : Q) : ModuleProgress :=
  mkModuleProgress (moduleId m) (completed m) (completedLessons m) t (lastAccessed m).
Definition set_lastAccessed (m : ModuleProgress) (d : Z) : ModuleProgress :=
  mkModuleProgress (moduleId m) (completed m) (completedLessons m) (timeSpent m) d.
Definition set_completed (m : ModuleProgress) (b : bool) : ModuleProgress :=
  mkModuleProgress (moduleId m) b (completedLessons m) (timeSpent m) (lastAccessed m).

(** Field assignments on a record. *)
Definition set_derived (p : Progress) (op cp fs : Q) (la : Z) : Progress :=
  mkProgress (progress_oid p) (student p) (course p) op cp (moduleProgress p)
    (totalAssignments p) (completedAssignments p) (totalQuizzes p)
    (completedQuizzes p) (avgQuizScore p) (avgAssignmentScore p) fs
    (enrolledAt p) (totalTimeSpent p) la (completionDate p) (completedAt p)
    (certificateEarned p) (certificateGenerated p).
Definition set_completion (p : Progress) (d : Z) : Progress :=
  mkProgress (progress_oid p) (student p) (course p) (overallProgress p) (completionPercentage p)
    (moduleProgress p) (totalAssignments p) (completedAssignments p)
    (totalQuizzes p) (completedQuizzes p) (avgQuizScore p)
    (avgAssignmentScore p) (finalScore p) (enrolledAt p) (totalTimeSpent p)
    (lastActivity p) (Some d) (Some d) (certificateEarned p)
    (certificateGenerated p).
Definition set_certificate (p : Progress) (id : nat) : Progress :=
  mkProgress (progress_oid p) (student p) (course p) (overallProgress p) (completionPercentage p)
    (moduleProgress p) (totalAssignments p) (completedAssignments p)
    (totalQuizzes p) (completedQuizzes p) (avgQuizScore p)
    (avgAssignmentScore p) (finalScore p) (enrolledAt p) (totalTimeSpent p)
    (lastActivity p) (completionDate p) (completedAt p) (Some id) true.
Definition set_modules_time (p : Progress) (mods : list ModuleProgress) (tt : Q) : Progress :=
  mkProgress (progress_oid p) (student p) (course p) (overallProgress p) (completionPercentage p)
    mods (totalAssignments p) (completedAssignments p)
    (totalQuizzes p) (completedQuizzes p) (avgQuizScore p)
    (avgAssignmentScore p) (finalScore p) (enrolledAt p) tt
    (lastActivity p) (completionDate p) (completedAt p) (certificateEarned p)
    (certificateGenerated p).
Definition set_lastActivity (p : Progress) (d : Z) : Progress :=
  mkProgress (progress_oid p) (student p) (course p) (overallProgress p) (completionPercentage p)
    (moduleProgress p) (totalAssignments p) (completedAssignments p)
    (totalQuizzes p) (completedQuizzes p) (avgQuizScore p)
    (avgAssignmentScore p) (finalScore p) (enrolledAt p) (totalTimeSpent p)
    d (completionDate p) (completedAt p) (certificateEarned p)
    (certificateGenerated p).

Definition count_completed (mods : list ModuleProgress) : Q :=
  inject_Z (Z.of_nat (List.length (filter completed mods))).
Definition length_Q {A} (l : list A) : Q := inject_Z (Z.of_nat (List.length l)).

(** [progressSchema.methods.calculateOverallProgress] *)
Definition calculateOverallProgress (p : Progress) : Q :=
  match moduleProgress p with
  | [] => 0
  | _ =>
      let completedModules := count_completed (moduleProgress p) in
      let totalModules := length_Q (moduleProgress p) in
      inject_Z (Math_round (js_mul (js_div completedModules totalModules) 100))
  end.

(** [progressSchema.methods.calculateCompletionPercentage] *)
Definition calculateCompletionPercentage (p : Progress) : Q :=
  let totalItems := length_Q (moduleProgress p) in
  let completedItems := count_completed (moduleProgress p) in
  let '(totalItems, completedItems) :=
    if js_gt (totalAssignments p) 0
    then (js_add totalItems (totalAssignments p),
          js_add completedItems (completedAssignments p))
    else (totalItems, completedItems) in
  let '(totalItems, completedItems) :=
    if js_gt (totalQuizzes p) 0
    then (js_add totalItems (totalQuizzes p),
          js_add completedItems (completedQuizzes p))
    else (totalItems, completedItems) in
  if js_gt totalItems 0
  then inject_Z (Math_round (js_mul (js_div completedItems totalItems) 100))
  else 0.

(** [progressSchema.methods.calculateFinalScore] *)
Definition calculateFinalScore (p : Progress) : Q :=
  if js_eq (avgQuizScore p) 0 && js_eq (avgAssignmentScore p) 0
  then 85
  else
    let quizWeight := lit_0_4 in
    let assignmentWeight := lit_0_6 in
    inject_Z (Math_round (js_add (js_mul (avgQuizScore p) quizWeight)
                                 (js_mul (avgAssignmentScore p) assignmentWeight))).

(** The [min]/[max] validators Mongoose runs on [save]. *)
Definition in_0_100 (x : Q) : bool := Qle_bool 0 x && Qle_bool x 100.
Definition validate (p : Progress) : bool :=
  in_0_100 (overallProgress p) && in_0_100 (completionPercentage p)
  && in_0_100 (avgQuizScore p) && in_0_100 (avgAssignmentScore p)
  && in_0_100 (finalScore p) && Qle_bool 0 (totalTimeSpent p)
  && forallb (fun m => Qle_bool 0 (timeSpent m)) (moduleProgress p).

(** The paths of [progressSchema]; a query on another path is dropped under
    [strictQuery]. *)
Definition schema_path (k : string) : bool :=
  existsb (String.eqb k)
    ["student"; "course"; "overallProgress"; "completionPercentage";
     "moduleProgress"; "quizResults"; "submissions"; "totalAssignments";
     "completedAssignments"; "totalQuizzes"; "completedQuizzes";
     "avgQuizScore"; "avgAssignmentScore"; "finalScore"; "enrolledAt";
     "totalTimeSpent"; "lastActivity"; "completionDate"; "completedAt";
     "certificateEarned"; "certificateGenerated"]%string.

(** The object-id valued paths a query can compare; a document has no value
    at any other path (a strict schema stores no other key). *)
Definition progress_path (p : Progress) (k : string) : option nat :=
  if String.eqb k "student" then Some (student p)
  else if String.eqb k "course" then Some (course p)
  else None.

End ProgressModel.

(** ** The Certificate: [certificateSchema] of [src/backend/models/certificate.js] *)
Module CertificateModel.

Open Scope Q_scope.

Inductive CertStatus := pending | issued | revoked | expired.

Definition CertStatus_eqb (a b : CertStatus) : bool :=
  match a, b with
  | pending, pending | issued, issued | revoked, revoked | expired, expired => true
  | _, _ => false
  end.

(** The fields of a certificate the pipeline reads or writes ([oid] is the
    document's [_id]; the denormalised names, durations, skills, template,
    files and analytics are left out). *)
Record Certificate := mkCertificate {
  oid : nat;
  certificateNumber : option string;
  student : nat;
  course : nat;
  instructor : nat;
  completionDate : Z;
  finalScore : Q;
  status : CertStatus;
  issuedDate : option Z;
  verificationCode : option string
}.

(** The values [Date] and [Math.random] produce during one request:
    the current time, the [_id] of a new document, and the strings built by
    [generateCertificateNumber] ([CERT-YYYYMM-####]) and
    [generateVerificationCode]. *)
Record Gen := mkGen {
  gen_now : Z;
  gen_oid : nat;
  gen_certificate_number : string;
  gen_verification_code : string
}.

Definition set_status_issued (c : Certificate) (d : Z) : Certificate :=
  mkCertificate (oid c) (certificateNumber c) (student c) (course c)
    (instructor c) (completionDate c) (finalScore c) issued (Some d)
    (verificationCode c).

(** [certificateSchema.methods.generateCertificateNumber] *)
Definition generateCertificateNumber (g : Gen) (c : Certificate) : Certificate :=
  mkCertificate (oid c) (Some (gen_certificate_number g)) (student c) (course c)
    (instructor c) (completionDate c) (finalScore c) (status c) (issuedDate c)
    (verificationCode c).

(** [certificateSchema.methods.generateVerificationCode] *)
Definition generateVerificationCode (g : Gen) (c : Certificate) : Certificate :=
  mkCertificate (oid c) (certificateNumber c) (student c) (course c)
    (instructor c) (completionDate c) (finalScore c) (status c) (issuedDate c)
    (Some (gen_verification_code g)).

(** A string field is falsy when it is unset or empty. *)
Definition str_falsy (o : option string) : bool :=
  match o with
  | None | Some EmptyString => true
  | Some _ => false
  end.

(** The document changes of [certificateSchema.methods.issueCertificate]
    before its [this.save()]. *)
Definition issueCertificate_doc (g : Gen) (c : Certificate) : Certificate :=
  let c := set_status_issued c (gen_now g) in
  let c := if str_falsy (certificateNumber c) then generateCertificateNumber g c else c in
  if str_falsy (verificationCode c) then generateVerificationCode g c else c.

Definition same_str (a b : option string) : bool :=
  match a, b with
  | Some x, Some y => String.eqb x y
  | _, _ => false
  end.

(** Two distinct documents violate one of the unique indexes:
    [{student, course}], [certificateNumber] (sparse) and
    [verification.verificationCode] (sparse). *)
Definition conflicts (a b : Certificate) : bool :=
  negb (Nat.eqb (oid a) (oid b))
  && ((Nat.eqb (student a) (student b) && Nat.eqb (course a) (course b))
      || same_str (certificateNumber a) (certificateNumber b)
      || same_str (verificationCode a) (verificationCode b)).

(** The write of [save()] on the collection, for a document that passes
    validation (a document loaded from the collection holds its required
    paths): refused on a duplicate key, otherwise an update of the
    document with the same [_id] or an insertion at the end.  The
    validation of a document built with [new Certificate] is
    [validate_certificate] below. *)
Definition cert_save (cs : list Certificate) (c : Certificate) : option (list Certificate) :=
  if existsb (conflicts c) cs then None
  else if existsb (fun d => Nat.eqb (oid d) (oid c)) cs
  then Some (map (fun d => if Nat.eqb (oid d) (oid c) then c else d) cs)
  else Some (cs ++ [c]).

(** The value given for a [Number] path, before Mongoose casts it: a
    number, [NaN], or an object (such as a nested subdocument). *)
Inductive NumberValue := NumberV (q : Q) | NaNV | ObjectV.

(** The [Number] cast: it fails on [NaN] and on an object. *)
Definition number_cast_ok (v : NumberValue) : bool :=
  match v with NumberV _ => true | NaNV | ObjectV => false end.

(** A document built with [new Certificate({...})] before its first
    save: its certificate fields, and the paths of the validation that
    the constructor's argument may leave unset or of the wrong type:
    [certificateId] (required) and [courseDuration.hours] (a required
    [Number]) and [courseDuration.weeks] (a [Number]).  [None] is a path
    left unset. *)
Record NewCertificate := mkNewCertificate {
  new_doc : Certificate;
  new_certificateId : option string;
  new_courseDuration_hours : option NumberValue;
  new_courseDuration_weeks : option NumberValue
}.

(** The validation that [save()] runs before the [pre('save')] hooks, on
    these paths: a [required] string must be set and non-empty, a
    required [Number] must be set and cast, an optional one must cast
    when set.  So the hook that fills in a missing [certificateId] runs
    too late: the document is refused with 'Certificate ID is
    required'. *)
Definition validate_certificate (n : NewCertificate) : bool :=
  negb (str_falsy (new_certificateId n))
  && match new_courseDuration_hours n with Some v => number_cast_ok v | None => false end
  && match new_courseDuration_weeks n with Some v => number_cast_ok v | None => true end.

(** A method that changes only certificate fields ([generateVerificationCode],
    [generateCertificateNumber]) called on a new document. *)
Definition map_new (f : Certificate -> Certificate) (n : NewCertificate) : NewCertificate :=
  mkNewCertificate (f (new_doc n)) (new_certificateId n)
    (new_courseDuration_hours n) (new_courseDuration_weeks n).

End CertificateModel.

(** ** The controllers and [updateProgress] *)
Module Pipeline.

Import JsNumber ProgressModel CertificateModel.
Open Scope Q_scope.

(** A lesson and module of the Course Catalog, as [Course.findById] returns
    them ([instructor] is the populated instructor's [_id], [None] when
    the reference does not resolve). *)
Record CourseModule := mkCourseModule { cm_oid : nat; cm_lessons : list nat }.
Record Course := mkCourse {
  course_oid : nat;
  course_instructor : option nat;
  course_modules : list CourseModule
}.

(** The collections the pipeline only reads: courses and users. *)
Record Env := mkEnv { env_courses : list Course; env_users : list nat }.

(** The collections the pipeline writes. *)
Record World := mkWorld {
  progresses : list Progress;
  certificates : list Certificate
}.

Inductive Exn := ValidationError | DuplicateKey | DocumentNotFound | LookupError | TypeError.

Inductive Res (A : Type) := Ok (a : A) | Err (e : Exn).
Arguments Ok {A} a.
Arguments Err {A} e.

(** A JSON value of a response field; [JUndefined] is dropped by
    [res.json]. *)
Inductive JsVal := JNull | JUndefined | JNumber (q : Q).

(** The responses of the progress controllers. *)
Inductive ProgressResponse :=
  | R200_progress (p : Progress)
  | R200_time (totalTimeSpent : Q) (moduleTimeSpent : JsVal)
  | R400 | R404 | R500.

(** The responses of [generateCertificate]. *)
Inductive CertResponse :=
  | C400_ids_required
  | C400_exists (c : Certificate)
  | C404_course
  | C404_student
  | C400_not_completed (currentProgress : Q)
  | C201_created (c : Certificate)
  | C500_failed.

Definition course_findById (env : Env) (id : nat) : option Course :=
  find (fun c => Nat.eqb (course_oid c) id) (env_courses env).
Definition user_findById (env : Env) (id : nat) : bool :=
  existsb (Nat.eqb id) (env_users env).

(** [Certificate.findOne({student, course})] *)
Definition certificate_findOne (w : World) (s c : nat) : option Certificate :=
  find (fun d => Nat.eqb (CertificateModel.student d) s
                 && Nat.eqb (CertificateModel.course d) c) (certificates w).

(** [Progress.findOne(filter)]: under [strictQuery] the paths that are not
    in the schema are removed from the filter first; a document matches
    when it holds each remaining path at the given value. *)
Definition progress_findOne (strictQuery : bool) (w : World)
    (filter : list (string * nat)) : option Progress :=
  let filter := if strictQuery then List.filter (fun kv => schema_path (fst kv)) filter
                else filter in
  find (fun p => forallb (fun kv => match progress_path p (fst kv) with
                                    | Some x => Nat.eqb x (snd kv)
                                    | None => false
                                    end) filter)
       (progresses w).

(** The two documents hold the same (student, course) pair. *)
Definition same_doc (a b : Progress) : bool :=
  Nat.eqb (ProgressModel.student a) (ProgressModel.student b)
  && Nat.eqb (ProgressModel.course a) (ProgressModel.course b).

(** The two documents have the same [_id]. *)
Definition same_oid (a b : Progress) : bool :=
  Nat.eqb (progress_oid a) (progress_oid b).

(** [progress.save()] on a loaded document: the validators, then the update
    of the stored document with the same [_id].  No stored document with
    that [_id] gives a [DocumentNotFoundError]; the update is refused by the
    unique index [{student, course}] when another document holds the
    pair. *)
Definition save_progress (w : World) (p : Progress) : World * Res Progress :=
  if validate p
  then if negb (existsb (same_oid p) (progresses w)) then (w, Err DocumentNotFound)
       else if existsb (fun q => negb (same_oid q p) && same_doc q p) (progresses w)
       then (w, Err DuplicateKey)
       else (mkWorld (map (fun q => if same_oid q p then p else q) (progresses w))
                     (certificates w), Ok p)
  else (w, Err ValidationError).

(** [certificateSchema.methods.issueCertificate] on a certificate loaded
    from the collection, with its [save()]: a stored document holds the
    required paths, so the save is the write [cert_save]. *)
Definition issueCertificate (g : Gen) (w : World) (c : Certificate) : World * Res Certificate :=
  let c := issueCertificate_doc g c in
  match cert_save (certificates w) c with
  | Some cs => (mkWorld (progresses w) cs, Ok c)
  | None => (w, Err DuplicateKey)
  end.

(** [issueCertificate] called on a document built with [new Certificate]:
    its [save()] validates the document first, and the validated paths
    are not among those the method changes. *)
Definition issueCertificate_new (g : Gen) (w : World) (n : NewCertificate)
    : World * Res Certificate :=
  if validate_certificate n then issueCertificate g w (new_doc n) else (w, Err ValidationError).

(** [course.duration] of a course found by [Course.findById]: the nested
    object [{hours, weeks}] of [courseSchema], an object (so truthy) on
    every course document. *)
Definition course_duration (crs : Course) : NumberValue := ObjectV.

(** [x || 10] *)
Definition or_10 (v : NumberValue) : NumberValue :=
  match v with
  | NumberV q => if Qeq_bool q 0 then NumberV 10 else v
  | NaNV => NumberV 10
  | ObjectV => v
  end.

(** [Math.ceil(x / 40)]: an object converts to [NaN]. *)
Definition ceil_div_40 (v : NumberValue) : NumberValue :=
  match v with
  | NumberV q => NumberV (inject_Z (Qceiling (js_div q 40)))
  | NaNV | ObjectV => NaNV
  end.

(** The [new Certificate({...})] of both controllers: no [certificateId],
    and [courseDuration: {hours: course.duration || 10,
    weeks: Math.ceil((course.duration || 10) / 40)}]. *)
Definition new_certificate (crs : Course) (c : Certificate) : NewCertificate :=
  mkNewCertificate c None (Some (or_10 (course_duration crs)))
    (Some (ceil_div_40 (or_10 (course_duration crs)))).

(** A [Date] field is truthy when it is set. *)
Definition is_set {A} (o : option A) : bool :=
  match o with Some _ => true | None => false end.

(** [x || 85] on a number: [0] is falsy. *)
Definition or_default (x d : Q) : Q := if Qeq_bool x 0 then d else x.

(** [autoGenerateCertificate(studentId, courseId, progressData)] *)
Definition autoGenerateCertificate (env : Env) (g : Gen) (w : World)
    (studentId courseId : nat) (progressData : Progress) : World * Res Certificate :=
  match certificate_findOne w studentId courseId with
  | Some existing => (w, Ok existing)
  | None =>
      match course_findById env courseId, user_findById env studentId with
      | Some crs, true =>
          match course_instructor crs with
          | None => (w, Err TypeError)
          | Some i =>
              let certificate :=
                new_certificate crs
                  (mkCertificate (gen_oid g) None studentId courseId i (gen_now g)
                     (or_default (ProgressModel.finalScore progressData) 85)
                     pending None None) in
              let certificate := map_new (generateVerificationCode g) certificate in
              let certificate := map_new (generateCertificateNumber g) certificate in
              issueCertificate_new g w certificate
          end
      | _, _ => (w, Err LookupError)
      end
  end.

(** [progressSchema.methods.updateProgress]; errors of the certificate
    trigger are caught, errors of [save()] are not. *)
Definition updateProgress (env : Env) (g : Gen) (w : World) (p : Progress)
    : World * Res Progress :=
  let p := set_derived p (calculateOverallProgress p)
             (calculateCompletionPercentage p) (calculateFinalScore p) (gen_now g) in
  if js_ge (completionPercentage p) 100 && negb (is_set (ProgressModel.completionDate p))
  then
    let p := set_completion p (gen_now g) in
    if negb (certificateGenerated p)
    then
      let '(w, r) := autoGenerateCertificate env g w (ProgressModel.student p)
                       (ProgressModel.course p) p in
      match r with
      | Ok certificate => save_progress w (set_certificate p (oid certificate))
      | Err _ => save_progress w p
      end
    else save_progress w p
  else save_progress w p.

Fixpoint findIndex {A} (f : A -> bool) (l : list A) : option nat :=
  match l with
  | [] => None
  | x :: l => if f x then Some 0%nat else option_map S (findIndex f l)
  end.

Fixpoint replace_nth {A} (n : nat) (x : A) (l : list A) : list A :=
  match l, n with
  | [], _ => []
  | _ :: l, O => x :: l
  | y :: l, S n => y :: replace_nth n x l
  end.

Section Controllers.

(** Mongoose's [strictQuery] option (on by default in Mongoose 6, off from
    Mongoose 7). *)
Variable strictQuery : bool.

(** [markLessonComplete], after the student authentication. *)
Definition markLessonComplete (env : Env) (g : Gen) (w : World)
    (studentId courseId moduleId lessonId : nat) (timeSpent : option Q)
    : World * ProgressResponse :=
  match progress_findOne strictQuery w [("student", studentId); ("course", courseId)]%string with
  | None => (w, R404)
  | Some progress =>
      match findIndex (fun m => Nat.eqb (ProgressModel.moduleId m) moduleId)
                      (moduleProgress progress) with
      | None => (w, R404)
      | Some moduleIndex =>
          match nth_error (moduleProgress progress) moduleIndex with
          | None => (w, R404)
          | Some module =>
              let module :=
                if existsb (Nat.eqb lessonId) (completedLessons module) then module
                else set_completedLessons module (completedLessons module ++ [lessonId]) in
              let '(module, total) :=
                match timeSpent with
                | Some t =>
                    if js_gt t 0
                    then (set_module_timeSpent module (js_add (ProgressModel.timeSpent module) t),
                          js_add (totalTimeSpent progress) t)
                    else (module, totalTimeSpent progress)
                | None => (module, totalTimeSpent progress)
                end in
              let module := set_lastAccessed module (gen_now g) in
              match course_findById env courseId with
              | None => (w, R500)
              | Some crs =>
                  let module :=
                    match find (fun cm => Nat.eqb (cm_oid cm) moduleId) (course_modules crs) with
                    | Some courseModule =>
                        if Nat.leb (List.length (cm_lessons courseModule))
                                   (List.length (completedLessons module))
                        then set_completed module true else module
                    | None => module
                    end in
                  let progress :=
                    set_modules_time progress
                      (replace_nth moduleIndex module (moduleProgress progress)) total in
                  let '(w, r) := updateProgress env g w progress in
                  match r with
                  | Ok progress => (w, R200_progress progress)
                  | Err _ => (w, R500)
                  end
              end
          end
      end
  end.

(** [addTimeSpent], after the student authentication. *)
Definition addTimeSpent (g : Gen) (w : World) (studentId courseId : nat)
    (moduleId : option nat) (timeSpent : option Q) : World * ProgressResponse :=
  match timeSpent with
  | None => (w, R400)
  | Some t =>
      if negb (js_gt t 0) then (w, R400) else
      match progress_findOne strictQuery w [("student", studentId); ("course", courseId)]%string with
      | None => (w, R404)
      | Some progress =>
          let mods :=
            match moduleId with
            | Some m =>
                match findIndex (fun md => Nat.eqb (ProgressModel.moduleId md) m)
                                (moduleProgress progress) with
                | Some i =>
                    match nth_error (moduleProgress progress) i with
                    | Some md =>
                        replace_nth i
                          (set_lastAccessed
                             (set_module_timeSpent md (js_add (ProgressModel.timeSpent md) t))
                             (gen_now g))
                          (moduleProgress progress)
                    | None => moduleProgress progress
                    end
                | None => moduleProgress progress
                end
            | None => moduleProgress progress
            end in
          let progress := set_modules_time progress mods (js_add (totalTimeSpent progress) t) in
          let progress := set_lastActivity progress (gen_now g) in
          match save_progress w progress with
          | (w, Ok progress) =>
              (w, R200_time (totalTimeSpent progress)
                    (match moduleId with
                     | Some m =>
                         match find (fun md => Nat.eqb (ProgressModel.moduleId md) m)
                                    (moduleProgress progress) with
                         | Some md => JNumber (ProgressModel.timeSpent md)
                         | None => JUndefined
                         end
                     | None => JNull
                     end))
          | (w, Err _) => (w, R500)
          end
      end
  end.

(** [generateCertificate], after [req.user] is read. *)
Definition generateCertificate (env : Env) (g : Gen) (w : World)
    (courseId studentId : option nat) : World * CertResponse :=
  match courseId, studentId with
  | Some courseId, Some studentId =>
      match certificate_findOne w studentId courseId with
      | Some existingCertificate => (w, C400_exists existingCertificate)
      | None =>
          match course_findById env courseId with
          | None => (w, C404_course)
          | Some crs =>
              if negb (user_findById env studentId) then (w, C404_student) else
              match progress_findOne strictQuery w [("user", studentId); ("course", courseId)]%string with
              | None => (w, C400_not_completed 0)
              | Some progress =>
                  if js_lt (completionPercentage progress) 100
                  then (w, C400_not_completed (completionPercentage progress))
                  else
                    match course_instructor crs with
                    | None => (w, C500_failed)
                    | Some i =>
                        let certificate :=
                          new_certificate crs
                            (mkCertificate (gen_oid g) None studentId courseId i
                               (match completedAt progress with Some d => d | None => gen_now g end)
                               (or_default (ProgressModel.finalScore progress) 85)
                               pending None None) in
                        let certificate := map_new (generateVerificationCode g) certificate in
                        let certificate := map_new (generateCertificateNumber g) certificate in
                        match issueCertificate_new g w certificate with
                        | (w, Ok c) => (w, C201_created c)
                        | (w, Err _) => (w, C500_failed)
                        end
                    end
              end
          end
      end
  | _, _ => (w, C400_ids_required)
  end.

End Controllers.

End Pipeline.

(** ** The calculator as §4.1 of the spec words it *)
Module SpecSide.

Import JsNumber ProgressModel.
Open Scope Q_scope.

(** "Integer rounding: standard round-half-up", on the exact value. *)
Definition round_half_up (x : Q) : Z := Qfloor (x + (1 # 2)).

(** [overallProgress(record)] of §4.1. *)
Definition overallProgress_spec (p : Progress) : Q :=
  match moduleProgress p with
  | [] => 0
  | mods => inject_Z (round_half_up (100 * count_completed mods / length_Q mods))
  end.

(** [finalScore(record)] of §4.1. *)
Definition finalScore_spec (p : Progress) : Q :=
  if Qeq_bool (avgQuizScore p) 0 && Qeq_bool (avgAssignmentScore p) 0
  then 85
  else inject_Z (round_half_up ((4 # 10) * avgQuizScore p + (6 # 10) * avgAssignmentScore p)).

(** The code's and the spec's overall progress on [c] completed modules out
    of [t], and their comparison for every [c <= t] with [1 <= t <= n]. *)
Definition overall_code (c t : nat) : Z :=
  Math_round (js_mul (js_div (inject_Z (Z.of_nat c)) (inject_Z (Z.of_nat t))) 100).
Definition overall_exact (c t : nat) : Z :=
  round_half_up (100 * inject_Z (Z.of_nat c) / inject_Z (Z.of_nat t)).
Definition check_overall (n : nat) : bool :=
  forallb (fun t => forallb (fun c => Z.eqb (overall_code c t) (overall_exact c t))
                            (seq 0 (S t)))
          (seq 1 n).

End SpecSide.

(** ** Observations on worlds, the certificate invariant, sample data *)
Module Observations.

Import JsNumber ProgressModel CertificateModel Pipeline.

(** The parts of a module entry and of a record that the calculator and
    the validators read ([lastAccessed], [lastActivity], the dates and
    the certificate fields excluded). *)
Definition core_module (m : ModuleProgress) : nat * bool * list nat * Q :=
  (moduleId m, completed m, completedLessons m, ProgressModel.timeSpent m).
Definition core (p : Progress) :=
  (map core_module (moduleProgress p), totalAssignments p, completedAssignments p,
   totalQuizzes p, completedQuizzes p, avgQuizScore p, avgAssignmentScore p,
   totalTimeSpent p).

(** The derived fields and the completed lessons of a record. *)
Definition snapshot (p : Progress) : Q * Q * Q * list (list nat) :=
  (overallProgress p, completionPercentage p, ProgressModel.finalScore p,
   map completedLessons (moduleProgress p)).

(** The record [Progress.findOne({student, course})] reads. *)
Definition record_of (strictQuery : bool) (w : World) (s c : nat) : option Progress :=
  progress_findOne strictQuery w [("student", s); ("course", c)]%string.

(** A new [ObjectId] differs from those of the stored certificates. *)
Definition fresh (g : Gen) (w : World) : bool :=
  negb (existsb (fun d => Nat.eqb (oid d) (gen_oid g)) (certificates w)).

(** [progress.save()] finds the stored document with [q]'s [_id], and no
    other stored document holds [q]'s (student, course) pair. *)
Definition save_target (w : World) (q : Progress) : bool :=
  existsb (same_oid q) (progresses w)
  && negb (existsb (fun d => negb (same_oid d q) && same_doc d q) (progresses w)).

(** [progress.save()] writes [q]. *)
Definition save_ok (w : World) (q : Progress) : bool := validate q && save_target w q.

(** [q] is [p] modified by a controller: same pair, same certificate fields. *)
Definition keeps_certificate_fields (q p : Progress) : Prop :=
  ProgressModel.student q = ProgressModel.student p
  /\ ProgressModel.course q = ProgressModel.course p
  /\ certificateEarned q = certificateEarned p
  /\ certificateGenerated q = certificateGenerated p.

(** The pipeline's operations on the collections. *)
Inductive step : World -> World -> Prop :=
  | step_updateProgress env g w p q :
      fresh g w = true -> In p (progresses w) -> keeps_certificate_fields q p ->
      step w (fst (updateProgress env g w q))
  | step_save w p q :
      In p (progresses w) -> keeps_certificate_fields q p ->
      step w (fst (save_progress w q))
  | step_markLessonComplete sq env g w s c m l t :
      fresh g w = true -> step w (fst (markLessonComplete sq env g w s c m l t))
  | step_addTimeSpent sq g w s c m t :
      step w (fst (addTimeSpent sq g w s c m t))
  | step_generateCertificate sq env g w cid sid :
      fresh g w = true -> step w (fst (generateCertificate sq env g w cid sid)).

(** A record's certificate fields agree with each other and refer to a
    stored certificate of the record's pair. *)
Definition record_ok (cs : list Certificate) (p : Progress) : Prop :=
  (certificateGenerated p = true <-> is_set (certificateEarned p) = true)
  /\ (forall id, certificateEarned p = Some id ->
        exists c, In c cs /\ oid c = id
                  /\ CertificateModel.student c = ProgressModel.student p
                  /\ CertificateModel.course c = ProgressModel.course p).

(** At most one certificate per (student, course) pair. *)
Definition unique_pairs (cs : list Certificate) : Prop :=
  forall c1 c2, In c1 cs -> In c2 cs ->
    CertificateModel.student c1 = CertificateModel.student c2 ->
    CertificateModel.course c1 = CertificateModel.course c2 -> c1 = c2.

Definition certificate_invariant (w : World) : Prop :=
  (forall p, In p (progresses w) -> record_ok (certificates w) p)
  /\ unique_pairs (certificates w).

(** A stored certificate of the record's pair has set the record's flag. *)
Definition record_complete (cs : list Certificate) (p : Progress) : Prop :=
  forall c, In c cs -> CertificateModel.student c = ProgressModel.student p ->
    CertificateModel.course c = ProgressModel.course p -> certificateGenerated p = true.

(** [certificate_invariant], and every record of a pair with a stored
    certificate has [certificateGenerated] set. *)
Definition pipeline_invariant (w : World) : Prop :=
  certificate_invariant w
  /\ (forall p, In p (progresses w) -> record_complete (certificates w) p).

(** Sample data. *)
Definition mentry (id : nat) (done : bool) : ModuleProgress :=
  mkModuleProgress id done [] 0 0.
(** A sample record of student [s] in course [c]; its [_id] is [100 * s + c]. *)
Definition new_record (s c : nat) (mods : list ModuleProgress) (ta ca tq cq aq aa : Q) : Progress :=
  mkProgress (100 * s + c)%nat s c 0 0 mods ta ca tq cq aq aa 0 0 0 0 None None None false.

Definition rec_40_23 : Progress :=
  new_record 1 1 (repeat (mentry 0 true) 23 ++ repeat (mentry 0 false) 17) 0 0 0 0 0 0.
Definition rec_4_2 : Progress :=
  new_record 1 1 [mentry 1 true; mentry 2 true; mentry 3 false; mentry 4 false] 0 0 0 0 0 0.
Definition rec_scores : Progress := new_record 1 1 [] 0 0 0 0 1 (57 # 2).
Definition rec_overcount : Progress := new_record 1 1 [] 1 2 0 0 0 0.
Definition rec_counts : Progress := new_record 1 1 [mentry 1 true] 2 1 3 3 0 0.
Definition rec_whole : Progress := new_record 1 1 [] 0 0 0 0 77 91.

Definition gen1 : Gen := mkGen 1000 50 "CERT-202610-0001" "K7Q2M9XA".
Definition gen2 : Gen := mkGen 2000 51 "CERT-202610-0002" "P3L8W1ZD".

Definition cert_issued : Certificate :=
  mkCertificate 5 (Some "CERT-202601-0042"%string) 1 1 7 100%Z 85 issued (Some 100%Z)
    (Some "H5J2R8TB"%string).

Definition world_cert : World := mkWorld [] [cert_issued].

(** Course 1 has one module (id 1) of one lesson (id 10). *)
Definition course1 : Course := mkCourse 1 (Some 7%nat) [mkCourseModule 1 [10%nat]].
Definition env_ok : Env := mkEnv [course1] [1; 2; 9]%nat.
Definition env_no_course : Env := mkEnv [] [1; 2; 9]%nat.

(** Student 1 has completed the only module of course 1. *)
Definition rec_done : Progress :=
  new_record 1 1 [mkModuleProgress 1 true [10%nat] 0 0] 0 0 0 0 0 0.
Definition world_done : World := mkWorld [rec_done] [].

(** Course 1 has two records: student 9 at 0 %, student 2 at 100 %. *)
Definition rec_9 : Progress := new_record 9 1 [mentry 1 false] 0 0 0 0 0 0.
Definition rec_2 : Progress :=
  set_derived (new_record 2 1 [mkModuleProgress 1 true [10%nat] 0 0] 0 0 0 0 0 0) 100 100 85 0.
Definition world_two : World := mkWorld [rec_9; rec_2] [].

(** The record after the first statement of [updateProgress]: the three
    derived fields recomputed, [lastActivity] set. *)
Definition derive (g : Gen) (q : Progress) : Progress :=
  set_derived q (calculateOverallProgress q) (calculateCompletionPercentage q)
    (calculateFinalScore q) (gen_now g).

(** The test [Progress.findOne({student, course})] applies to a document. *)
Definition by_pair (s c : nat) (p : Progress) : bool :=
  Nat.eqb (ProgressModel.student p) s && Nat.eqb (ProgressModel.course p) c.

(** Student 1 has started course 1: module 1, no lesson done. *)
Definition rec_fresh : Progress := new_record 1 1 [mentry 1 false] 0 0 0 0 0 0.
Definition world_fresh : World := mkWorld [rec_fresh] [].

(** Lesson 99, which is not a lesson of module 1 of course 1, marked complete. *)
Definition mark_99 : World * ProgressResponse :=
  markLessonComplete true env_ok gen1 world_fresh 1 1 1 99 None.
Definition mark_99_record : Progress :=
  match snd mark_99 with R200_progress q => q | _ => rec_fresh end.

End Observations.

(** ** The other progress controllers of [progressController.js] *)
Module ProgressControllers.

Import JsNumber ProgressModel CertificateModel Pipeline.
Open Scope Q_scope.

(** The responses of [createProgressRecord]. *)
Inductive CreateResponse :=
  | P201_created (p : Progress)
  | P400_exists
  | P404_course
  | P500_failed.

(** [progress.save()] on a new document: the validators, then the
    insertion, refused by the unique indexes [_id] and
    [{student, course}]. *)
Definition insert_progress (w : World) (p : Progress) : World * Res Progress :=
  if validate p
  then if existsb (same_oid p) (progresses w) || existsb (same_doc p) (progresses w)
       then (w, Err DuplicateKey)
       else (mkWorld (progresses w ++ [p]) (certificates w), Ok p)
  else (w, Err ValidationError).

Section Controllers.

Variable strictQuery : bool.

(** [createProgressRecord], after the student authentication.  The fields
    [new Progress] is not given take their defaults: the numbers [0],
    [enrolledAt] and [lastActivity] the current time,
    [certificateGenerated] [false], the dates and [certificateEarned]
    unset. *)
Definition createProgressRecord (env : Env) (g : Gen) (w : World)
    (studentId courseId : nat) : World * CreateResponse :=
  match course_findById env courseId with
  | None => (w, P404_course)
  | Some course =>
      match progress_findOne strictQuery w [("student", studentId); ("course", courseId)]%string with
      | Some _ => (w, P400_exists)
      | None =>
          let moduleProgress :=
            map (fun module => mkModuleProgress (cm_oid module) false [] 0 (gen_now g))
                (course_modules course) in
          let progress :=
            mkProgress (gen_oid g) studentId courseId 0 0 moduleProgress 0 0 0 0 0 0 0
              (gen_now g) 0 (gen_now g) None None None false in
          match insert_progress w progress with
          | (w, Ok progress) => (w, P201_created progress)
          | (w, Err _) => (w, P500_failed)
          end
      end
  end.

(** [markModuleComplete], after the student authentication. *)
Definition markModuleComplete (env : Env) (g : Gen) (w : World)
    (studentId courseId moduleId : nat) : World * ProgressResponse :=
  match progress_findOne strictQuery w [("student", studentId); ("course", courseId)]%string with
  | None => (w, R404)
  | Some progress =>
      match findIndex (fun m => Nat.eqb (ProgressModel.moduleId m) moduleId)
                      (moduleProgress progress) with
      | None => (w, R404)
      | Some moduleIndex =>
          match nth_error (moduleProgress progress) moduleIndex with
          | None => (w, R404)
          | Some module =>
              let module := set_lastAccessed (set_completed module true) (gen_now g) in
              let progress :=
                set_modules_time progress
                  (replace_nth moduleIndex module (moduleProgress progress))
                  (totalTimeSpent progress) in
              let '(w, r) := updateProgress env g w progress in
              match r with
              | Ok progress => (w, R200_progress progress)
              | Err _ => (w, R500)
              end
          end
      end
  end.

End Controllers.

(** [progressSchema.virtual('isCompleted')] *)
Definition isCompleted (p : Progress) : bool := js_ge (overallProgress p) 100.

(** [progressSchema.virtual('completionStatus')] *)
Definition completionStatus (p : Progress) : string :=
  if js_ge (overallProgress p) 100 then "completed"
  else if js_ge (overallProgress p) 50 then "in-progress"
  else if js_gt (overallProgress p) 0 then "started"
  else "not-started".

End ProgressControllers.

(** ** The hooks, virtuals and the other methods of [certificateSchema] *)
Module CertificateHooks.

Import JsNumber ProgressModel CertificateModel Pipeline.
Open Scope Q_scope.

(** The [performance] subdocument of a certificate. *)
Record Performance := mkPerformance {
  perf_finalScore : Q;
  grade : string;
  perf_totalAssignments : Q;
  perf_completedAssignments : Q;
  perf_totalQuizzes : Q;
  perf_completedQuizzes : Q;
  perf_avgQuizScore : Q;
  perf_avgAssignmentScore : Q
}.

(** The [performance] object [autoGenerateCertificate] and
    [generateCertificate] pass to [new Certificate] ([x || 0] on a number
    is [x]); [grade] takes its default ['Pass']. *)
Definition certificate_performance (progressData : Progress) : Performance :=
  mkPerformance (or_default (ProgressModel.finalScore progressData) 85) "Pass"
    (or_default (totalAssignments progressData) 0)
    (or_default (completedAssignments progressData) 0)
    (or_default (totalQuizzes progressData) 0)
    (or_default (completedQuizzes progressData) 0)
    (or_default (avgQuizScore progressData) 0)
    (or_default (avgAssignmentScore progressData) 0).

(** A number is truthy unless it is [0]. *)
Definition truthy (x : Q) : bool := negb (Qeq_bool x 0).

(** [certificateSchema.virtual('completionPercentage')] *)
Definition completionPercentage_virtual (p : Performance) : Q :=
  let totalItems := js_add (perf_totalAssignments p) (perf_totalQuizzes p) in
  let completedItems := js_add (perf_completedAssignments p) (perf_completedQuizzes p) in
  if js_gt totalItems 0
  then inject_Z (Math_round (js_mul (js_div completedItems totalItems) 100))
  else 0.

(** [certificateSchema.virtual('overallPerformance')] *)
Definition overallPerformance (p : Performance) : Q :=
  let quizWeight := lit_0_4 in
  let assignmentWeight := lit_0_6 in
  inject_Z (Math_round (js_add (js_mul (perf_avgQuizScore p) quizWeight)
                               (js_mul (perf_avgAssignmentScore p) assignmentWeight))).

(** The grade chain of the pre-save middleware. *)
Definition grade_of (finalScore : Q) : string :=
  if js_ge finalScore 95 then "A+"
  else if js_ge finalScore 90 then "A"
  else if js_ge finalScore 85 then "A-"
  else if js_ge finalScore 80 then "B+"
  else if js_ge finalScore 75 then "B"
  else if js_ge finalScore 70 then "B-"
  else if js_ge finalScore 65 then "C+"
  else if js_ge finalScore 60 then "C"
  else if js_ge finalScore 55 then "C-"
  else if js_ge finalScore 50 then "D"
  else "F".

(** The changes of [certificateSchema.pre('save')] to [performance]. *)
Definition pre_save_performance (p : Performance) : Performance :=
  let finalScore :=
    if negb (truthy (perf_finalScore p)) && truthy (perf_avgQuizScore p)
       && truthy (perf_avgAssignmentScore p)
    then overallPerformance p else perf_finalScore p in
  mkPerformance finalScore (grade_of finalScore) (perf_totalAssignments p)
    (perf_completedAssignments p) (perf_totalQuizzes p) (perf_completedQuizzes p)
    (perf_avgQuizScore p) (perf_avgAssignmentScore p).

(** [String.prototype.toUpperCase] on ASCII characters (the statements
    below only apply it to ASCII strings). *)
Definition ascii_upper (a : ascii) : ascii :=
  let n := nat_of_ascii a in
  if (97 <=? n)%nat && (n <=? 122)%nat then ascii_of_nat (n - 32) else a.

Fixpoint toUpperCase (s : string) : string :=
  match s with
  | EmptyString => EmptyString
  | String a s => String (ascii_upper a) (toUpperCase s)
  end.

Fixpoint is_ascii (s : string) : bool :=
  match s with
  | EmptyString => true
  | String a s => (nat_of_ascii a <? 128)%nat && is_ascii s
  end.

(** [Certificate.verifyCertificate(verificationCode)]: a stored certificate
    with the upper-cased code and status ['issued'].  The third condition,
    [verification.isVerifiable], holds of every document: the path
    defaults to [true] and no code of the platform assigns it. *)
Definition verifyCertificate (cs : list Certificate) (verificationCode : string)
    : option Certificate :=
  find (fun d => same_str (CertificateModel.verificationCode d)
                          (Some (toUpperCase verificationCode))
                 && CertStatus_eqb (status d) issued) cs.

(** The document change of [certificateSchema.methods.revokeCertificate]
    before its [save()]: the status.  [metadata] is not a path of the
    (strict) schema, so its assignment is not stored. *)
Definition revokeCertificate_doc (c : Certificate) : Certificate :=
  mkCertificate (oid c) (certificateNumber c) (CertificateModel.student c)
    (CertificateModel.course c) (instructor c) (CertificateModel.completionDate c)
    (CertificateModel.finalScore c) revoked (issuedDate c) (CertificateModel.verificationCode c).

(** The responses of the [revokeCertificate] controller. *)
Inductive RevokeResponse :=
  | RV200_revoked (c : Certificate)
  | RV403
  | RV404
  | RV500.

(** The [revokeCertificate] controller; [req.user] is given by its [_id]
    and whether its role is ['admin']. *)
Definition revokeCertificate (w : World) (certificateId : nat)
    (user_id : nat) (user_is_admin : bool) : World * RevokeResponse :=
  match find (fun d => Nat.eqb (oid d) certificateId) (certificates w) with
  | None => (w, RV404)
  | Some certificate =>
      if negb (Nat.eqb (instructor certificate) user_id) && negb user_is_admin
      then (w, RV403)
      else
        let certificate := revokeCertificate_doc certificate in
        match cert_save (certificates w) certificate with
        | Some cs => (mkWorld (progresses w) cs, RV200_revoked certificate)
        | None => (w, RV500)
        end
  end.

End CertificateHooks.

(** ** Observations on the other controllers and methods *)
Module MoreObservations.

Import JsNumber ProgressModel CertificateModel Pipeline Observations
       ProgressControllers CertificateHooks.

(** The (student, course) pairs of the stored records, in order. *)
Definition pairs (w : World) : list (nat * nat) :=
  map (fun p => (ProgressModel.student p, ProgressModel.course p)) (progresses w).

(** The [_id]s of the stored records, in order. *)
Definition oids (w : World) : list nat := map progress_oid (progresses w).

(** The order of the grades of [certificateSchema], ['F'] lowest. *)
Definition grade_rank (g : string) : nat :=
  if String.eqb g "A+" then 10
  else if String.eqb g "A" then 9
  else if String.eqb g "A-" then 8
  else if String.eqb g "B+" then 7
  else if String.eqb g "B" then 6
  else if String.eqb g "B-" then 5
  else if String.eqb g "C+" then 4
  else if String.eqb g "C" then 3
  else if String.eqb g "C-" then 2
  else if String.eqb g "D" then 1
  else 0.

(** The record [createProgressRecord] stores for a course. *)
Definition new_progress (g : Gen) (crs : Course) (s c : nat) : Progress :=
  mkProgress (gen_oid g) s c 0 0
    (map (fun module => mkModuleProgress (cm_oid module) false [] 0 (gen_now g))
         (course_modules crs)) 0 0 0 0 0 0 0 (gen_now g) 0 (gen_now g) None None None false.

(** Entrywise order of module entries: completion is kept. *)
Definition completed_le (a b : ModuleProgress) : Prop := completed a = true -> completed b = true.

(** Entrywise order of module entries: id, completion and lessons are kept. *)
Definition mod_le (a b : ModuleProgress) : Prop :=
  moduleId a = moduleId b /\ (completed a = true -> completed b = true)
  /\ exists ext, completedLessons b = completedLessons a ++ ext.

(** 200 modules, the last one not completed. *)
Definition rec_200 : Progress :=
  new_record 1 1 (repeat (mentry 0 true) 199 ++ [mentry 0 false]) 0 0 0 0 0 0.

(** Sample data. *)
Definition world_empty : World := mkWorld [] [].

(** Student 1 enrols in course 1. *)
Definition create_1 : World * CreateResponse :=
  createProgressRecord true env_ok gen1 world_empty 1 1.
Definition create_1_record : Progress :=
  match snd create_1 with P201_created p => p | _ => rec_fresh end.

(** Student 1 marks module 1 of course 1 complete. *)
Definition module_1 : World * ProgressResponse :=
  markModuleComplete true env_ok gen1 world_fresh 1 1 1.
Definition module_1_record : Progress :=
  match snd module_1 with R200_progress q => q | _ => rec_fresh end.

(** Student 1 completes lesson 10, the only lesson of module 1. *)
Definition lesson_10 : World * ProgressResponse :=
  markLessonComplete true env_ok gen1 world_fresh 1 1 1 10 None.
Definition lesson_10_record : Progress :=
  match snd lesson_10 with R200_progress q => q | _ => rec_fresh end.

(** [rec_done] with its completion already dated. *)
Definition rec_dated : Progress := set_completion rec_done 5.
Definition world_dated : World := mkWorld [rec_dated] [].
Definition update_dated : World * Res Progress := updateProgress env_ok gen1 world_dated rec_dated.
Definition update_dated_record : Progress :=
  match snd update_dated with Ok q => q | Err _ => rec_dated end.

Definition update_done : World * Res Progress := updateProgress env_ok gen1 world_done rec_done.
Definition update_done_record : Progress :=
  match snd update_done with Ok q => q | Err _ => rec_done end.

(** 30 minutes on module 1. *)
Definition time_30 : World * ProgressResponse :=
  addTimeSpent true gen1 world_fresh 1 1 (Some 1%nat) (Some 30%Q).

(** A stored certificate that was never issued, and [issueCertificate]
    called on it. *)
Definition cert_pending : Certificate :=
  mkCertificate 50 None 1 1 7 0%Z 85%Q pending None None.
Definition world_pending : World := mkWorld [] [cert_pending].
Definition issue_1 : World * Res Certificate := issueCertificate gen1 world_pending cert_pending.
Definition issue_1_cert : Certificate :=
  match snd issue_1 with Ok c => c | Err _ => cert_pending end.

(** The instructor (user 7) revokes certificate 5. *)
Definition revoke_5 : World * RevokeResponse := revokeCertificate world_cert 5 7 false.

End MoreObservations.

(** ** Facts about the binary64 model *)
Module JsNumberFacts.

Import JsNumber.
Open Scope Q_scope.

Notation P e := ((2 # 1) ^ e).

Lemma P_pos e : 0 < P e.
Proof. apply Qpower_0_lt. reflexivity. Qed.

Lemma P_add a b : P (a + b) == P a * P b.
Proof. apply Qpower_plus. discriminate. Qed.

Lemma P_le a b : (a <= b)%Z -> P a <= P b.
Proof. intros H. apply Qpower_le_compat_l; [exact H | discriminate]. Qed.

Lemma P_Z k : (0 <= k)%Z -> inject_Z (2 ^ k) == P k.
Proof. intros H. apply Zpower_Qpower. exact H. Qed.

Lemma P_lt a b : (a < b)%Z -> P a < P b.
Proof. intros H. apply Qpower_lt_compat_l; [exact H | reflexivity]. Qed.

Lemma inject_Z_succ z : inject_Z (z + 1) == inject_Z z + 1.
Proof. rewrite inject_Z_plus. reflexivity. Qed.

Lemma rne_comp x y : x == y -> rne x = rne y.
Proof.
  intros H. unfold rne.
  assert (Hf : Qfloor x = Qfloor y) by (apply Qfloor_comp; exact H).
  rewrite <- Hf.
  assert (Hm : x - inject_Z (Qfloor x) == y - inject_Z (Qfloor x)) by lra.
  rewrite (Qcompare_comp _ _ Hm _ _ (Qeq_refl (1 # 2))). reflexivity.
Qed.

Lemma rne_bounds x :
  inject_Z (rne x) - (1 # 2) <= x /\ x <= inject_Z (rne x) + (1 # 2).
Proof.
  unfold rne.
  pose proof (Qfloor_le x) as H1. pose proof (Qlt_floor x) as H2.
  rewrite inject_Z_succ in H2.
  destruct (Qcompare_spec (x - inject_Z (Qfloor x)) (1 # 2)) as [H|H|H].
  - destruct (Z.even (Qfloor x)); rewrite ?inject_Z_succ; split; lra.
  - split; lra.
  - rewrite inject_Z_succ. split; lra.
Qed.

Lemma rne_mono x y : x <= y -> (rne x <= rne y)%Z.
Proof.
  intros Hxy.
  destruct (Z_le_gt_dec (rne x) (rne y)) as [H|H]; [exact H|].
  exfalso.
  assert (Hz : inject_Z (rne y) + 1 <= inject_Z (rne x)).
  { rewrite <- inject_Z_succ. rewrite <- Zle_Qle. lia. }
  destruct (rne_bounds x) as [Hx1 Hx2]. destruct (rne_bounds y) as [Hy1 Hy2].
  assert (Heq : x == y) by lra.
  rewrite (rne_comp x y Heq) in H. lia.
Qed.

Lemma rne_Z z : rne (inject_Z z) = z.
Proof.
  unfold rne. rewrite Qfloor_Z.
  destruct (Qcompare_spec (inject_Z z - inject_Z z) (1 # 2)) as [H|H|H];
    [lra | reflexivity | lra].
Qed.

Lemma expo_spec v : 0 < v -> P (52 + expo v) <= v /\ v < P (53 + expo v).
Proof.
  intros Hv. destruct v as [n d].
  assert (Hn : (0 < n)%Z).
  { unfold Qlt in Hv. simpl in Hv. lia. }
  pose proof (Z.log2_spec n Hn) as [Hn1 Hn2].
  pose proof (Z.log2_spec (Zpos d) eq_refl) as [Hd1 Hd2].
  pose proof (Z.log2_nonneg n) as Hln. pose proof (Z.log2_nonneg (Zpos d)) as Hld.
  set (ln := Z.log2 n) in *. set (ld := Z.log2 (Zpos d)) in *.
  rewrite Z.pow_succ_r in Hn2, Hd2 by exact Hln || exact Hld.
  assert (Hq : n # d == inject_Z n / inject_Z (Zpos d)) by apply Qmake_Qdiv.
  assert (Hdpos : 0 < inject_Z (Zpos d)) by (unfold Qlt; simpl; lia).
  (* 2^(ln-ld-1) < v < 2^(ln-ld+1) *)
  assert (Hlo : P (ln - ld - 1) < n # d).
  { rewrite Hq. apply Qlt_shift_div_l; [exact Hdpos|].
    apply Qlt_le_trans with (P (ln - ld - 1) * P (ld + 1)).
    - apply Qmult_lt_l; [apply P_pos|].
      rewrite <- P_Z by lia. rewrite <- Zlt_Qlt. rewrite Z.pow_add_r by lia. lia.
    - rewrite <- P_add. replace (ln - ld - 1 + (ld + 1))%Z with ln by ring.
      rewrite <- P_Z by lia. rewrite <- Zle_Qle. lia. }
  assert (Hhi : n # d < P (ln - ld + 1)).
  { rewrite Hq. apply Qlt_shift_div_r; [exact Hdpos|].
    apply Qlt_le_trans with (P (ln + 1)).
    - rewrite <- P_Z by lia. rewrite <- Zlt_Qlt. rewrite Z.pow_add_r by lia. lia.
    - replace (ln + 1)%Z with (ln - ld + 1 + ld)%Z by ring. rewrite P_add.
      apply Qmult_le_l; [apply P_pos|].
      rewrite <- P_Z by lia. rewrite <- Zle_Qle. lia. }
  unfold expo. simpl Qnum. simpl Qden. fold ln ld.
  destruct (Qle_bool (P (ln - ld)) (n # d)) eqn:E.
  - apply Qle_bool_iff in E.
    replace (52 + (ln - ld - 52))%Z with (ln - ld)%Z by ring.
    replace (53 + (ln - ld - 52))%Z with (ln - ld + 1)%Z by ring.
    split; assumption.
  - assert (E' : n # d < P (ln - ld)).
    { apply Qnot_le_lt. intros C. apply Qle_bool_iff in C. congruence. }
    replace (52 + (ln - ld - 53))%Z with (ln - ld - 1)%Z by ring.
    replace (53 + (ln - ld - 53))%Z with (ln - ld)%Z by ring.
    split; [apply Qlt_le_weak|]; assumption.
Qed.

Lemma expo_unique v e1 e2 :
  P (52 + e1) <= v -> v < P (53 + e1) ->
  P (52 + e2) <= v -> v < P (53 + e2) -> e1 = e2.
Proof.
  intros H1 H2 H3 H4.
  destruct (Z.lt_trichotomy e1 e2) as [H|[H|H]]; [| exact H |].
  - assert (HP : P (53 + e1) <= P (52 + e2)) by (apply P_le; lia).
    exfalso. apply (Qlt_irrefl v). apply Qlt_le_trans with (P (53 + e1)); [exact H2|].
    apply Qle_trans with (P (52 + e2)); assumption.
  - assert (HP : P (53 + e2) <= P (52 + e1)) by (apply P_le; lia).
    exfalso. apply (Qlt_irrefl v). apply Qlt_le_trans with (P (53 + e2)); [exact H4|].
    apply Qle_trans with (P (52 + e1)); assumption.
Qed.

Lemma expo_mono v w : 0 < v -> v <= w -> (expo v <= expo w)%Z.
Proof.
  intros Hv Hvw.
  assert (Hw : 0 < w) by lra.
  destruct (expo_spec v Hv) as [Hv1 Hv2]. destruct (expo_spec w Hw) as [Hw1 Hw2].
  destruct (Z_le_gt_dec (expo v) (expo w)) as [H|H]; [exact H|].
  exfalso.
  assert (HP : P (53 + expo w) <= P (52 + expo v)) by (apply P_le; lia).
  apply (Qlt_irrefl w). apply Qlt_le_trans with (P (53 + expo w)); [exact Hw2|].
  apply Qle_trans with (P (52 + expo v)); [exact HP|]. lra.
Qed.

Lemma scaled_bounds v : 0 < v ->
  P 52 <= v / P (expo v) /\ v / P (expo v) < P 53.
Proof.
  intros Hv. destruct (expo_spec v Hv) as [H1 H2].
  rewrite P_add in H1, H2.
  split.
  - apply Qle_shift_div_l; [apply P_pos | exact H1].
  - apply Qlt_shift_div_r; [apply P_pos | exact H2].
Qed.

Lemma mantissa_bounds v : 0 < v ->
  (2 ^ 52 <= rne (v / P (expo v)) <= 2 ^ 53)%Z.
Proof.
  intros Hv. destruct (scaled_bounds v Hv) as [H1 H2].
  rewrite <- (P_Z 52) in H1 by lia. rewrite <- (P_Z 53) in H2 by lia.
  split.
  - rewrite <- (rne_Z (2 ^ 52)). apply rne_mono. exact H1.
  - rewrite <- (rne_Z (2 ^ 53)). apply rne_mono. apply Qlt_le_weak. exact H2.
Qed.

Lemma fl_pos_pos v : 0 < v -> 0 < fl_pos v.
Proof.
  intros Hv. unfold fl_pos.
  pose proof (mantissa_bounds v Hv) as [Hm _].
  apply Qmult_lt_0_compat; [| apply P_pos].
  change 0 with (inject_Z 0). rewrite <- Zlt_Qlt. lia.
Qed.

Lemma fl_pos_mono v w : 0 < v -> v <= w -> fl_pos v <= fl_pos w.
Proof.
  intros Hv Hvw.
  assert (Hw : 0 < w) by lra.
  pose proof (expo_mono v w Hv Hvw) as He.
  unfold fl_pos.
  destruct (Z.eq_dec (expo v) (expo w)) as [E|E].
  - rewrite E. apply Qmult_le_compat_r; [| apply Qlt_le_weak, P_pos].
    rewrite <- Zle_Qle. apply rne_mono.
    unfold Qdiv. apply Qmult_le_compat_r; [exact Hvw|].
    apply Qlt_le_weak, Qinv_lt_0_compat, P_pos.
  - pose proof (mantissa_bounds v Hv) as [_ Hmv].
    pose proof (mantissa_bounds w Hw) as [Hmw _].
    apply Qle_trans with (P 53 * P (expo v)).
    + apply Qmult_le_compat_r; [| apply Qlt_le_weak, P_pos].
      rewrite <- (P_Z 53) by lia. rewrite <- Zle_Qle. exact Hmv.
    + apply Qle_trans with (P 52 * P (expo w)).
      * rewrite <- !P_add. apply P_le. lia.
      * apply Qmult_le_compat_r; [| apply Qlt_le_weak, P_pos].
        rewrite <- (P_Z 52) by lia. rewrite <- Zle_Qle. exact Hmw.
Qed.

(** Rounding is monotone. *)
Lemma fl_mono v w : v <= w -> fl v <= fl w.
Proof.
  intros Hvw. unfold fl.
  destruct (Qcompare_spec v 0) as [Hv|Hv|Hv];
  destruct (Qcompare_spec w 0) as [Hw|Hw|Hw].
  - lra.
  - lra.
  - apply Qlt_le_weak, fl_pos_pos. lra.
  - pose proof (fl_pos_pos (- v)). lra.
  - assert (fl_pos (- w) <= fl_pos (- v)) by (apply fl_pos_mono; lra). lra.
  - pose proof (fl_pos_pos (- v)). pose proof (fl_pos_pos w). lra.
  - lra.
  - lra.
  - apply fl_pos_mono; lra.
Qed.

Lemma fl_comp v w : v == w -> fl v == fl w.
Proof. intros H. apply Qle_antisym; apply fl_mono; lra. Qed.

Lemma fl_0 : fl 0 == 0.
Proof. reflexivity. Qed.

Lemma fl_1 : fl 1 == 1.
Proof. vm_compute. reflexivity. Qed.

Lemma fl_100 : fl 100 == 100.
Proof. vm_compute. reflexivity. Qed.

Lemma fl_max : fl MAX_VALUE == MAX_VALUE.
Proof. vm_compute. reflexivity. Qed.

Lemma fl_half_max : fl (MAX_VALUE * (1 # 2)) == MAX_VALUE * (1 # 2).
Proof. vm_compute. reflexivity. Qed.

Lemma Math_round_range x : 0 <= x -> x <= 100 ->
  (0 <= Math_round x <= 100)%Z.
Proof.
  intros H0 H1. unfold Math_round. split.
  - change 0%Z with (Qfloor 0). apply Qfloor_resp_le. lra.
  - change 100%Z with (Qfloor (100 + (1 # 2))). apply Qfloor_resp_le. lra.
Qed.

(** The unit roundoff [2^-53]. *)
Notation u := (1 # 9007199254740992).

(** Relative error of one rounding. *)
Lemma fl_rel_err v : 0 <= v -> v - v * u <= fl v /\ fl v <= v + v * u.
Proof.
  intros Hv.
  destruct (Qle_lt_or_eq 0 v Hv) as [Hlt|Heq].
  - assert (Hf : fl v = fl_pos v).
    { unfold fl. destruct (Qcompare_spec v 0) as [H|H|H]; [lra|lra|reflexivity]. }
    rewrite Hf. unfold fl_pos.
    set (pe := P (expo v)).
    set (s := v / pe).
    assert (Hpe : 0 < pe) by apply P_pos.
    assert (Hs : s * pe == v).
    { unfold s. field. intros C. rewrite C in Hpe. discriminate. }
    destruct (expo_spec v Hlt) as [H52 _].
    rewrite P_add in H52. fold pe in H52.
    assert (HP52 : P 52 == 4503599627370496) by reflexivity.
    rewrite HP52 in H52.
    destruct (rne_bounds s) as [Hb1 Hb2].
    set (m := inject_Z (rne s)) in *.
    assert (Hup : m * pe <= (s + (1 # 2)) * pe)
      by (apply Qmult_le_compat_r; [lra | lra]).
    assert (Hlo : (s - (1 # 2)) * pe <= m * pe)
      by (apply Qmult_le_compat_r; [lra | lra]).
    split; lra.
  - pose proof (fl_comp v 0 ltac:(lra)) as H0. pose proof fl_0. split; lra.
Qed.

End JsNumberFacts.

(** ** Facts about the Completion Calculator *)
Module CalcFacts.

Import JsNumber JsNumberFacts ProgressModel SpecSide.
Open Scope Q_scope.

Lemma filter_length_le {A} (f : A -> bool) (l : list A) :
  (List.length (filter f l) <= List.length l)%nat.
Proof. induction l as [|x l IH]; simpl; [lia|]. destruct (f x); simpl; lia. Qed.

Lemma count_range mods : 0 <= count_completed mods /\ count_completed mods <= length_Q mods.
Proof.
  unfold count_completed, length_Q. pose proof (filter_length_le completed mods).
  split; change 0 with (inject_Z 0); rewrite <- Zle_Qle; lia.
Qed.

Lemma js_gt_spec x y : js_gt x y = true <-> y < x.
Proof.
  unfold js_gt, js_lt. rewrite negb_true_iff. split.
  - intros H. apply Qnot_le_lt. intros C. apply Qle_bool_iff in C. congruence.
  - intros H. destruct (Qle_bool x y) eqn:E; [|reflexivity].
    apply Qle_bool_iff in E. lra.
Qed.

Lemma js_gt_false x y : js_gt x y = false -> x <= y.
Proof.
  unfold js_gt, js_lt. rewrite negb_false_iff. apply Qle_bool_iff.
Qed.

(** [Math.round(c / t * 100)] lies in [0, 100] when [0 <= c <= t]. *)
Lemma ratio_range c t : 0 <= c -> c <= t -> 0 < t ->
  (0 <= Math_round (js_mul (js_div c t) 100) <= 100)%Z.
Proof.
  intros Hc Hct Ht.
  assert (H1 : c / t <= 1) by (apply Qle_shift_div_r; lra).
  assert (H0 : 0 <= c / t) by (apply Qle_shift_div_l; lra).
  pose proof (fl_mono _ _ H1) as F1. pose proof (fl_mono _ _ H0) as F0.
  pose proof fl_1. pose proof fl_0.
  unfold js_div. set (d := fl (c / t)) in *.
  assert (G1 : d * 100 <= 100) by lra. assert (G0 : 0 <= d * 100) by lra.
  pose proof (fl_mono _ _ G1) as E1. pose proof (fl_mono _ _ G0) as E0.
  pose proof fl_100.
  apply Math_round_range; unfold js_mul; lra.
Qed.

Lemma inject_range z : (0 <= z <= 100)%Z -> 0 <= inject_Z z /\ inject_Z z <= 100.
Proof.
  intros H. split; [change 0 with (inject_Z 0)|change 100 with (inject_Z 100)];
    rewrite <- Zle_Qle; lia.
Qed.

Lemma overall_range p :
  0 <= calculateOverallProgress p /\ calculateOverallProgress p <= 100.
Proof.
  unfold calculateOverallProgress.
  destruct (moduleProgress p) as [|m ms] eqn:E; [lra|].
  rewrite <- E. apply inject_range.
  destruct (count_range (moduleProgress p)) as [H1 H2].
  apply ratio_range; [exact H1 | exact H2 |].
  rewrite E. unfold length_Q. simpl. change 0 with (inject_Z 0).
  rewrite <- Zlt_Qlt. lia.
Qed.

Lemma add_step ti ci t c :
  0 <= ci -> ci <= ti -> 0 <= c -> c <= t ->
  0 <= js_add ci c /\ js_add ci c <= js_add ti t.
Proof.
  intros H1 H2 H3 H4. unfold js_add. pose proof fl_0.
  assert (A : 0 <= ci + c) by lra. assert (B : ci + c <= ti + t) by lra.
  apply fl_mono in A. apply fl_mono in B. split; lra.
Qed.

Lemma completion_range p :
  (0 < totalAssignments p -> 0 <= completedAssignments p /\ completedAssignments p <= totalAssignments p) ->
  (0 < totalQuizzes p -> 0 <= completedQuizzes p /\ completedQuizzes p <= totalQuizzes p) ->
  0 <= calculateCompletionPercentage p /\ calculateCompletionPercentage p <= 100.
Proof.
  intros HA HQ. unfold calculateCompletionPercentage.
  destruct (count_range (moduleProgress p)) as [C0 C1].
  set (ti := length_Q (moduleProgress p)) in *.
  set (ci := count_completed (moduleProgress p)) in *.
  assert (S1 : exists ti1 ci1,
             (if js_gt (totalAssignments p) 0
              then (js_add ti (totalAssignments p), js_add ci (completedAssignments p))
              else (ti, ci)) = (ti1, ci1) /\ 0 <= ci1 /\ ci1 <= ti1).
  { destruct (js_gt (totalAssignments p) 0) eqn:E.
    - apply js_gt_spec in E. destruct (HA E).
      destruct (add_step ti ci (totalAssignments p) (completedAssignments p)) as [D1 D2];
        try assumption.
      eexists _, _. split; [reflexivity|]. split; assumption.
    - eexists _, _. split; [reflexivity|]. split; assumption. }
  destruct S1 as [ti1 [ci1 [E1 [D1 D2]]]]. rewrite E1.
  assert (S2 : exists ti2 ci2,
             (if js_gt (totalQuizzes p) 0
              then (js_add ti1 (totalQuizzes p), js_add ci1 (completedQuizzes p))
              else (ti1, ci1)) = (ti2, ci2) /\ 0 <= ci2 /\ ci2 <= ti2).
  { destruct (js_gt (totalQuizzes p) 0) eqn:E.
    - apply js_gt_spec in E. destruct (HQ E).
      destruct (add_step ti1 ci1 (totalQuizzes p) (completedQuizzes p)) as [F1 F2];
        try assumption.
      eexists _, _. split; [reflexivity|]. split; assumption.
    - eexists _, _. split; [reflexivity|]. split; assumption. }
  destruct S2 as [ti2 [ci2 [E2 [F1 F2]]]]. rewrite E2.
  destruct (js_gt ti2 0) eqn:E.
  - apply js_gt_spec in E. apply inject_range. apply ratio_range; assumption.
  - lra.
Qed.

(** When the counters [calculateCompletionPercentage] adds up to its total
    come to at most half of [Number.MAX_VALUE], no sum it forms exceeds
    [Number.MAX_VALUE]: JavaScript computes the same finite values. *)
Lemma completion_finite p :
  (0 < totalAssignments p -> 0 <= completedAssignments p /\ completedAssignments p <= totalAssignments p) ->
  (0 < totalQuizzes p -> 0 <= completedQuizzes p /\ completedQuizzes p <= totalQuizzes p) ->
  length_Q (moduleProgress p)
    + (if js_gt (totalAssignments p) 0 then totalAssignments p else 0)
    + (if js_gt (totalQuizzes p) 0 then totalQuizzes p else 0) <= MAX_VALUE * (1 # 2) ->
  let ti := length_Q (moduleProgress p) in
  let ci := count_completed (moduleProgress p) in
  let ti1 := if js_gt (totalAssignments p) 0 then js_add ti (totalAssignments p) else ti in
  let ci1 := if js_gt (totalAssignments p) 0 then js_add ci (completedAssignments p) else ci in
  let ti2 := if js_gt (totalQuizzes p) 0 then js_add ti1 (totalQuizzes p) else ti1 in
  let ci2 := if js_gt (totalQuizzes p) 0 then js_add ci1 (completedQuizzes p) else ci1 in
  0 <= ci1 <= ti1 /\ ti1 <= MAX_VALUE * (1 # 2) /\ 0 <= ci2 <= ti2 /\ ti2 <= MAX_VALUE.
Proof.
  intros HA HQ HT ti ci ti1 ci1 ti2 ci2.
  destruct (count_range (moduleProgress p)) as [C0 C1]. fold ci ti in C0, C1, HT.
  clearbody ti ci.
  assert (HM : 0 < MAX_VALUE) by (vm_compute; reflexivity).
  assert (A : 0 <= ci1 <= ti1 /\ ti1 <= MAX_VALUE * (1 # 2)
              /\ ti1 + (if js_gt (totalQuizzes p) 0 then totalQuizzes p else 0) <= MAX_VALUE).
  { unfold ti1, ci1. destruct (js_gt (totalAssignments p) 0) eqn:E.
    - apply js_gt_spec in E as E'. destruct (HA E') as [H1 H2].
      destruct (add_step ti ci (totalAssignments p) (completedAssignments p) C0 C1 H1 H2) as [D1 D2].
      assert (B : js_add ti (totalAssignments p) <= MAX_VALUE * (1 # 2)).
      { unfold js_add. rewrite <- fl_half_max. apply fl_mono.
        destruct (js_gt (totalQuizzes p) 0) eqn:F; [apply js_gt_spec in F|]; lra. }
      split; [lra|]. split; [exact B|].
      destruct (js_gt (totalQuizzes p) 0) eqn:F; [apply js_gt_spec in F|].
      + lra.
      + lra.
    - split; [lra|].
      destruct (js_gt (totalQuizzes p) 0) eqn:F; [apply js_gt_spec in F|]; lra. }
  destruct A as [[A0 A1] [A2 A3]].
  split; [lra|]. split; [exact A2|]. unfold ti2, ci2.
  destruct (js_gt (totalQuizzes p) 0) eqn:F.
  - apply js_gt_spec in F as F'. destruct (HQ F') as [H1 H2].
    destruct (add_step ti1 ci1 (totalQuizzes p) (completedQuizzes p) A0 A1 H1 H2) as [D1 D2].
    split; [lra|]. unfold js_add. rewrite <- fl_max. apply fl_mono. exact A3.
  - split; [lra|]. lra.
Qed.

End CalcFacts.

(** ** Rounding of the overall progress and of the final score *)
Module RoundingFacts.

Import JsNumber JsNumberFacts ProgressModel SpecSide CalcFacts.
Open Scope Q_scope.

Lemma overall_counts p :
  calculateOverallProgress p =
  match moduleProgress p with
  | [] => 0
  | mods => inject_Z (overall_code (List.length (filter completed mods)) (List.length mods))
  end.
Proof. unfold calculateOverallProgress. destruct (moduleProgress p); reflexivity. Qed.

Lemma overall_spec_counts p :
  overallProgress_spec p =
  match moduleProgress p with
  | [] => 0
  | mods => inject_Z (overall_exact (List.length (filter completed mods)) (List.length mods))
  end.
Proof. unfold overallProgress_spec. destruct (moduleProgress p); reflexivity. Qed.

Lemma check_overall_sound n c t :
  check_overall n = true -> (1 <= t <= n)%nat -> (c <= t)%nat ->
  overall_code c t = overall_exact c t.
Proof.
  unfold check_overall. intros H Ht Hc.
  rewrite forallb_forall in H.
  assert (Ht' : In t (seq 1 n)) by (apply in_seq; lia).
  specialize (H t Ht'). rewrite forallb_forall in H.
  assert (Hc' : In c (seq 0 (S t))) by (apply in_seq; lia).
  specialize (H c Hc'). apply Z.eqb_eq. exact H.
Qed.

Lemma check_overall_39 : check_overall 39 = true.
Proof. vm_compute. reflexivity. Qed.

Lemma Qfloor_unique m y : inject_Z m <= y -> y < inject_Z m + 1 -> Qfloor y = m.
Proof.
  intros H1 H2.
  assert (A : (m <= Qfloor y)%Z).
  { rewrite <- (Qfloor_Z m). apply Qfloor_resp_le. exact H1. }
  assert (B : inject_Z (Qfloor y) < inject_Z (m + 1)).
  { pose proof (Qfloor_le y). rewrite inject_Z_succ. lra. }
  rewrite <- Zlt_Qlt in B. lia.
Qed.

(** [0.4 * q + 0.6 * a + 0.5] has an odd numerator over 10 for integers
    [q] and [a]: it is at least [1/10] away from every integer. *)
Lemma floor_tie_free (zq za : Z) (y : Q) :
  let X := (4 # 10) * inject_Z zq + (6 # 10) * inject_Z za in
  X - (1 # 20) <= y -> y <= X + (1 # 20) ->
  Qfloor (y + (1 # 2)) = Qfloor (X + (1 # 2)).
Proof.
  intros X H1 H2.
  set (N := (4 * zq + 6 * za + 5)%Z).
  assert (HN : inject_Z N == 4 * inject_Z zq + 6 * inject_Z za + 5).
  { unfold N. rewrite !inject_Z_plus, !inject_Z_mult. reflexivity. }
  set (m := (N / 10)%Z).
  assert (Hm : (10 * m + 1 <= N <= 10 * m + 9)%Z).
  { pose proof (Z.div_mod N 10 ltac:(lia)) as D. pose proof (Z.mod_pos_bound N 10 ltac:(lia)).
    assert (Z.odd N = true).
    { unfold N. replace (4 * zq + 6 * za + 5)%Z with (1 + 2 * (2 * zq + 3 * za + 2))%Z by lia.
      rewrite Z.odd_add_mul_2. reflexivity. }
    assert (N mod 10 <> 0)%Z.
    { intros E. rewrite E in D. rewrite D in H0. rewrite Z.add_0_r in H0.
      replace (10 * (N / 10))%Z with (2 * (5 * (N / 10)))%Z in H0 by lia.
      rewrite Z.odd_mul in H0. discriminate. }
    fold m in D. lia. }
  destruct Hm as [Hm1 Hm2].
  rewrite Zle_Qle in Hm1, Hm2.
  rewrite inject_Z_plus, inject_Z_mult in Hm1, Hm2.
  change (inject_Z 10) with 10 in Hm1, Hm2. change (inject_Z 1) with 1 in Hm1.
  change (inject_Z 9) with 9 in Hm2.
  rewrite (Qfloor_unique m (y + (1 # 2))) by (unfold X in *; lra).
  rewrite (Qfloor_unique m (X + (1 # 2))) by (unfold X in *; lra).
  reflexivity.
Qed.

Lemma Qmult_le_compat_l' x y z : x <= y -> 0 <= z -> z * x <= z * y.
Proof. intros H1 H2. rewrite !(Qmult_comm z). apply Qmult_le_compat_r; assumption. Qed.

(** Error bound of the weighted score computed in binary64. *)
Lemma weighted_err (q a : Q) :
  0 <= q <= 100 -> 0 <= a <= 100 ->
  let X := (4 # 10) * q + (6 # 10) * a in
  let y := js_add (js_mul q lit_0_4) (js_mul a lit_0_6) in
  X - (1 # 20) <= y /\ y <= X + (1 # 20).
Proof.
  intros Hq Ha X y.
  destruct (fl_rel_err (4 # 10) ltac:(lra)) as [L1 L2].
  destruct (fl_rel_err (6 # 10) ltac:(lra)) as [K1 K2].
  unfold lit_0_4, lit_0_6 in *. unfold y, js_add, js_mul.
  set (l4 := fl (4 # 10)) in *. set (l6 := fl (6 # 10)) in *.
  assert (M1 : q * ((4 # 10) - (4 # 10) * (1 # 9007199254740992)) <= q * l4)
    by (apply Qmult_le_compat_l'; lra).
  assert (M2 : q * l4 <= q * ((4 # 10) + (4 # 10) * (1 # 9007199254740992)))
    by (apply Qmult_le_compat_l'; lra).
  assert (M3 : a * ((6 # 10) - (6 # 10) * (1 # 9007199254740992)) <= a * l6)
    by (apply Qmult_le_compat_l'; lra).
  assert (M4 : a * l6 <= a * ((6 # 10) + (6 # 10) * (1 # 9007199254740992)))
    by (apply Qmult_le_compat_l'; lra).
  assert (P1 : 0 <= q * l4) by lra. assert (P2 : 0 <= a * l6) by lra.
  destruct (fl_rel_err (q * l4) P1) as [A1 A2].
  destruct (fl_rel_err (a * l6) P2) as [B1 B2].
  set (fq := fl (q * l4)) in *. set (fa := fl (a * l6)) in *.
  assert (P3 : 0 <= fq + fa) by lra.
  destruct (fl_rel_err (fq + fa) P3) as [C1 C2].
  unfold X. split; lra.
Qed.

End RoundingFacts.

(** ** Facts about the controllers *)
Module ControllerFacts.

Import JsNumber JsNumberFacts ProgressModel CertificateModel Pipeline Observations CalcFacts.
Open Scope Q_scope.

Lemma findIndex_find_none {A} (f : A -> bool) (l : list A) :
  find f l = None -> findIndex f l = None.
Proof.
  induction l as [|x l IH]; simpl; [reflexivity|].
  destruct (f x); [discriminate|]. intros H. rewrite (IH H). reflexivity.
Qed.

Lemma js_add_nonneg x t : 0 <= x -> 0 < t -> 0 <= js_add x t.
Proof.
  intros H1 H2. unfold js_add. pose proof fl_0.
  assert (A : 0 <= x + t) by lra. apply fl_mono in A. lra.
Qed.

(** Raising [totalTimeSpent] keeps a valid record valid. *)
Lemma validate_add_time p mods t d :
  validate p = true -> 0 < t -> mods = moduleProgress p ->
  validate (set_lastActivity (set_modules_time p mods (js_add (totalTimeSpent p) t)) d) = true.
Proof.
  intros Hv Ht ->. unfold validate in *. simpl.
  apply andb_true_iff in Hv as [Hv Hm]. apply andb_true_iff in Hv as [Hv Ht0].
  rewrite Hv, Hm. simpl. rewrite andb_true_r.
  apply Qle_bool_iff. apply js_add_nonneg; [apply Qle_bool_iff; exact Ht0 | exact Ht].
Qed.

End ControllerFacts.

(** ** Facts about [markLessonComplete] and [updateProgress] *)
Module MarkFacts.

Import JsNumber JsNumberFacts ProgressModel CertificateModel Pipeline Observations
       CalcFacts RoundingFacts.
Open Scope Q_scope.

Lemma markLessonComplete_unfold sq env g w s c m l t :
  let out := markLessonComplete sq env g w s c m l t in
  match record_of sq w s c with
  | None => out = (w, R404)
  | Some p =>
    match findIndex (fun x => Nat.eqb (moduleId x) m) (moduleProgress p) with
    | None => out = (w, R404)
    | Some i =>
      match nth_error (moduleProgress p) i with
      | None => out = (w, R404)
      | Some md =>
        match course_findById env c with
        | None => out = (w, R500)
        | Some crs =>
          exists md' tt,
            moduleId md' = moduleId md
            /\ completedLessons md' =
                 (if existsb (Nat.eqb l) (completedLessons md) then completedLessons md
                  else completedLessons md ++ [l])
            /\ completed md' =
                 (completed md
                  || match find (fun cm => Nat.eqb (cm_oid cm) m) (course_modules crs) with
                     | Some cm => Nat.leb (List.length (cm_lessons cm))
                                          (List.length (completedLessons md'))
                     | None => false
                     end)
            /\ ProgressModel.timeSpent md' =
                 match t with
                 | Some t => if js_gt t 0 then js_add (ProgressModel.timeSpent md) t
                             else ProgressModel.timeSpent md
                 | None => ProgressModel.timeSpent md
                 end
            /\ tt = match t with
                    | Some t => if js_gt t 0 then js_add (totalTimeSpent p) t
                                else totalTimeSpent p
                    | None => totalTimeSpent p
                    end
            /\ out = (let '(w', r) :=
                        updateProgress env g w
                          (set_modules_time p (replace_nth i md' (moduleProgress p)) tt) in
                      match r with Ok q => (w', R200_progress q) | Err _ => (w', R500) end)
        end
      end
    end
  end.
Proof.
  intros out. unfold out, markLessonComplete, record_of.
  destruct (progress_findOne sq w _) as [p|]; [|reflexivity].
  destruct (findIndex _ _) as [i|]; [|reflexivity].
  destruct (nth_error _ i) as [md|]; [|reflexivity].
  set (md1 := if existsb (Nat.eqb l) (completedLessons md) then md
              else set_completedLessons md (completedLessons md ++ [l])).
  assert (C1 : completedLessons md1 =
               (if existsb (Nat.eqb l) (completedLessons md) then completedLessons md
                else completedLessons md ++ [l]))
    by (unfold md1; destruct (existsb _ _); reflexivity).
  assert (I1 : moduleId md1 = moduleId md) by (unfold md1; destruct (existsb _ _); reflexivity).
  assert (D1 : completed md1 = completed md) by (unfold md1; destruct (existsb _ _); reflexivity).
  assert (T1 : ProgressModel.timeSpent md1 = ProgressModel.timeSpent md)
    by (unfold md1; destruct (existsb _ _); reflexivity).
  clearbody md1.
  destruct t as [t|]; [destruct (js_gt t 0) eqn:Et|]; cbv beta iota zeta.
  all: destruct (course_findById env c) as [crs|]; [|reflexivity].
  all: eexists _, _; split; [|split; [|split; [|split; [|split; [reflexivity|reflexivity]]]]].
  all: destruct (find (fun cm => Nat.eqb (cm_oid cm) m) (course_modules crs)) as [cm|] eqn:Ef;
    simpl.
  all: try (match goal with |- context [Nat.leb ?a ?b] => destruct (Nat.leb a b) eqn:El end).
  all: simpl; rewrite ?El, ?I1, ?C1, ?D1, ?T1, ?orb_true_r, ?orb_false_r; reflexivity.
Qed.

(** The document both controllers build fails validation. *)
Lemma new_certificate_invalid g crs c :
  validate_certificate (map_new (generateCertificateNumber g)
                  (map_new (generateVerificationCode g) (new_certificate crs c))) = false.
Proof. reflexivity. Qed.

Lemma issue_new_certificate g w crs c :
  issueCertificate_new g w (map_new (generateCertificateNumber g)
                              (map_new (generateVerificationCode g) (new_certificate crs c)))
  = (w, Err ValidationError).
Proof. unfold issueCertificate_new. rewrite new_certificate_invalid. reflexivity. Qed.

(** [autoGenerateCertificate] writes nothing, and succeeds only with the
    stored certificate of the pair. *)
Lemma autoGenerate_world env g w s c pd :
  fst (autoGenerateCertificate env g w s c pd) = w.
Proof.
  unfold autoGenerateCertificate.
  destruct (certificate_findOne w s c); [reflexivity|].
  destruct (course_findById env c) as [crs|]; [|reflexivity].
  destruct (user_findById env s); [|reflexivity].
  destruct (course_instructor crs); [|reflexivity].
  cbv zeta. rewrite issue_new_certificate. reflexivity.
Qed.

Lemma autoGenerate_ok env g w s c pd crt :
  snd (autoGenerateCertificate env g w s c pd) = Ok crt ->
  certificate_findOne w s c = Some crt.
Proof.
  unfold autoGenerateCertificate.
  destruct (certificate_findOne w s c); [simpl; congruence|].
  destruct (course_findById env c) as [crs|]; [|discriminate].
  destruct (user_findById env s); [|discriminate].
  destruct (course_instructor crs); [|discriminate].
  cbv zeta. rewrite issue_new_certificate. discriminate.
Qed.

Lemma autoGenerate_progresses env g w s c pd :
  progresses (fst (autoGenerateCertificate env g w s c pd)) = progresses w.
Proof. rewrite autoGenerate_world. reflexivity. Qed.

Lemma validate_set_completion p d : validate (set_completion p d) = validate p.
Proof. reflexivity. Qed.
Lemma validate_set_certificate p id : validate (set_certificate p id) = validate p.
Proof. reflexivity. Qed.

Lemma save_ok_true w q :
  save_ok w q = true ->
  save_progress w q
  = (mkWorld (map (fun d => if same_oid d q then q else d) (progresses w)) (certificates w), Ok q).
Proof.
  unfold save_ok, save_target, save_progress. intros H.
  apply andb_true_iff in H as [H1 H]. apply andb_true_iff in H as [H2 H3].
  rewrite H1, H2. simpl. apply negb_true_iff in H3. rewrite H3. reflexivity.
Qed.

Lemma save_ok_false w q :
  save_ok w q = false ->
  fst (save_progress w q) = w /\ exists e, snd (save_progress w q) = Err e.
Proof.
  unfold save_ok, save_target, save_progress.
  destruct (validate q); [simpl|intros _; split; [reflexivity|eexists; reflexivity]].
  destruct (existsb (same_oid q) _); simpl; [|intros _; split; [reflexivity|eexists; reflexivity]].
  destruct (existsb _ _); simpl; [intros _; split; [reflexivity|eexists; reflexivity]|discriminate].
Qed.

Lemma save_world w q :
  fst (save_progress w q) = w
  \/ fst (save_progress w q)
     = mkWorld (map (fun d => if same_oid d q then q else d) (progresses w)) (certificates w).
Proof.
  destruct (save_ok w q) eqn:E.
  - right. rewrite (save_ok_true _ _ E). reflexivity.
  - left. exact (proj1 (save_ok_false _ _ E)).
Qed.

Lemma save_target_ext w a b :
  progress_oid a = progress_oid b ->
  ProgressModel.student a = ProgressModel.student b ->
  ProgressModel.course a = ProgressModel.course b ->
  save_target w a = save_target w b.
Proof. intros O S C. unfold save_target, same_oid, same_doc. rewrite O, S, C. reflexivity. Qed.

(** After [a] is written, a document with its [_id] and pair can be written. *)
Lemma save_target_replace w a b cs :
  save_target w a = true ->
  progress_oid b = progress_oid a ->
  ProgressModel.student b = ProgressModel.student a ->
  ProgressModel.course b = ProgressModel.course a ->
  save_target (mkWorld (map (fun d => if same_oid d a then a else d) (progresses w)) cs) b = true.
Proof.
  intros H O S C. rewrite (save_target_ext _ b a O S C).
  unfold save_target in *. simpl. apply andb_true_iff in H as [H1 H2].
  apply negb_true_iff in H2. apply andb_true_iff. split.
  - apply existsb_exists in H1 as [d [Hd Ed]]. apply existsb_exists.
    exists a. split; [|unfold same_oid; apply Nat.eqb_refl].
    apply in_map_iff. exists d. split; [|exact Hd].
    unfold same_oid in *. rewrite Nat.eqb_sym, Ed. reflexivity.
  - apply negb_true_iff. clear H1 O S C.
    induction (progresses w) as [|d l IH]; simpl in *; [reflexivity|].
    apply orb_false_iff in H2 as [H2 H3]. apply orb_false_iff. split; [|exact (IH H3)].
    destruct (same_oid d a) eqn:E.
    + unfold same_oid. rewrite Nat.eqb_refl. reflexivity.
    + rewrite E. exact H2.
Qed.

Lemma update_cases env g w q :
  (save_ok w (derive g q) = false
   /\ fst (updateProgress env g w q) = w
   /\ exists e, snd (updateProgress env g w q) = Err e)
  \/ (save_ok w (derive g q) = true
      /\ exists q', snd (updateProgress env g w q) = Ok q'
         /\ progresses (fst (updateProgress env g w q))
            = map (fun d => if same_oid d q' then q' else d) (progresses w)
         /\ core q' = core q /\ moduleProgress q' = moduleProgress q
         /\ ProgressModel.student q' = ProgressModel.student q
         /\ ProgressModel.course q' = ProgressModel.course q
         /\ overallProgress q' = calculateOverallProgress q
         /\ completionPercentage q' = calculateCompletionPercentage q
         /\ ProgressModel.finalScore q' = calculateFinalScore q
         /\ progress_oid q' = progress_oid q
         /\ certificates (fst (updateProgress env g w q)) = certificates w).
Proof.
  unfold updateProgress. fold (derive g q).
  set (p1 := derive g q).
  assert (K : forall r, validate r = validate p1 -> progress_oid r = progress_oid p1 ->
                ProgressModel.student r = ProgressModel.student p1 ->
                ProgressModel.course r = ProgressModel.course p1 ->
                save_ok w r = save_ok w p1).
  { intros r V O S C. unfold save_ok. rewrite V, (save_target_ext w r p1 O S C). reflexivity. }
  assert (G : forall r, save_ok w r = save_ok w p1 ->
                core r = core q -> moduleProgress r = moduleProgress q ->
                ProgressModel.student r = ProgressModel.student q ->
                ProgressModel.course r = ProgressModel.course q ->
                overallProgress r = calculateOverallProgress q ->
                completionPercentage r = calculateCompletionPercentage q ->
                ProgressModel.finalScore r = calculateFinalScore q ->
                progress_oid r = progress_oid q ->
    (save_ok w p1 = false /\ fst (save_progress w r) = w
     /\ exists e, snd (save_progress w r) = Err e)
    \/ (save_ok w p1 = true
        /\ exists q', snd (save_progress w r) = Ok q'
           /\ progresses (fst (save_progress w r))
              = map (fun d => if same_oid d q' then q' else d) (progresses w)
           /\ core q' = core q /\ moduleProgress q' = moduleProgress q
           /\ ProgressModel.student q' = ProgressModel.student q
           /\ ProgressModel.course q' = ProgressModel.course q
           /\ overallProgress q' = calculateOverallProgress q
           /\ completionPercentage q' = calculateCompletionPercentage q
           /\ ProgressModel.finalScore q' = calculateFinalScore q
           /\ progress_oid q' = progress_oid q
           /\ certificates (fst (save_progress w r)) = certificates w)).
  { intros r E H1 H2 H3 H4 H5 H6 H7 H8. rewrite <- E.
    destruct (save_ok w r) eqn:ES.
    - right. split; [reflexivity|]. exists r. rewrite (save_ok_true _ _ ES).
      repeat split; assumption.
    - left. split; [reflexivity|]. exact (save_ok_false _ _ ES). }
  destruct (js_ge (completionPercentage p1) 100 && negb (is_set (ProgressModel.completionDate p1))).
  - destruct (negb (certificateGenerated (set_completion p1 (gen_now g)))).
    + pose proof (autoGenerate_world env g w (ProgressModel.student (set_completion p1 (gen_now g)))
                    (ProgressModel.course (set_completion p1 (gen_now g)))
                    (set_completion p1 (gen_now g))) as PA.
      destruct (autoGenerateCertificate env g w _ _ _) as [w' r] eqn:EA.
      simpl in PA. subst w'.
      destruct r as [crt|e]; apply G; try reflexivity; apply K; reflexivity.
    + apply G; try reflexivity; apply K; reflexivity.
  - apply G; reflexivity.
Qed.

Lemma find_ext {A} (f h : A -> bool) (l : list A) :
  (forall x, f x = h x) -> find f l = find h l.
Proof. intros E. induction l as [|x l IH]; simpl; [reflexivity|]. rewrite E, IH. reflexivity. Qed.

Lemma record_of_pair sq w s c :
  record_of sq w s c = find (by_pair s c) (progresses w).
Proof.
  unfold record_of, progress_findOne. apply find_ext. intros p.
  destruct sq; simpl; unfold by_pair; rewrite andb_true_r; reflexivity.
Qed.

Lemma record_of_in sq w s c p :
  record_of sq w s c = Some p ->
  In p (progresses w) /\ ProgressModel.student p = s /\ ProgressModel.course p = c.
Proof.
  rewrite record_of_pair. intros H. apply find_some in H as [H1 H2].
  unfold by_pair in H2. apply andb_true_iff in H2 as [H2 H3].
  apply Nat.eqb_eq in H2, H3. auto.
Qed.

Lemma find_oid_replace s c (q p : Progress) ps :
  find (by_pair s c) ps = Some p -> progress_oid q = progress_oid p ->
  ProgressModel.student q = s -> ProgressModel.course q = c ->
  find (by_pair s c) (map (fun d => if same_oid d q then q else d) ps) = Some q.
Proof.
  intros H O S C. induction ps as [|d ps IH]; simpl in *; [discriminate|].
  assert (Bq : by_pair s c q = true) by (unfold by_pair; rewrite S, C, !Nat.eqb_refl; reflexivity).
  destruct (same_oid d q) eqn:E; [rewrite Bq; reflexivity|].
  destruct (by_pair s c d) eqn:Bd; [|exact (IH H)].
  injection H as <-. unfold same_oid in E. rewrite O, Nat.eqb_refl in E. discriminate.
Qed.

Lemma map_core_counts (l l' : list ModuleProgress) :
  map core_module l = map core_module l' ->
  List.length (filter completed l) = List.length (filter completed l')
  /\ List.length l = List.length l'.
Proof.
  revert l'. induction l as [|x l IH]; intros [|y l'] H; simpl in H; try discriminate.
  - split; reflexivity.
  - injection H as _ Hc _ _ Hl. destruct (IH l' Hl) as [A B].
    simpl. rewrite Hc. destruct (completed y); simpl; split; lia.
Qed.

Lemma map_core_lessons (l l' : list ModuleProgress) :
  map core_module l = map core_module l' ->
  map completedLessons l = map completedLessons l'.
Proof.
  revert l'. induction l as [|x l IH]; intros [|y l'] H; simpl in H; try discriminate.
  - reflexivity.
  - injection H as _ _ Hc _ Hl.
    simpl. rewrite Hc, (IH l' Hl). reflexivity.
Qed.

Lemma map_core_times (l l' : list ModuleProgress) :
  map core_module l = map core_module l' ->
  forallb (fun m => Qle_bool 0 (ProgressModel.timeSpent m)) l
  = forallb (fun m => Qle_bool 0 (ProgressModel.timeSpent m)) l'.
Proof.
  revert l'. induction l as [|x l IH]; intros [|y l'] H; simpl in H; try discriminate.
  - reflexivity.
  - injection H as _ _ _ Ht Hl.
    simpl. rewrite Ht, (IH l' Hl). reflexivity.
Qed.

Lemma calc_core p p' :
  core p = core p' ->
  calculateOverallProgress p = calculateOverallProgress p'
  /\ calculateCompletionPercentage p = calculateCompletionPercentage p'
  /\ calculateFinalScore p = calculateFinalScore p'.
Proof.
  unfold core. intros H. injection H as Hm Hta Hca Htq Hcq Haq Haa Htt.
  destruct (map_core_counts _ _ Hm) as [Hf Hl].
  split; [|split].
  - rewrite !overall_counts.
    destruct (moduleProgress p) as [|x xs], (moduleProgress p') as [|y ys];
      try (simpl in Hl; discriminate); [reflexivity|].
    cbv zeta. rewrite Hf, Hl. reflexivity.
  - unfold calculateCompletionPercentage, count_completed, length_Q.
    rewrite Hf, Hl, Hta, Hca, Htq, Hcq. reflexivity.
  - unfold calculateFinalScore. rewrite Haq, Haa. reflexivity.
Qed.

Lemma validate_core g g' q q' :
  core q = core q' -> validate (derive g q) = validate (derive g' q').
Proof.
  intros H. destruct (calc_core _ _ H) as [E1 [E2 E3]].
  unfold core in H. injection H as Hm Hta Hca Htq Hcq Haq Haa Htt.
  unfold validate, derive. simpl.
  rewrite E1, E2, E3, Haq, Haa, Htt, (map_core_times _ _ Hm). reflexivity.
Qed.

(** Two saves of records with the same core, [_id] and pair, into worlds with
    the same progress collection, have the same outcome. *)
Lemma save_ok_same w w' g g' q q' :
  progresses w = progresses w' -> core q = core q' ->
  progress_oid q = progress_oid q' ->
  ProgressModel.student q = ProgressModel.student q' ->
  ProgressModel.course q = ProgressModel.course q' ->
  save_ok w (derive g q) = save_ok w' (derive g' q').
Proof.
  intros Hw K O S C. unfold save_ok. rewrite (validate_core g g' q q' K). f_equal.
  rewrite (save_target_ext w (derive g q) (derive g' q') O S C).
  unfold save_target. rewrite Hw. reflexivity.
Qed.

(** Once [a] has been written in place of a record accepted for [q], a record
    with [q]'s core, [_id] and pair is accepted too. *)
Lemma save_ok_next w cs g g' q a b :
  save_ok w (derive g q) = true -> core b = core q ->
  progress_oid a = progress_oid q ->
  ProgressModel.student a = ProgressModel.student q ->
  ProgressModel.course a = ProgressModel.course q ->
  progress_oid b = progress_oid q ->
  ProgressModel.student b = ProgressModel.student q ->
  ProgressModel.course b = ProgressModel.course q ->
  save_ok (mkWorld (map (fun d => if same_oid d a then a else d) (progresses w)) cs) (derive g' b) = true.
Proof.
  intros H K Oa Sa Ca Ob Sb Cb. unfold save_ok in *. apply andb_true_iff in H as [V T].
  rewrite (validate_core g' g b q K), V. simpl.
  apply save_target_replace; [| simpl; congruence ..].
  rewrite (save_target_ext w a (derive g q)); [exact T | exact Oa | exact Sa | exact Ca].
Qed.


Lemma findIndex_some {A} (f : A -> bool) (l : list A) i :
  findIndex f l = Some i -> exists y, nth_error l i = Some y /\ f y = true.
Proof.
  revert i. induction l as [|x l IH]; intros i H; simpl in H; [discriminate|].
  destruct (f x) eqn:E.
  - injection H as <-. exists x. split; [reflexivity|exact E].
  - destruct (findIndex f l) as [j|] eqn:Ej; simpl in H; [|discriminate].
    injection H as <-. destruct (IH j eq_refl) as [y [H1 H2]]. exists y. split; assumption.
Qed.

Lemma findIndex_replace {A} (f : A -> bool) (l : list A) i x :
  findIndex f l = Some i -> f x = true -> findIndex f (replace_nth i x l) = Some i.
Proof.
  revert i. induction l as [|y l IH]; intros i H Hx; simpl in H; [discriminate|].
  destruct (f y) eqn:E.
  - injection H as <-. simpl. rewrite Hx. reflexivity.
  - destruct (findIndex f l) as [j|] eqn:Ej; simpl in H; [|discriminate].
    injection H as <-. simpl. rewrite E, (IH j eq_refl Hx). reflexivity.
Qed.

Lemma nth_error_replace {A} (l : list A) i x y :
  nth_error l i = Some y -> nth_error (replace_nth i x l) i = Some x.
Proof.
  revert i. induction l as [|z l IH]; intros [|i] H; simpl in H |- *; try discriminate;
    [reflexivity | exact (IH i H)].
Qed.

Lemma replace_replace {A} (l : list A) i x y :
  replace_nth i x (replace_nth i y l) = replace_nth i x l.
Proof.
  revert i. induction l as [|z l IH]; intros [|i]; simpl; try reflexivity. rewrite IH. reflexivity.
Qed.

Lemma map_replace {A B} (f : A -> B) (l : list A) i x :
  map f (replace_nth i x l) = replace_nth i (f x) (map f l).
Proof.
  revert i. induction l as [|z l IH]; intros [|i]; simpl; try reflexivity. rewrite IH. reflexivity.
Qed.

Lemma existsb_pushed l L :
  existsb (Nat.eqb l) (if existsb (Nat.eqb l) L then L else L ++ [l]) = true.
Proof.
  destruct (existsb (Nat.eqb l) L) eqn:E; [exact E|].
  rewrite existsb_app. simpl. rewrite Nat.eqb_refl. apply orb_true_r.
Qed.

Lemma orb_absorb (a b : bool) : (a || b) || b = a || b.
Proof. destruct a, b; reflexivity. Qed.

Lemma fst_mark_result (u : World * Res Progress) :
  fst (let '(w', r) := u in
       match r with Ok q => (w', R200_progress q) | Err _ => (w', R500) end) = fst u.
Proof. destruct u as [w' [q|e]]; reflexivity. Qed.

Lemma snd_mark_result (u : World * Res Progress) :
  snd (let '(w', r) := u in
       match r with Ok q => (w', R200_progress q) | Err _ => (w', R500) end)
  = match snd u with Ok q => R200_progress q | Err _ => R500 end.
Proof. destruct u as [w' [q|e]]; reflexivity. Qed.

Lemma record_after_update sq env g w q p s c :
  record_of sq w s c = Some p -> progress_oid q = progress_oid p ->
  ProgressModel.student q = s -> ProgressModel.course q = c ->
  (save_ok w (derive g q) = false
   /\ fst (updateProgress env g w q) = w
   /\ record_of sq (fst (updateProgress env g w q)) s c = Some p)
  \/ (save_ok w (derive g q) = true
      /\ exists q', snd (updateProgress env g w q) = Ok q'
         /\ record_of sq (fst (updateProgress env g w q)) s c = Some q'
         /\ core q' = core q /\ moduleProgress q' = moduleProgress q
         /\ ProgressModel.student q' = s /\ ProgressModel.course q' = c
         /\ snapshot q' = (calculateOverallProgress q, calculateCompletionPercentage q,
                           calculateFinalScore q, map completedLessons (moduleProgress q))
         /\ progress_oid q' = progress_oid q
         /\ progresses (fst (updateProgress env g w q))
            = map (fun d => if same_oid d q' then q' else d) (progresses w)).
Proof.
  intros Hp Ho Hs Hc.
  destruct (update_cases env g w q)
    as [[V [P _]] | [V [q' [R [P [K [M [S [C [O [Cp [F [O' _]]]]]]]]]]]]].
  - left. split; [exact V|]. split; [exact P|]. rewrite P. exact Hp.
  - right. split; [exact V|]. exists q'. split; [exact R|].
    split; [|split; [exact K|split; [exact M|split; [congruence|split; [congruence|]]]]].
    + rewrite record_of_pair, P. rewrite (record_of_pair sq) in Hp.
      apply (find_oid_replace s c q' p); [exact Hp|congruence|congruence|congruence].
    + split; [|split; [exact O'|exact P]].
      unfold snapshot. rewrite O, Cp, F, M. reflexivity.
Qed.

Lemma core_after_mark p i md md1 md2 tt1 tt2 :
  nth_error (moduleProgress p) i = Some md ->
  core_module md1 = core_module md2 -> tt1 = tt2 ->
  core (set_modules_time p (replace_nth i md1 (moduleProgress p)) tt1)
  = core (set_modules_time p (replace_nth i md2 (moduleProgress p)) tt2).
Proof.
  intros _ H ->. unfold core. simpl. rewrite !map_replace, H. reflexivity.
Qed.

End MarkFacts.

(** ** Facts about the certificate invariant *)
Module InvariantFacts.

Import JsNumber ProgressModel CertificateModel Pipeline Observations MarkFacts.
Open Scope Q_scope.

Lemma record_ok_mono cs cs' p :
  (forall x, In x cs -> In x cs') -> record_ok cs p -> record_ok cs' p.
Proof.
  intros H [H1 H2]. split; [exact H1|]. intros id Hid.
  destruct (H2 id Hid) as [x [Hx R]]. exists x. split; [apply H; exact Hx | exact R].
Qed.

Lemma record_ok_keeps cs p q :
  keeps_certificate_fields q p -> record_ok cs p -> record_ok cs q.
Proof.
  intros [Hs [Hc [He Hg]]] [H1 H2]. split.
  - rewrite He, Hg. exact H1.
  - intros id Hid. rewrite He in Hid. destruct (H2 id Hid) as [x [Hx [Ho [Hxs Hxc]]]].
    exists x. rewrite Hs, Hc. auto.
Qed.

Lemma save_inv w q :
  certificate_invariant w -> record_ok (certificates w) q ->
  certificate_invariant (fst (save_progress w q)).
Proof.
  intros [Hr Hu] Hq. destruct (save_world w q) as [E|E]; rewrite E; [split; assumption|].
  split; [|exact Hu]. intros r Hin. apply in_map_iff in Hin as [d [Hd Hdin]].
  destruct (same_oid d q); subst; [exact Hq | apply Hr; exact Hdin].
Qed.

Lemma existsb_false_forall {A} (f : A -> bool) l x :
  existsb f l = false -> In x l -> f x = false.
Proof.
  intros H Hx. destruct (f x) eqn:E; [|reflexivity].
  assert (existsb f l = true) by (apply existsb_exists; exists x; auto). congruence.
Qed.

Lemma record_complete_keeps cs p q :
  keeps_certificate_fields q p -> record_complete cs p -> record_complete cs q.
Proof.
  intros [Hs [Hc [He Hg]]] H c Hin H1 H2. rewrite Hg. apply (H c Hin); congruence.
Qed.

Lemma save_certificates w q : certificates (fst (save_progress w q)) = certificates w.
Proof. destruct (save_world w q) as [E|E]; rewrite E; reflexivity. Qed.

Lemma save_full w q :
  pipeline_invariant w -> record_ok (certificates w) q -> record_complete (certificates w) q ->
  pipeline_invariant (fst (save_progress w q)).
Proof.
  intros [Hi Hc] Hq Hq'. split; [exact (save_inv w q Hi Hq)|].
  rewrite save_certificates. destruct (save_world w q) as [E|E]; rewrite E; [exact Hc|].
  intros r Hin. apply in_map_iff in Hin as [d [Hd Hdin]].
  destruct (same_oid d q); subst; [exact Hq' | apply Hc; exact Hdin].
Qed.

Lemma find_pair_in w s c crt :
  certificate_findOne w s c = Some crt ->
  In crt (certificates w) /\ CertificateModel.student crt = s /\ CertificateModel.course crt = c.
Proof.
  unfold certificate_findOne. intros Ex.
  apply find_some in Ex as [Hin Hp]. apply andb_true_iff in Hp as [H1 H2].
  apply Nat.eqb_eq in H1, H2. auto.
Qed.

Lemma update_full env g w q :
  pipeline_invariant w -> record_ok (certificates w) q -> record_complete (certificates w) q ->
  pipeline_invariant (fst (updateProgress env g w q)).
Proof.
  intros Hi Hq Hq'. unfold updateProgress. fold (derive g q).
  destruct (js_ge _ 100 && negb _); [|apply save_full; assumption].
  destruct (negb (certificateGenerated _)); [|apply save_full; assumption].
  pose proof (autoGenerate_world env g w (ProgressModel.student q) (ProgressModel.course q)
                (set_completion (derive g q) (gen_now g))) as Ew.
  pose proof (autoGenerate_ok env g w (ProgressModel.student q) (ProgressModel.course q)
                (set_completion (derive g q) (gen_now g))) as Eo.
  destruct (autoGenerateCertificate env g w _ _ _) as [w' [crt|e]]; simpl in Ew, Eo; subst w'.
  - destruct (find_pair_in _ _ _ _ (Eo crt eq_refl)) as [Hin [Hs Hc]].
    apply save_full; [exact Hi| |intros c _ _ _; reflexivity].
    split; [simpl; split; reflexivity|].
    intros id Hid. simpl in Hid. injection Hid as <-. exists crt. auto.
  - apply save_full; assumption.
Qed.

Lemma mark_step sq env g w s c m l t :
  fst (markLessonComplete sq env g w s c m l t) = w
  \/ exists p q, In p (progresses w) /\ keeps_certificate_fields q p
     /\ fst (markLessonComplete sq env g w s c m l t) = fst (updateProgress env g w q).
Proof.
  pose proof (markLessonComplete_unfold sq env g w s c m l t) as U. cbv zeta in U.
  destruct (record_of sq w s c) as [p|] eqn:Ep; [|left; rewrite U; reflexivity].
  destruct (findIndex _ _) as [i|]; [|left; rewrite U; reflexivity].
  destruct (nth_error _ i) as [md|]; [|left; rewrite U; reflexivity].
  destruct (course_findById env c) as [crs|]; [|left; rewrite U; reflexivity].
  destruct U as [md' [tt [_ [_ [_ [_ [_ E]]]]]]].
  right. exists p, (set_modules_time p (replace_nth i md' (moduleProgress p)) tt).
  split; [exact (proj1 (record_of_in _ _ _ _ _ Ep))|].
  split; [repeat split|]. rewrite E. apply fst_mark_result.
Qed.

Lemma time_step sq g w s c m t :
  fst (addTimeSpent sq g w s c m t) = w
  \/ exists p q, In p (progresses w) /\ keeps_certificate_fields q p
     /\ fst (addTimeSpent sq g w s c m t) = fst (save_progress w q).
Proof.
  unfold addTimeSpent. destruct t as [t|]; [|left; reflexivity].
  destruct (negb (js_gt t 0)); [left; reflexivity|].
  destruct (progress_findOne sq w _) as [p|] eqn:Ep; [|left; reflexivity].
  right. match goal with |- context [save_progress w ?X] => exists p, X end.
  split; [exact (proj1 (record_of_in sq w s c p Ep))|].
  split; [repeat split|].
  destruct (save_progress w _) as [w' [r|e]]; reflexivity.
Qed.

(** [generateCertificate] writes nothing: the certificate it builds
    fails validation. *)
Lemma generate_world sq env g w cid sid :
  fst (generateCertificate sq env g w cid sid) = w.
Proof.
  unfold generateCertificate.
  destruct cid as [cid|]; [|reflexivity]. destruct sid as [sid|]; [|reflexivity].
  destruct (certificate_findOne w sid cid); [reflexivity|].
  destruct (course_findById env cid) as [crs|]; [|reflexivity].
  destruct (negb (user_findById env sid)); [reflexivity|].
  destruct (progress_findOne sq w _) as [p|]; [|reflexivity].
  destruct (js_lt _ 100); [reflexivity|].
  destruct (course_instructor crs) as [i|]; [|reflexivity].
  cbv zeta. rewrite issue_new_certificate. reflexivity.
Qed.

Lemma step_full w w' : step w w' -> pipeline_invariant w -> pipeline_invariant w'.
Proof.
  intros Hs Hi. destruct Hs as [env g w p q Hf Hp Hk | w p q Hp Hk
                               | sq env g w s c m l t Hf | sq g w s c m t
                               | sq env g w cid sid Hf].
  - apply update_full; [exact Hi| |].
    + apply (record_ok_keeps _ p); [exact Hk|]. apply (proj1 (proj1 Hi)). exact Hp.
    + apply (record_complete_keeps _ p); [exact Hk|]. apply (proj2 Hi). exact Hp.
  - apply save_full; [exact Hi| |].
    + apply (record_ok_keeps _ p); [exact Hk|]. apply (proj1 (proj1 Hi)). exact Hp.
    + apply (record_complete_keeps _ p); [exact Hk|]. apply (proj2 Hi). exact Hp.
  - destruct (mark_step sq env g w s c m l t) as [E|[p [q [Hp [Hk E]]]]]; rewrite E;
      [exact Hi|]. apply update_full; [exact Hi| |].
    + apply (record_ok_keeps _ p); [exact Hk|]. apply (proj1 (proj1 Hi)). exact Hp.
    + apply (record_complete_keeps _ p); [exact Hk|]. apply (proj2 Hi). exact Hp.
  - destruct (time_step sq g w s c m t) as [E|[p [q [Hp [Hk E]]]]]; rewrite E;
      [exact Hi|]. apply save_full; [exact Hi| |].
    + apply (record_ok_keeps _ p); [exact Hk|]. apply (proj1 (proj1 Hi)). exact Hp.
    + apply (record_complete_keeps _ p); [exact Hk|]. apply (proj2 Hi). exact Hp.
  - rewrite generate_world. exact Hi.
Qed.

Lemma reach_full w0 w :
  pipeline_invariant w0 -> clos_refl_trans World step w0 w -> pipeline_invariant w.
Proof.
  intros H0 R. induction R as [x y S| x | x y z _ IH1 _ IH2].
  - exact (step_full x y S H0).
  - exact H0.
  - exact (IH2 (IH1 H0)).
Qed.

Lemma nodup_map_eq {A B} (f : A -> B) (l : list A) x y :
  NoDup (map f l) -> In x l -> In y l -> f x = f y -> x = y.
Proof.
  induction l as [|z l IH]; simpl; [tauto|]. intros H Hx Hy E.
  inversion H as [|? ? Hn Hd]; subst.
  destruct Hx as [<-|Hx], Hy as [<-|Hy]; [reflexivity| | |exact (IH Hd Hx Hy E)].
  - exfalso. apply Hn. rewrite E. apply in_map. exact Hy.
  - exfalso. apply Hn. rewrite <- E. apply in_map. exact Hx.
Qed.

(** With one record per pair, the record [Progress.findOne] reads can be
    written back. *)
Lemma target_of_record sq w s c p :
  record_of sq w s c = Some p -> NoDup (MoreObservations.pairs w) -> save_target w p = true.
Proof.
  intros Hp Hn. destruct (record_of_in _ _ _ _ _ Hp) as [Hin _].
  unfold save_target. apply andb_true_iff. split.
  - apply existsb_exists. exists p. split; [exact Hin|]. apply Nat.eqb_refl.
  - apply negb_true_iff. destruct (existsb _ _) eqn:E; [|reflexivity].
    apply existsb_exists in E as [d [Hd Ed]]. apply andb_true_iff in Ed as [E1 E2].
    unfold same_doc in E2. apply andb_true_iff in E2 as [E2 E3]. apply Nat.eqb_eq in E2, E3.
    assert (d = p) as ->.
    { apply (nodup_map_eq _ _ d p Hn Hd Hin). simpl. congruence. }
    unfold same_oid in E1. rewrite Nat.eqb_refl in E1. discriminate.
Qed.

Lemma world_done_full : pipeline_invariant world_done.
Proof.
  split; [split|].
  - intros p [<-|[]]. split; [split; discriminate|]. intros id H; discriminate.
  - intros c1 c2 [].
  - intros p _ c [].
Qed.

End InvariantFacts.

(** * The claims *)
Module Claims.

Import JsNumber JsNumberFacts ProgressModel CertificateModel Pipeline SpecSide
       Observations CalcFacts RoundingFacts ControllerFacts MarkFacts InvariantFacts.
Open Scope Q_scope.

(** C4 (counterexample): with 23 of 40 modules completed the code stores
    57, the exact round-half-up value is 58, because [23 / 40 * 100] is
    [57.49999999999999] in binary64. *)
Lemma C4_counterexample :
  calculateOverallProgress rec_40_23 = 57 /\ overallProgress_spec rec_40_23 = 58.
Proof. vm_compute. split; reflexivity. Qed.

(** C4 (amended): for a record with fewer than 40 module entries,
    [calculateOverallProgress] is 0 when there is no module and otherwise
    round-half-up(100 * completed / entries); and a record with 4 modules,
    2 of them completed, and no tracked assignment or quiz has overall
    progress 50 and completion percentage 50. *)
Theorem C4_overall_progress (p : Progress)
    (Hn : (List.length (moduleProgress p) < 40)%nat) :
  calculateOverallProgress p = overallProgress_spec p
  /\ (List.length (moduleProgress p) = 4%nat ->
      List.length (filter completed (moduleProgress p)) = 2%nat ->
      totalAssignments p == 0 -> totalQuizzes p == 0 ->
      calculateOverallProgress p = 50 /\ calculateCompletionPercentage p = 50).
Proof.
  assert (E : calculateOverallProgress p = overallProgress_spec p).
  { rewrite overall_counts, overall_spec_counts.
    destruct (moduleProgress p) as [|m ms] eqn:Em; [reflexivity|].
    cbv zeta. f_equal. apply (check_overall_sound 39).
    - exact check_overall_39.
    - simpl in Hn |- *. lia.
    - apply filter_length_le. }
  split; [exact E|]. intros H4 H2 HA HQ. split.
  - rewrite overall_counts. destruct (moduleProgress p) as [|m ms];
      [discriminate|]. cbv zeta. rewrite H4, H2. vm_compute. reflexivity.
  - unfold calculateCompletionPercentage.
    destruct (js_gt (totalAssignments p) 0) eqn:E1;
      [apply js_gt_spec in E1; lra|].
    destruct (js_gt (totalQuizzes p) 0) eqn:E2;
      [apply js_gt_spec in E2; lra|].
    unfold length_Q, count_completed. rewrite H4, H2.
    vm_compute. reflexivity.
Qed.

Lemma C4_witness :
  (List.length (moduleProgress rec_4_2) < 40)%nat
  /\ (calculateOverallProgress rec_4_2 = overallProgress_spec rec_4_2
      /\ (List.length (moduleProgress rec_4_2) = 4%nat ->
          List.length (filter completed (moduleProgress rec_4_2)) = 2%nat ->
          totalAssignments rec_4_2 == 0 -> totalQuizzes rec_4_2 == 0 ->
          calculateOverallProgress rec_4_2 = 50
          /\ calculateCompletionPercentage rec_4_2 = 50)).
Proof.
  split; [simpl; lia|].
  apply (C4_overall_progress rec_4_2). simpl; lia.
Defined.

(** C5 (counterexample): with [avgQuizScore = 1] and
    [avgAssignmentScore = 28.5] the code stores 17 where
    round-half-up(0.4 + 17.1) = 18, because the binary64 sum is
    [17.499999999999996]. *)
Lemma C5_counterexample :
  calculateFinalScore rec_scores = 17 /\ finalScore_spec rec_scores = 18.
Proof. vm_compute. split; reflexivity. Qed.

(** C5 (amended): when both averages are whole numbers in [0, 100],
    [calculateFinalScore] is 85 if both are 0 and otherwise
    round-half-up(0.4 * avgQuizScore + 0.6 * avgAssignmentScore). *)
Theorem C5_final_score (p : Progress) (zq za : Z)
    (Hq : avgQuizScore p = inject_Z zq) (Ha : avgAssignmentScore p = inject_Z za)
    (Bq : (0 <= zq <= 100)%Z) (Ba : (0 <= za <= 100)%Z) :
  calculateFinalScore p = finalScore_spec p.
Proof.
  unfold calculateFinalScore, finalScore_spec, js_eq. rewrite Hq, Ha.
  destruct (Qeq_bool (inject_Z zq) 0 && Qeq_bool (inject_Z za) 0); [reflexivity|].
  f_equal. unfold Math_round, round_half_up.
  pose proof (weighted_err (inject_Z zq) (inject_Z za)
                (inject_range zq Bq) (inject_range za Ba)) as W.
  cbv zeta in W. destruct W as [W1 W2].
  exact (floor_tie_free zq za _ W1 W2).
Qed.

Lemma C5_witness :
  avgQuizScore rec_whole = inject_Z 77 /\ avgAssignmentScore rec_whole = inject_Z 91
  /\ (0 <= 77 <= 100)%Z /\ (0 <= 91 <= 100)%Z
  /\ calculateFinalScore rec_whole = finalScore_spec rec_whole.
Proof.
  split; [reflexivity|]. split; [reflexivity|]. split; [lia|]. split; [lia|].
  apply (C5_final_score rec_whole 77 91); [reflexivity | reflexivity | lia | lia].
Defined.

(** C6 (counterexample): no module entries, [totalAssignments = 1] and
    [completedAssignments = 2] give a completion percentage of 200. *)
Lemma C6_counterexample : calculateCompletionPercentage rec_overcount = 200.
Proof. vm_compute. reflexivity. Qed.

(** C6 (amended): [calculateOverallProgress] and
    [calculateCompletionPercentage] lie in [0, 100] whenever each tracked
    counter pair satisfies [0 <= completed <= total] and the number of
    modules plus the positive totals come to at most half of
    [Number.MAX_VALUE], so that no sum the methods form overflows to
    [Infinity] (see [completion_finite]; at [Number.MAX_VALUE] JavaScript
    computes [Infinity / Infinity], which is [NaN]). *)
Theorem C6_progress_range (p : Progress)
    (HA : 0 < totalAssignments p ->
          0 <= completedAssignments p /\ completedAssignments p <= totalAssignments p)
    (HQ : 0 < totalQuizzes p ->
          0 <= completedQuizzes p /\ completedQuizzes p <= totalQuizzes p)
    (HT : length_Q (moduleProgress p)
          + (if js_gt (totalAssignments p) 0 then totalAssignments p else 0)
          + (if js_gt (totalQuizzes p) 0 then totalQuizzes p else 0) <= MAX_VALUE * (1 # 2)) :
  (0 <= calculateOverallProgress p /\ calculateOverallProgress p <= 100)
  /\ (0 <= calculateCompletionPercentage p /\ calculateCompletionPercentage p <= 100).
Proof. split; [apply overall_range | apply completion_range; assumption]. Qed.

Lemma C6_witness :
  (0 < totalAssignments rec_counts ->
   0 <= completedAssignments rec_counts /\ completedAssignments rec_counts <= totalAssignments rec_counts)
  /\ (0 < totalQuizzes rec_counts ->
      0 <= completedQuizzes rec_counts /\ completedQuizzes rec_counts <= totalQuizzes rec_counts)
  /\ length_Q (moduleProgress rec_counts)
     + (if js_gt (totalAssignments rec_counts) 0 then totalAssignments rec_counts else 0)
     + (if js_gt (totalQuizzes rec_counts) 0 then totalQuizzes rec_counts else 0)
     <= MAX_VALUE * (1 # 2)
  /\ ((0 <= calculateOverallProgress rec_counts /\ calculateOverallProgress rec_counts <= 100)
      /\ (0 <= calculateCompletionPercentage rec_counts
          /\ calculateCompletionPercentage rec_counts <= 100)).
Proof.
  assert (HT : length_Q (moduleProgress rec_counts)
     + (if js_gt (totalAssignments rec_counts) 0 then totalAssignments rec_counts else 0)
     + (if js_gt (totalQuizzes rec_counts) 0 then totalQuizzes rec_counts else 0)
     <= MAX_VALUE * (1 # 2)) by (vm_compute; intros H; discriminate H).
  split; [simpl; intros _; lra|]. split; [simpl; intros _; lra|]. split; [exact HT|].
  apply C6_progress_range; [simpl; intros _; lra | simpl; intros _; lra | exact HT].
Defined.

(** C8 (counterexample): issuing an already issued certificate again at a
    later time overwrites its [issuedDate]. *)
Lemma C8_counterexample :
  issuedDate cert_issued = Some 100%Z
  /\ match snd (issueCertificate gen1 world_cert cert_issued) with
     | Ok c => issuedDate c = Some 1000%Z
     | Err _ => False
     end.
Proof. vm_compute. split; reflexivity. Qed.

(** C8 (amended): issuing an already issued certificate whose number and
    verification code are set succeeds whenever the stored certificates
    do not conflict with it; status, certificate number and verification
    code are unchanged, the other identifying fields too, and
    [issuedDate] becomes the current time. *)
Theorem C8_reissue (g : Gen) (w : World) (c : Certificate) (n v : string)
    (Hs : status c = issued)
    (Hn : certificateNumber c = Some n) (Hn' : n <> EmptyString)
    (Hv : verificationCode c = Some v) (Hv' : v <> EmptyString)
    (Hc : existsb (conflicts c) (certificates w) = false) :
  exists c', snd (issueCertificate g w c) = Ok c'
    /\ status c' = status c
    /\ certificateNumber c' = certificateNumber c
    /\ verificationCode c' = verificationCode c
    /\ issuedDate c' = Some (gen_now g)
    /\ oid c' = oid c /\ CertificateModel.student c' = CertificateModel.student c
    /\ CertificateModel.course c' = CertificateModel.course c.
Proof.
  assert (D : issueCertificate_doc g c = set_status_issued c (gen_now g)).
  { destruct c; simpl in *; subst.
    destruct n; [contradiction|]. destruct v; [contradiction|]. reflexivity. }
  unfold issueCertificate. rewrite D. unfold cert_save.
  replace (existsb (conflicts (set_status_issued c (gen_now g))) (certificates w))
    with (existsb (conflicts c) (certificates w)) by reflexivity.
  rewrite Hc.
  exists (set_status_issued c (gen_now g)).
  simpl. destruct (existsb (fun d : Certificate => oid d =? oid c) (certificates w));
    simpl; repeat split; congruence.
Qed.

Lemma C8_witness :
  status cert_issued = issued
  /\ certificateNumber cert_issued = Some "CERT-202601-0042"%string
  /\ "CERT-202601-0042"%string <> EmptyString
  /\ verificationCode cert_issued = Some "H5J2R8TB"%string
  /\ "H5J2R8TB"%string <> EmptyString
  /\ existsb (conflicts cert_issued) (certificates world_cert) = false
  /\ exists c', snd (issueCertificate gen1 world_cert cert_issued) = Ok c'
       /\ status c' = status cert_issued
       /\ certificateNumber c' = certificateNumber cert_issued
       /\ verificationCode c' = verificationCode cert_issued
       /\ issuedDate c' = Some (gen_now gen1)
       /\ oid c' = oid cert_issued
       /\ CertificateModel.student c' = CertificateModel.student cert_issued
       /\ CertificateModel.course c' = CertificateModel.course cert_issued.
Proof.
  split; [reflexivity|]. split; [reflexivity|]. split; [discriminate|].
  split; [reflexivity|]. split; [discriminate|]. split; [vm_compute; reflexivity|].
  apply (C8_reissue gen1 world_cert cert_issued "CERT-202601-0042" "H5J2R8TB");
    [reflexivity | reflexivity | discriminate | reflexivity | discriminate
    | vm_compute; reflexivity].
Defined.

(** C2 (code bug): the trigger sits under the [!this.completionDate]
    guard, and [completionDate] is set before the attempt.  A record that
    reaches 100 % while the course lookup fails keeps
    [certificateGenerated = false].  The next update of the record, still
    at 100 %, does not invoke the trigger again: whatever the collections
    the lookups read, it is the plain [save()] of the recomputed record.
    Once a certificate of the pair is stored, a retry would return it
    ([autoGenerateCertificate] gives the stored certificate), yet the
    update leaves [certificateGenerated = false]. *)
Theorem C2_no_retry :
  let w1 := fst (updateProgress env_no_course gen1 world_done rec_done) in
  let p1 := hd rec_done (progresses w1) in
  let w1c := mkWorld (progresses w1) [cert_issued] in
  map certificateGenerated (progresses w1) = [false]
  /\ map (fun p => js_ge (completionPercentage p) 100) (progresses w1) = [true]
  /\ map ProgressModel.completionDate (progresses w1) = [Some 1000%Z]
  /\ (forall env, updateProgress env gen2 w1 p1 = save_progress w1 (derive gen2 p1))
  /\ snd (autoGenerateCertificate env_ok gen2 w1c 1 1 p1) = Ok cert_issued
  /\ map (fun p => js_ge (completionPercentage p) 100)
        (progresses (fst (updateProgress env_ok gen2 w1c p1))) = [true]
  /\ map certificateGenerated (progresses (fst (updateProgress env_ok gen2 w1c p1))) = [false].
Proof.
  intros w1 p1 w1c.
  split; [vm_compute; reflexivity|]. split; [vm_compute; reflexivity|].
  split; [vm_compute; reflexivity|]. split; [intros env; vm_compute; reflexivity|].
  vm_compute. repeat split; reflexivity.
Qed.

(** C3 (code bug): [generateCertificate] looks the record up with
    [{user: studentId, course: courseId}], but the schema's field is
    [student].  Student 2 has completed course 1 and has no certificate,
    yet the request is refused with "Student has not completed the course
    yet", whatever Mongoose's [strictQuery] (with it the [user] key is
    dropped and student 9's record is read; without it nothing matches). *)
Theorem C3_wrong_filter (sq : bool) :
  record_of sq world_two 2 1 = Some rec_2
  /\ js_ge (completionPercentage rec_2) 100 = true
  /\ certificate_findOne world_two 2 1 = None
  /\ generateCertificate sq env_ok gen1 world_two (Some 1%nat) (Some 2%nat)
     = (world_two, C400_not_completed 0).
Proof. destruct sq; vm_compute; repeat split; reflexivity. Qed.

(** C9 (counterexample): for a module id that matches no entry the
    response's [moduleTimeSpent] is [undefined] (the key is left out of
    the JSON body), not [null]. *)
Lemma C9_counterexample :
  match snd (addTimeSpent true gen1 world_done 1 1 (Some 4%nat) (Some 30)) with
  | R200_time total moduleTimeSpent => total == 30 /\ moduleTimeSpent = JUndefined
  | _ => False
  end
  /\ JUndefined <> JNull.
Proof. split; [vm_compute; split; reflexivity | discriminate]. Qed.

(** C9 (amended): with positive minutes, an existing valid record that
    is the only one of its pair, a total that stays within
    [Number.MAX_VALUE], and a module id matching no entry, [addTimeSpent]
    succeeds: the stored record gets [totalTimeSpent + minutes] (binary64
    sum, a finite number) and [lastActivity = now], its module entries are
    unchanged, and the response carries the new total with
    [moduleTimeSpent] undefined. *)
Theorem C9_unknown_module (sq : bool) (g : Gen) (w : World) (s c m : nat) (t : Q)
    (p : Progress)
    (Ht : 0 < t) (Hp : record_of sq w s c = Some p) (Hv : validate p = true)
    (Hu : NoDup (MoreObservations.pairs w))
    (Hmax : totalTimeSpent p + t <= MAX_VALUE)
    (Hm : find (fun md => Nat.eqb (moduleId md) m) (moduleProgress p) = None) :
  exists p',
    addTimeSpent sq g w s c (Some m) (Some t)
      = (mkWorld (map (fun d => if same_oid d p' then p' else d) (progresses w))
                 (certificates w),
         R200_time (js_add (totalTimeSpent p) t) JUndefined)
    /\ totalTimeSpent p' = js_add (totalTimeSpent p) t
    /\ 0 <= totalTimeSpent p' <= MAX_VALUE
    /\ lastActivity p' = gen_now g
    /\ moduleProgress p' = moduleProgress p
    /\ ProgressModel.student p' = ProgressModel.student p
    /\ ProgressModel.course p' = ProgressModel.course p.
Proof.
  set (p' := set_lastActivity (set_modules_time p (moduleProgress p)
                                 (js_add (totalTimeSpent p) t)) (gen_now g)).
  exists p'.
  assert (Vp' : validate p' = true) by exact (validate_add_time p (moduleProgress p) t (gen_now g) Hv Ht eq_refl).
  assert (T0 : 0 <= totalTimeSpent p).
  { unfold validate in Hv. repeat (apply andb_true_iff in Hv as [Hv ?]).
    match goal with H : Qle_bool 0 (totalTimeSpent p) = true |- _ => apply Qle_bool_iff in H; exact H end. }
  split; [|split; [reflexivity|split; [|repeat split]]].
  - unfold addTimeSpent. apply js_gt_spec in Ht as Ht'. rewrite Ht'. simpl negb.
    cbv iota.
    unfold record_of in Hp. rewrite Hp.
    rewrite (findIndex_find_none _ _ Hm). fold p'.
    assert (Sk : save_ok w p' = true).
    { unfold save_ok. rewrite Vp'. simpl.
      rewrite (save_target_ext w p' p eq_refl eq_refl eq_refl).
      exact (target_of_record sq w s c p Hp Hu). }
    rewrite (save_ok_true _ _ Sk). simpl. rewrite Hm. reflexivity.
  - simpl. unfold js_add. split.
    + apply Qle_trans with (fl 0); [rewrite fl_0; lra|apply fl_mono; lra].
    + apply Qle_trans with (fl MAX_VALUE); [apply fl_mono; exact Hmax|rewrite fl_max; lra].
Qed.

Lemma C9_witness :
  0 < 30
  /\ record_of true world_done 1 1 = Some rec_done
  /\ validate rec_done = true
  /\ NoDup (MoreObservations.pairs world_done)
  /\ totalTimeSpent rec_done + 30 <= MAX_VALUE
  /\ find (fun md => Nat.eqb (moduleId md) 4) (moduleProgress rec_done) = None
  /\ exists p',
    addTimeSpent true gen1 world_done 1 1 (Some 4%nat) (Some 30)
      = (mkWorld (map (fun d => if same_oid d p' then p' else d) (progresses world_done))
                 (certificates world_done),
         R200_time (js_add (totalTimeSpent rec_done) 30) JUndefined)
    /\ totalTimeSpent p' = js_add (totalTimeSpent rec_done) 30
    /\ 0 <= totalTimeSpent p' <= MAX_VALUE
    /\ lastActivity p' = gen_now gen1
    /\ moduleProgress p' = moduleProgress rec_done
    /\ ProgressModel.student p' = ProgressModel.student rec_done
    /\ ProgressModel.course p' = ProgressModel.course rec_done.
Proof.
  assert (Hu : NoDup (MoreObservations.pairs world_done))
    by (vm_compute; constructor; [intros []|constructor]).
  assert (Hmax : totalTimeSpent rec_done + 30 <= MAX_VALUE)
    by (vm_compute; intro H; discriminate H).
  split; [lra|]. split; [vm_compute; reflexivity|]. split; [vm_compute; reflexivity|].
  split; [exact Hu|]. split; [exact Hmax|].
  split; [vm_compute; reflexivity|].
  apply (C9_unknown_module true gen1 world_done 1 1 4 30 rec_done);
    [lra | vm_compute; reflexivity | vm_compute; reflexivity | exact Hu | exact Hmax
    | vm_compute; reflexivity].
Defined.

(** C7: calling [markLessonComplete] a second time with the same student,
    course, module and lesson and no time payload leaves the record the
    request reads with the same derived fields (overall progress,
    completion percentage, final score) and the same completed lessons as
    after the first call, whatever the outcome of the first call. *)
Theorem C7_mark_idempotent sq env g1 g2 w s c m l :
  let w1 := fst (markLessonComplete sq env g1 w s c m l None) in
  let w2 := fst (markLessonComplete sq env g2 w1 s c m l None) in
  option_map snapshot (record_of sq w2 s c) = option_map snapshot (record_of sq w1 s c).
Proof.
  intros w1 w2.
  pose proof (markLessonComplete_unfold sq env g1 w s c m l None) as U1.
  pose proof (markLessonComplete_unfold sq env g2 w s c m l None) as U2.
  cbv zeta in U1, U2.
  destruct (record_of sq w s c) as [p|] eqn:Ep;
    [destruct (findIndex (fun x => Nat.eqb (moduleId x) m) (moduleProgress p)) as [i|] eqn:Ei;
     [destruct (nth_error (moduleProgress p) i) as [md|] eqn:En;
      [destruct (course_findById env c) as [crs|] eqn:Ec|]|]|].
  2-5: assert (W1 : w1 = w) by (unfold w1; rewrite U1; reflexivity);
       unfold w2; rewrite W1, U2; reflexivity.
  clear U2.
  destruct (record_of_in _ _ _ _ _ Ep) as [Hin [Hs Hc]].
  destruct U1 as [md1 [tt1 [I1 [C1 [D1 [T1 [TT1 E1]]]]]]].
  simpl in T1, TT1. subst tt1.
  set (q1 := set_modules_time p (replace_nth i md1 (moduleProgress p)) (totalTimeSpent p)) in E1.
  assert (W1 : w1 = fst (updateProgress env g1 w q1)) by (unfold w1; rewrite E1; apply fst_mark_result).
  destruct (record_after_update sq env g1 w q1 p s c Ep eq_refl Hs Hc)
    as [[V1 [P1 R1]] | [V1 [q1' [_ [R1 [K1 [M1 [S1 [Cs1 [N1 [O1 P1]]]]]]]]]]];
    rewrite <- W1 in P1, R1.
  - (* the first save is refused: the second call reads [p] again *)
    pose proof (markLessonComplete_unfold sq env g2 w1 s c m l None) as U3.
    cbv zeta in U3. rewrite R1, Ei, En, Ec in U3.
    destruct U3 as [md2 [tt2 [I2 [C2 [D2 [T2 [TT2 E2]]]]]]].
    simpl in T2, TT2. subst tt2.
    set (q2 := set_modules_time p (replace_nth i md2 (moduleProgress p)) (totalTimeSpent p)) in E2.
    assert (W2 : w2 = fst (updateProgress env g2 w1 q2)) by (unfold w2; rewrite E2; apply fst_mark_result).
    assert (K : core q2 = core q1).
    { apply (core_after_mark p i md); [exact En| |reflexivity].
      rewrite C2 in D2. rewrite C1 in D1. unfold core_module. congruence. }
    destruct (record_after_update sq env g2 w1 q2 p s c R1 eq_refl Hs Hc)
      as [[V2 [_ R2]] | [V2 _]].
    + rewrite <- W2 in R2. rewrite R2, R1. reflexivity.
    + rewrite (save_ok_same w1 w g2 g1 q2 q1) in V2;
        [congruence | rewrite P1; reflexivity | exact K | reflexivity ..].
  - (* the first save succeeds: the second call reads [q1'] *)
    assert (Hf : Nat.eqb (moduleId md1) m = true).
    { destruct (findIndex_some _ _ _ Ei) as [y [Hy Hy']]. rewrite En in Hy.
      injection Hy as <-. rewrite I1. exact Hy'. }
    assert (Mq : moduleProgress q1' = replace_nth i md1 (moduleProgress p)) by exact M1.
    pose proof (markLessonComplete_unfold sq env g2 w1 s c m l None) as U3.
    cbv zeta in U3. rewrite R1, Mq, (findIndex_replace _ _ _ _ Ei Hf),
                   (nth_error_replace _ _ _ _ En), Ec in U3.
    destruct U3 as [md2 [tt2 [I2 [C2 [D2 [T2 [TT2 E2]]]]]]].
    simpl in T2, TT2. subst tt2.
    set (q2 := set_modules_time q1' (replace_nth i md2 (replace_nth i md1 (moduleProgress p)))
                 (totalTimeSpent q1')) in E2.
    assert (W2 : w2 = fst (updateProgress env g2 w1 q2)) by (unfold w2; rewrite E2; apply fst_mark_result).
    assert (Hin1 : existsb (Nat.eqb l) (completedLessons md1) = true)
      by (rewrite C1; apply existsb_pushed).
    assert (Hcl : completedLessons md2 = completedLessons md1) by (rewrite C2, Hin1; reflexivity).
    assert (Hco : completed md2 = completed md1) by (rewrite D2, Hcl, D1; apply orb_absorb).
    assert (Hcm : core_module md2 = core_module md1)
      by (unfold core_module; rewrite I2, Hco, Hcl, T2; reflexivity).
    assert (K : core q2 = core q1).
    { unfold q2, q1. unfold core in K1 |- *. simpl in K1 |- *.
      injection K1 as Km Kta Kca Ktq Kcq Kaq Kaa Ktt.
      rewrite replace_replace, !map_replace, Hcm, Kta, Kca, Ktq, Kcq, Kaq, Kaa, Ktt.
      reflexivity. }
    assert (Hs' : ProgressModel.student q2 = s) by exact S1.
    assert (Hc' : ProgressModel.course q2 = c) by exact Cs1.
    destruct (record_after_update sq env g2 w1 q2 q1' s c R1 eq_refl Hs' Hc')
      as [[V2 _] | [V2 [q2' [_ [R2 [K2 [M2 [S2 [Cs2 [N2 _]]]]]]]]]].
    + assert (Hq : ProgressModel.student q1 = s /\ ProgressModel.course q1 = c) by (split; assumption).
      rewrite (save_ok_same w1 (mkWorld (map (fun d => if same_oid d q1' then q1' else d) (progresses w))
                              (certificates w)) g2 g2 q2 q2) in V2;
        [| exact P1 | reflexivity ..].
      rewrite (save_ok_next w (certificates w) g1 g2 q1 q1' q2 V1 K) in V2;
        [congruence | exact O1 | simpl; congruence | simpl; congruence
        | exact O1 | simpl; congruence | simpl; congruence].
    + rewrite <- W2 in R2. rewrite R2, R1. simpl. rewrite N1, N2.
      destruct (calc_core _ _ K) as [E3 [E4 E5]]. rewrite E3, E4, E5.
      assert (Km : map core_module (moduleProgress q2) = map core_module (moduleProgress q1))
        by (unfold core in K; injection K as Km _ _ _ _ _ _ _; exact Km).
      rewrite (map_core_lessons (moduleProgress q2) (moduleProgress q1) Km). reflexivity.
Qed.

(** C10: [markLessonComplete] does not check that [lessonId] is a lesson
    of the module: a lesson id not yet in [completedLessons] is appended,
    and the module becomes completed as soon as the number of recorded
    ids reaches the course module's lesson count. *)
Theorem C10_any_lesson sq env g w s c m l t p i md crs cm w' p' :
  record_of sq w s c = Some p ->
  findIndex (fun x => Nat.eqb (moduleId x) m) (moduleProgress p) = Some i ->
  nth_error (moduleProgress p) i = Some md ->
  existsb (Nat.eqb l) (completedLessons md) = false ->
  course_findById env c = Some crs ->
  find (fun x => Nat.eqb (cm_oid x) m) (course_modules crs) = Some cm ->
  markLessonComplete sq env g w s c m l t = (w', R200_progress p') ->
  exists md', nth_error (moduleProgress p') i = Some md'
    /\ moduleId md' = moduleId md
    /\ completedLessons md' = completedLessons md ++ [l]
    /\ completed md' = (completed md || Nat.leb (List.length (cm_lessons cm))
                                                (S (List.length (completedLessons md)))).
Proof.
  intros Hp Hi Hn Hl Hc Hm Hr.
  pose proof (markLessonComplete_unfold sq env g w s c m l t) as U. cbv zeta in U.
  rewrite Hp, Hi, Hn, Hc in U.
  destruct U as [md' [tt [I [C [D [_ [_ E]]]]]]].
  rewrite Hl in C. rewrite Hm, C, length_app, Nat.add_comm in D. simpl in D.
  rewrite Hr in E. apply (f_equal snd) in E. rewrite snd_mark_result in E. simpl in E.
  exists md'. split; [|split; [exact I|split; [exact C|exact D]]].
  destruct (update_cases env g w (set_modules_time p (replace_nth i md' (moduleProgress p)) tt))
    as [[_ [_ [e R]]] | [_ [q' [R [_ [_ [M _]]]]]]]; rewrite R in E; [discriminate|].
  injection E as <-. rewrite M. simpl. exact (nth_error_replace _ _ _ _ Hn).
Qed.

Lemma C10_witness :
  record_of true world_fresh 1 1 = Some rec_fresh
  /\ findIndex (fun x => Nat.eqb (moduleId x) 1) (moduleProgress rec_fresh) = Some 0%nat
  /\ nth_error (moduleProgress rec_fresh) 0 = Some (mentry 1 false)
  /\ existsb (Nat.eqb 99) (completedLessons (mentry 1 false)) = false
  /\ course_findById env_ok 1 = Some course1
  /\ find (fun x => Nat.eqb (cm_oid x) 1) (course_modules course1) = Some (mkCourseModule 1 [10%nat])
  /\ existsb (Nat.eqb 99) (cm_lessons (mkCourseModule 1 [10%nat])) = false
  /\ markLessonComplete true env_ok gen1 world_fresh 1 1 1 99 None
     = (fst mark_99, R200_progress mark_99_record)
  /\ exists md', nth_error (moduleProgress mark_99_record) 0 = Some md'
       /\ moduleId md' = moduleId (mentry 1 false)
       /\ completedLessons md' = completedLessons (mentry 1 false) ++ [99%nat]
       /\ completed md' = (completed (mentry 1 false)
                           || Nat.leb (List.length (cm_lessons (mkCourseModule 1 [10%nat])))
                                      (S (List.length (completedLessons (mentry 1 false))))).
Proof.
  split; [vm_compute; reflexivity|]. split; [vm_compute; reflexivity|].
  split; [reflexivity|]. split; [reflexivity|]. split; [reflexivity|].
  split; [reflexivity|]. split; [reflexivity|]. split; [vm_compute; reflexivity|].
  apply (C10_any_lesson true env_ok gen1 world_fresh 1 1 1 99 None rec_fresh 0 (mentry 1 false)
           course1 (mkCourseModule 1 [10%nat]) (fst mark_99) mark_99_record);
    [vm_compute; reflexivity | vm_compute; reflexivity | reflexivity | reflexivity
    | reflexivity | reflexivity | vm_compute; reflexivity].
Defined.

(** C1: along any sequence of the pipeline's operations ([updateProgress]
    on a stored record, a plain [save], [markLessonComplete],
    [addTimeSpent], [generateCertificate]), each with fresh [ObjectId]s,
    starting from collections where it holds (such as no certificate and
    no record with its flags set), every record [p] satisfies:
    [certificateGenerated] is [true] exactly when [certificateEarned]
    references a stored certificate, and exactly when a single certificate
    of [p]'s (student, course) pair is stored.  It holds because no
    operation stores a certificate (both controllers build theirs without
    [certificateId], and validation refuses them), and the trigger sets
    the flags only to the stored certificate of the pair that it finds. *)
Theorem C1_invariant w0 w p :
  pipeline_invariant w0 -> clos_refl_trans World step w0 w -> In p (progresses w) ->
  (certificateGenerated p = true <->
     exists c, In c (certificates w) /\ certificateEarned p = Some (oid c))
  /\ (certificateGenerated p = true <->
     exists c, In c (certificates w)
       /\ CertificateModel.student c = ProgressModel.student p
       /\ CertificateModel.course c = ProgressModel.course p
       /\ forall d, In d (certificates w) ->
            CertificateModel.student d = ProgressModel.student p ->
            CertificateModel.course d = ProgressModel.course p -> d = c).
Proof.
  intros H0 R Hp.
  destruct (reach_full w0 w H0 R) as [[Hr Hu] Hc].
  destruct (Hr p Hp) as [[G1 G2] Href]. pose proof (Hc p Hp) as Hcomp.
  split; split.
  - intros G. destruct (certificateEarned p) as [id|] eqn:E; [|discriminate (G1 G)].
    destruct (Href id eq_refl) as [c [Hin [Ho _]]]. exists c. split; [exact Hin|congruence].
  - intros [c [_ E]]. apply G2. rewrite E. reflexivity.
  - intros G. destruct (certificateEarned p) as [id|] eqn:E; [|discriminate (G1 G)].
    destruct (Href id eq_refl) as [c [Hin [_ [Hs Hcs]]]].
    exists c. split; [exact Hin|]. split; [exact Hs|]. split; [exact Hcs|].
    intros d Hd Hds Hdc. apply Hu; [exact Hd|exact Hin|congruence|congruence].
  - intros [c [Hin [Hs [Hcs _]]]]. exact (Hcomp c Hin Hs Hcs).
Qed.

Lemma C1_witness :
  let w := fst (updateProgress env_ok gen1 world_done rec_done) in
  let p := hd rec_done (progresses w) in
  pipeline_invariant world_done
  /\ clos_refl_trans World step world_done w
  /\ In p (progresses w)
  /\ certificateGenerated p = false
  /\ (certificateGenerated p = true <->
       exists c, In c (certificates w) /\ certificateEarned p = Some (oid c))
  /\ (certificateGenerated p = true <->
       exists c, In c (certificates w)
         /\ CertificateModel.student c = ProgressModel.student p
         /\ CertificateModel.course c = ProgressModel.course p
         /\ forall d, In d (certificates w) ->
              CertificateModel.student d = ProgressModel.student p ->
              CertificateModel.course d = ProgressModel.course p -> d = c).
Proof.
  intros w p.
  assert (H0 : pipeline_invariant world_done) by exact world_done_full.
  assert (R : clos_refl_trans World step world_done w).
  { apply rt_step. apply (step_updateProgress env_ok gen1 world_done rec_done rec_done).
    - reflexivity.
    - left. reflexivity.
    - repeat split. }
  assert (Hin : In p (progresses w)) by (vm_compute; left; reflexivity).
  split; [exact H0|]. split; [exact R|]. split; [exact Hin|].
  split; [vm_compute; reflexivity|].
  exact (C1_invariant world_done w p H0 R Hin).
Defined.

End Claims.

(** ** Lemmas about the controllers, methods and hooks *)
Module ExtraFacts.

Import JsNumber JsNumberFacts ProgressModel CertificateModel Pipeline Observations
       CalcFacts RoundingFacts ControllerFacts MarkFacts InvariantFacts
       ProgressControllers CertificateHooks MoreObservations.
Open Scope Q_scope.

Lemma replace_absent l q :
  ~ In (progress_oid q) (map progress_oid l) ->
  map (fun d => if same_oid d q then q else d) l = l.
Proof.
  induction l as [|d l IH]; simpl; intros H; [reflexivity|].
  destruct (same_oid d q) eqn:E.
  - exfalso. apply H. left. unfold same_oid in E. apply Nat.eqb_eq in E. exact E.
  - f_equal. apply IH. intros H'. apply H. right. exact H'.
Qed.

(** Writing [q] over the one stored record [p] with its [_id], when [q]
    keeps [p]'s pair, keeps the list of pairs. *)
Lemma replace_pairs l p q :
  NoDup (map progress_oid l) -> In p l -> progress_oid q = progress_oid p ->
  ProgressModel.student q = ProgressModel.student p ->
  ProgressModel.course q = ProgressModel.course p ->
  map (fun p => (ProgressModel.student p, ProgressModel.course p))
      (map (fun d => if same_oid d q then q else d) l)
  = map (fun p => (ProgressModel.student p, ProgressModel.course p)) l.
Proof.
  intros N Hin O S C. induction l as [|d l IH]; simpl; [reflexivity|].
  simpl in N. apply NoDup_cons_iff in N as [Hn N'].
  destruct Hin as [<-|Hin].
  - assert (E : same_oid d q = true) by (unfold same_oid; rewrite O; apply Nat.eqb_refl).
    rewrite E, S, C. f_equal.
    rewrite replace_absent; [reflexivity|]. rewrite O. exact Hn.
  - destruct (same_oid d q) eqn:E.
    + exfalso. apply Hn. unfold same_oid in E. apply Nat.eqb_eq in E. rewrite E, O.
      apply in_map. exact Hin.
    + f_equal. exact (IH N' Hin).
Qed.

Lemma save_pairs w p q :
  NoDup (oids w) -> In p (progresses w) -> progress_oid q = progress_oid p ->
  ProgressModel.student q = ProgressModel.student p ->
  ProgressModel.course q = ProgressModel.course p ->
  pairs (fst (save_progress w q)) = pairs w.
Proof.
  intros N Hin O S C. destruct (save_world w q) as [E|E]; rewrite E; [reflexivity|].
  unfold pairs. simpl. exact (replace_pairs _ p q N Hin O S C).
Qed.

Lemma update_pairs env g w q p :
  NoDup (oids w) -> In p (progresses w) -> progress_oid q = progress_oid p ->
  ProgressModel.student q = ProgressModel.student p ->
  ProgressModel.course q = ProgressModel.course p ->
  pairs (fst (updateProgress env g w q)) = pairs w.
Proof.
  intros N Hin O S C.
  destruct (update_cases env g w q)
    as [[_ [E _]] | [_ [q' [_ [P [_ [_ [S' [C' [_ [_ [_ [O' _]]]]]]]]]]]]].
  - rewrite E. reflexivity.
  - unfold pairs at 1. rewrite P. apply (replace_pairs _ p); [exact N|exact Hin|congruence ..].
Qed.

Lemma mark_pairs sq env g w s c m l t :
  NoDup (oids w) -> pairs (fst (markLessonComplete sq env g w s c m l t)) = pairs w.
Proof.
  intros N.
  pose proof (markLessonComplete_unfold sq env g w s c m l t) as U. cbv zeta in U.
  destruct (record_of sq w s c) as [p|] eqn:Ep; [|rewrite U; reflexivity].
  destruct (findIndex _ _) as [i|]; [|rewrite U; reflexivity].
  destruct (nth_error _ i) as [md|]; [|rewrite U; reflexivity].
  destruct (course_findById env c) as [crs|]; [|rewrite U; reflexivity].
  destruct U as [md' [tt [_ [_ [_ [_ [_ U]]]]]]]. rewrite U, fst_mark_result.
  apply (update_pairs _ _ _ _ p); [exact N | exact (proj1 (record_of_in _ _ _ _ _ Ep)) | reflexivity ..].
Qed.

Lemma module_pairs sq env g w s c m :
  NoDup (oids w) -> pairs (fst (markModuleComplete sq env g w s c m)) = pairs w.
Proof.
  intros N. unfold markModuleComplete. fold (record_of sq w s c).
  destruct (record_of sq w s c) as [p|] eqn:Ep; [|reflexivity].
  destruct (findIndex _ _) as [i|]; [|reflexivity].
  destruct (nth_error _ i) as [md|]; [|reflexivity].
  rewrite fst_mark_result.
  apply (update_pairs _ _ _ _ p); [exact N | exact (proj1 (record_of_in _ _ _ _ _ Ep)) | reflexivity ..].
Qed.

Lemma time_pairs sq g w s c m t :
  NoDup (oids w) -> pairs (fst (addTimeSpent sq g w s c m t)) = pairs w.
Proof.
  intros N. unfold addTimeSpent. destruct t as [t|]; [|reflexivity].
  destruct (negb (js_gt t 0)); [reflexivity|]. fold (record_of sq w s c).
  destruct (record_of sq w s c) as [p|] eqn:Ep; [|reflexivity].
  match goal with |- context [save_progress ?w ?q] =>
    pose proof (save_pairs w p q N (proj1 (record_of_in _ _ _ _ _ Ep)) eq_refl eq_refl eq_refl) as S;
    destruct (save_progress w q) as [w' [r|e]] end;
  exact S.
Qed.

Lemma validate_new g crs s c : validate (new_progress g crs s c) = true.
Proof.
  unfold validate, new_progress. simpl.
  induction (course_modules crs) as [|m l IH]; simpl; [reflexivity|]. exact IH.
Qed.

Lemma existsb_same_doc_find p l :
  existsb (same_doc p) l = match find (by_pair (ProgressModel.student p) (ProgressModel.course p)) l
                           with Some _ => true | None => false end.
Proof.
  induction l as [|q l IH]; simpl; [reflexivity|].
  unfold same_doc at 1, by_pair at 1. rewrite (Nat.eqb_sym (ProgressModel.student p)),
    (Nat.eqb_sym (ProgressModel.course p)).
  destruct (_ && _); [reflexivity|exact IH].
Qed.

Lemma find_app' {A} (f : A -> bool) (l l' : list A) :
  find f (l ++ l') = match find f l with Some x => Some x | None => find f l' end.
Proof. induction l as [|x l IH]; simpl; [reflexivity|]. destruct (f x); [reflexivity|exact IH]. Qed.

Lemma create_cases sq env g w s c :
  (exists crs, course_findById env c = Some crs /\ record_of sq w s c = None
     /\ existsb (same_oid (new_progress g crs s c)) (progresses w) = false
     /\ createProgressRecord sq env g w s c
        = (mkWorld (progresses w ++ [new_progress g crs s c]) (certificates w),
           P201_created (new_progress g crs s c)))
  \/ fst (createProgressRecord sq env g w s c) = w.
Proof.
  unfold createProgressRecord.
  destruct (course_findById env c) as [crs|] eqn:Ec; [|right; reflexivity].
  fold (record_of sq w s c).
  destruct (record_of sq w s c) as [p|] eqn:Er; [right; reflexivity|].
  fold (new_progress g crs s c). unfold insert_progress.
  rewrite validate_new, existsb_same_doc_find.
  change (ProgressModel.student (new_progress g crs s c)) with s.
  change (ProgressModel.course (new_progress g crs s c)) with c.
  rewrite (record_of_pair sq) in Er. rewrite Er, orb_false_r.
  destruct (existsb (same_oid (new_progress g crs s c)) (progresses w)) eqn:Eo;
    [right; reflexivity|].
  left. exists crs. split; [reflexivity|]. split; [reflexivity|].
  split; [exact Eo|]. reflexivity.
Qed.

Lemma pairs_not_in w s c :
  find (by_pair s c) (progresses w) = None -> ~ In (s, c) (pairs w).
Proof.
  unfold pairs. induction (progresses w) as [|q l IH]; simpl; [tauto|].
  destruct (by_pair s c q) eqn:E; [discriminate|]. intros H [Hq|Hl]; [|exact (IH H Hl)].
  unfold by_pair in E. injection Hq as <- <-. rewrite !Nat.eqb_refl in E. discriminate.
Qed.

Lemma count_mono l l' : Forall2 completed_le l l' ->
  (List.length (filter completed l) <= List.length (filter completed l'))%nat
  /\ List.length l = List.length l'.
Proof.
  intros H. induction H as [|a b l l' Hab _ [IH1 IH2]]; simpl; [lia|].
  unfold completed_le in Hab. destruct (completed a), (completed b); simpl;
    try specialize (Hab eq_refl); try discriminate; lia.
Qed.

Lemma Math_round_mono x y : x <= y -> (Math_round x <= Math_round y)%Z.
Proof. intros H. unfold Math_round. apply Qfloor_resp_le. lra. Qed.

Lemma ratio_mono a b t : a <= b -> 0 < t ->
  inject_Z (Math_round (js_mul (js_div a t) 100)) <= inject_Z (Math_round (js_mul (js_div b t) 100)).
Proof.
  intros Hab Ht. rewrite <- Zle_Qle. apply Math_round_mono. unfold js_mul, js_div.
  apply fl_mono. apply Qmult_le_compat_r; [|lra]. apply fl_mono.
  unfold Qdiv. apply Qmult_le_compat_r; [exact Hab|].
  apply Qlt_le_weak, Qinv_lt_0_compat, Ht.
Qed.

Lemma count_Q_mono l l' : Forall2 completed_le l l' ->
  count_completed l <= count_completed l' /\ length_Q l = length_Q l'.
Proof.
  intros H. destruct (count_mono l l' H) as [H1 H2]. unfold count_completed, length_Q.
  rewrite H2. split; [rewrite <- Zle_Qle; lia | reflexivity].
Qed.

Lemma calc_mono p q :
  Forall2 completed_le (moduleProgress p) (moduleProgress q) ->
  totalAssignments p = totalAssignments q -> completedAssignments p = completedAssignments q ->
  totalQuizzes p = totalQuizzes q -> completedQuizzes p = completedQuizzes q ->
  calculateOverallProgress p <= calculateOverallProgress q
  /\ calculateCompletionPercentage p <= calculateCompletionPercentage q.
Proof.
  intros HF Hta Hca Htq Hcq.
  destruct (count_Q_mono _ _ HF) as [Hc Hn]. split.
  - unfold calculateOverallProgress.
    pose proof (proj2 (count_mono _ _ HF)) as HL.
    destruct (moduleProgress p) as [|a l], (moduleProgress q) as [|b l'];
      simpl in HL; try discriminate.
    cbv zeta. rewrite Hn. apply ratio_mono; [exact Hc|].
    unfold length_Q. simpl. change 0 with (inject_Z 0). rewrite <- Zlt_Qlt. lia.
  - unfold calculateCompletionPercentage. cbv zeta. rewrite <- Hta, <- Hca, <- Htq, <- Hcq, <- Hn.
    set (n := length_Q (moduleProgress p)).
    set (c := count_completed (moduleProgress p)). set (c' := count_completed (moduleProgress q)).
    assert (G : forall t x y, x <= y ->
              (if js_gt t 0 then inject_Z (Math_round (js_mul (js_div x t) 100)) else 0)
              <= (if js_gt t 0 then inject_Z (Math_round (js_mul (js_div y t) 100)) else 0)).
    { intros t x y Hxy. destruct (js_gt t 0) eqn:E; [|lra].
      apply js_gt_spec in E. apply ratio_mono; assumption. }
    destruct (js_gt (totalAssignments p) 0), (js_gt (totalQuizzes p) 0); cbv iota; apply G.
    all: unfold js_add; repeat (apply fl_mono; apply Qplus_le_compat); try apply fl_mono; try lra; exact Hc.
Qed.

Lemma forall2_refl {A} (R : A -> A -> Prop) (l : list A) :
  (forall a, R a a) -> Forall2 R l l.
Proof. intros Hr. induction l; constructor; auto. Qed.

Lemma forall2_replace {A} (R : A -> A -> Prop) (l : list A) i x y :
  (forall a, R a a) -> nth_error l i = Some y -> R y x -> Forall2 R l (replace_nth i x l).
Proof.
  intros Hr. revert i. induction l as [|z l IH]; intros [|i] H Hyx; simpl in H |- *;
    try discriminate.
  - injection H as ->. constructor; [exact Hyx|]. apply forall2_refl, Hr.
  - constructor; [apply Hr|]. exact (IH i H Hyx).
Qed.

Lemma nth_error_replace_other {A} (l : list A) i j x :
  j <> i -> nth_error (replace_nth i x l) j = nth_error l j.
Proof.
  revert i j. induction l as [|z l IH]; intros [|i] [|j] H; simpl; try reflexivity; try lia.
  apply IH. lia.
Qed.

(** The result of [updateProgress env g w q] when it answers [Ok]. *)
Lemma update_ok env g w q w' q' :
  updateProgress env g w q = (w', Ok q') ->
  moduleProgress q' = moduleProgress q
  /\ overallProgress q' = calculateOverallProgress q
  /\ completionPercentage q' = calculateCompletionPercentage q
  /\ ProgressModel.student q' = ProgressModel.student q
  /\ ProgressModel.course q' = ProgressModel.course q
  /\ progresses w' = map (fun d => if same_oid d q' then q' else d) (progresses w)
  /\ progress_oid q' = progress_oid q.
Proof.
  intros E. destruct (update_cases env g w q)
    as [[_ [_ [e He]]] | [_ [q'' [R [P [_ [M [S [C [O [Cp [_ [Oid _]]]]]]]]]]]]];
    rewrite E in *; simpl in *; [discriminate|].
  injection R as <-. repeat split; assumption.
Qed.

Lemma record_after_ok sq w s c p q' :
  record_of sq w s c = Some p -> progress_oid q' = progress_oid p ->
  ProgressModel.student q' = s -> ProgressModel.course q' = c ->
  find (by_pair s c) (map (fun d => if same_oid d q' then q' else d) (progresses w)) = Some q'.
Proof.
  intros Hp O S C. rewrite (record_of_pair sq) in Hp.
  exact (find_oid_replace s c q' p _ Hp O S C).
Qed.

(** A save that answers [Ok] returns the saved document. *)
Lemma save_result w r w' q' :
  save_progress w r = (w', Ok q') ->
  q' = r /\ w' = mkWorld (map (fun d => if same_oid d r then r else d) (progresses w)) (certificates w).
Proof.
  unfold save_progress. destruct (validate r); [|discriminate].
  destruct (negb _); [discriminate|]. destruct (existsb _ _); [discriminate|].
  intros E. injection E as <- <-. split; reflexivity.
Qed.

(** A save that answers [Ok] has passed validation. *)
Lemma save_valid w r w' q' : save_progress w r = (w', Ok q') -> validate r = true.
Proof. unfold save_progress. destruct (validate r); [reflexivity|discriminate]. Qed.

Lemma valid_time p : validate p = true -> 0 <= totalTimeSpent p.
Proof.
  intros Hv. unfold validate in Hv. repeat (apply andb_true_iff in Hv as [Hv ?]).
  match goal with H : Qle_bool 0 (totalTimeSpent p) = true |- _ => apply Qle_bool_iff in H; exact H end.
Qed.

Lemma not_all_count l : forallb completed l = false ->
  (List.length (filter completed l) < List.length l)%nat.
Proof.
  induction l as [|a l IH]; simpl; [discriminate|].
  pose proof (filter_length_le completed l).
  destruct (completed a); simpl; [intros Hf; specialize (IH Hf); lia|lia].
Qed.

Lemma all_count l : forallb completed l = true -> filter completed l = l.
Proof.
  induction l as [|a l IH]; simpl; [reflexivity|].
  destruct (completed a); simpl; [intros H; rewrite (IH H); reflexivity|discriminate].
Qed.

Lemma Math_round_comp x y : x == y -> Math_round x = Math_round y.
Proof. intros H. unfold Math_round. apply Qfloor_comp. rewrite H. reflexivity. Qed.

Lemma below_100 c n : 0 <= c -> c <= n - 1 -> 1 <= n -> n <= 199 ->
  (Math_round (js_mul (js_div c n) 100) <= 99)%Z.
Proof.
  intros H0 H1 H2 H3.
  assert (R : c / n <= 198 # 199) by (apply Qle_shift_div_r; lra).
  transitivity (Math_round (fl (fl (198 # 199) * 100))); [|vm_compute; discriminate].
  apply Math_round_mono. unfold js_mul, js_div. apply fl_mono.
  apply Qmult_le_compat_r; [apply fl_mono, R|lra].
Qed.

Lemma eq_100 n : 0 < n -> Math_round (js_mul (js_div n n) 100) = 100%Z.
Proof.
  intros Hn. unfold js_mul, js_div.
  assert (E1 : fl (n / n) == 1).
  { transitivity (fl 1); [apply fl_comp; field; lra|apply fl_1]. }
  assert (E2 : fl (fl (n / n) * 100) == 100).
  { transitivity (fl 100); [apply fl_comp; rewrite E1; ring|apply fl_100]. }
  rewrite (Math_round_comp _ _ E2). reflexivity.
Qed.

Lemma overall_100_iff p : (0 < List.length (moduleProgress p) < 200)%nat ->
  (calculateOverallProgress p = 100 <-> forallb completed (moduleProgress p) = true).
Proof.
  intros [H0 H1]. unfold calculateOverallProgress.
  destruct (moduleProgress p) as [|a l'] eqn:EM; [simpl in H0; lia|].
  cbv zeta. rewrite <- EM in *. unfold count_completed, length_Q.
  pose proof (filter_length_le completed (moduleProgress p)) as Hle.
  split.
  - intros H. destruct (forallb completed (moduleProgress p)) eqn:Ef; [reflexivity|].
    exfalso. pose proof (not_all_count _ Ef) as Hlt.
    assert (B : (Math_round (js_mul (js_div (inject_Z (Z.of_nat (List.length (filter completed (moduleProgress p)))))
                     (inject_Z (Z.of_nat (List.length (moduleProgress p))))) 100) <= 99)%Z).
    { apply below_100.
      - change 0 with (inject_Z 0). rewrite <- Zle_Qle. lia.
      - assert (Hq : inject_Z (Z.of_nat (List.length (filter completed (moduleProgress p))) + 1)
                     <= inject_Z (Z.of_nat (List.length (moduleProgress p))))
          by (rewrite <- Zle_Qle; lia).
        rewrite inject_Z_plus in Hq. change (inject_Z 1) with 1 in Hq. lra.
      - change 1 with (inject_Z 1). rewrite <- Zle_Qle. lia.
      - change 199 with (inject_Z 199). rewrite <- Zle_Qle. lia. }
    injection H as H. lia.
  - intros H. rewrite (all_count _ H), eq_100; [reflexivity|].
    change 0 with (inject_Z 0). rewrite <- Zlt_Qlt. lia.
Qed.

Lemma completion_eq_overall p :
  js_gt (totalAssignments p) 0 = false -> js_gt (totalQuizzes p) 0 = false ->
  calculateCompletionPercentage p = calculateOverallProgress p.
Proof.
  intros Ha Hq. unfold calculateCompletionPercentage, calculateOverallProgress.
  rewrite Ha, Hq. cbv zeta iota.
  destruct (moduleProgress p) as [|a l] eqn:EM; [reflexivity|].
  replace (js_gt (length_Q (a :: l)) 0) with true; [reflexivity|].
  symmetry. apply js_gt_spec. unfold length_Q. simpl.
  change 0 with (inject_Z 0). rewrite <- Zlt_Qlt. lia.
Qed.

Lemma overall_ge_100 p : (0 < List.length (moduleProgress p) < 200)%nat ->
  js_ge (calculateOverallProgress p) 100 = forallb completed (moduleProgress p).
Proof.
  intros Hn. destruct (overall_100_iff p Hn) as [I1 I2].
  destruct (forallb completed (moduleProgress p)) eqn:Ef.
  - rewrite (I2 eq_refl). reflexivity.
  - destruct (js_ge (calculateOverallProgress p) 100) eqn:Eg; [|reflexivity].
    exfalso. unfold js_ge in Eg. apply Qle_bool_iff in Eg.
    pose proof (overall_range p) as [_ R].
    assert (Q100 : calculateOverallProgress p == 100) by lra.
    rewrite overall_counts in Q100, I1.
    destruct (moduleProgress p) as [|a l]; [simpl in Hn; lia|].
    change 100 with (inject_Z 100) in Q100, I1.
    rewrite inject_Z_injective in Q100. discriminate (I1 (f_equal inject_Z Q100)).
Qed.

Lemma update_dates env g w q w' q' :
  updateProgress env g w q = (w', Ok q') ->
  let trig := js_ge (calculateCompletionPercentage q) 100
              && negb (is_set (ProgressModel.completionDate q)) in
  ProgressModel.completionDate q' = (if trig then Some (gen_now g) else ProgressModel.completionDate q)
  /\ completedAt q' = (if trig then Some (gen_now g) else completedAt q)
  /\ (trig = false -> certificateEarned q' = certificateEarned q
                      /\ certificateGenerated q' = certificateGenerated q
                      /\ certificates w' = certificates w).
Proof.
  intros E trig. unfold updateProgress in E. fold (derive g q) in E.
  change (completionPercentage (derive g q)) with (calculateCompletionPercentage q) in E.
  change (ProgressModel.completionDate (derive g q)) with (ProgressModel.completionDate q) in E.
  fold trig in E. destruct trig.
  - destruct (negb _).
    + destruct (autoGenerateCertificate env g w _ _ _) as [w1 [crt|e]];
        apply save_result in E as [-> _]; repeat split; discriminate.
    + apply save_result in E as [-> _]. repeat split; discriminate.
  - apply save_result in E as [-> ->]. repeat split.
Qed.

Lemma map_replace_same {A B} (f : A -> B) (l : list A) i x y :
  nth_error l i = Some y -> f x = f y -> map f (replace_nth i x l) = map f l.
Proof.
  revert i. induction l as [|z l IH]; intros [|i] H Hf; simpl in H |- *; try discriminate.
  - injection H as ->. rewrite Hf. reflexivity.
  - rewrite (IH i H Hf). reflexivity.
Qed.

Ltac qle_facts :=
  repeat match goal with
  | H : Qle_bool _ _ = true |- _ => apply Qle_bool_iff in H
  | H : Qle_bool ?a ?b = false |- _ =>
      let H' := fresh "H" in
      assert (H' : b < a) by (apply Qnot_le_lt; intros C; apply Qle_bool_iff in C; congruence);
      clear H
  end.

Lemma or_default_0 x : or_default x 0 == x.
Proof.
  unfold or_default. destruct (Qeq_bool x 0) eqn:E; [|reflexivity].
  apply Qeq_bool_iff in E. rewrite E. reflexivity.
Qed.

Lemma truthy_or_default_85 x : truthy (or_default x 85) = true.
Proof.
  unfold truthy, or_default. destruct (Qeq_bool x 0) eqn:E; [reflexivity|].
  rewrite E. reflexivity.
Qed.

Lemma js_add_comp a b a' b' : a == a' -> b == b' -> js_add a b == js_add a' b'.
Proof. intros H1 H2. unfold js_add. apply fl_comp. rewrite H1, H2. reflexivity. Qed.

Lemma js_mul_comp a b a' b' : a == a' -> b == b' -> js_mul a b == js_mul a' b'.
Proof. intros H1 H2. unfold js_mul. apply fl_comp. rewrite H1, H2. reflexivity. Qed.

Lemma js_mul_0 c : js_mul 0 c == 0.
Proof. unfold js_mul. transitivity (fl 0); [apply fl_comp; ring | apply fl_0]. Qed.

Lemma performance_weighted pd :
  js_add (js_mul (or_default (avgQuizScore pd) 0) lit_0_4)
         (js_mul (or_default (avgAssignmentScore pd) 0) lit_0_6)
  == js_add (js_mul (avgQuizScore pd) lit_0_4) (js_mul (avgAssignmentScore pd) lit_0_6).
Proof.
  apply js_add_comp; (apply js_mul_comp; [apply or_default_0 | reflexivity]).
Qed.

Lemma issue_doc_status g c : status (issueCertificate_doc g c) = issued.
Proof.
  unfold issueCertificate_doc.
  destruct (str_falsy (certificateNumber (set_status_issued c (gen_now g))));
  [destruct (str_falsy (verificationCode (generateCertificateNumber g (set_status_issued c (gen_now g)))))
  |destruct (str_falsy (verificationCode (set_status_issued c (gen_now g))))]; reflexivity.
Qed.

Lemma find_unique {A} (f : A -> bool) l x :
  (forall y, In y l -> f y = true -> y = x) -> In x l -> f x = true -> find f l = Some x.
Proof.
  induction l as [|a l IH]; intros H Hx Fx; [destruct Hx|]. simpl.
  destruct (f a) eqn:E.
  - rewrite (H a (or_introl eq_refl) E). reflexivity.
  - destruct Hx as [<-|Hx]; [congruence|]. apply IH; auto.
    intros y Hy Fy. apply H; [right|]; assumption.
Qed.

Lemma same_str_sym a b : same_str a b = same_str b a.
Proof. destruct a, b; simpl; try reflexivity. apply String.eqb_sym. Qed.

Lemma verify_pred_other c d v :
  conflicts c d = false -> oid d <> oid c ->
  CertificateModel.verificationCode c = Some v ->
  same_str (CertificateModel.verificationCode d) (Some v) = false.
Proof.
  intros C N V. unfold conflicts in C.
  assert (E : Nat.eqb (oid c) (oid d) = false) by (apply Nat.eqb_neq; congruence).
  rewrite E in C. simpl in C. apply orb_false_iff in C as [_ C].
  rewrite same_str_sym, <- V. exact C.
Qed.

End ExtraFacts.

(** ** Further properties of the controllers, methods and hooks *)
Module Extras.

Import JsNumber JsNumberFacts ProgressModel CertificateModel Pipeline Observations
       CalcFacts RoundingFacts ControllerFacts MarkFacts InvariantFacts
       ProgressControllers CertificateHooks MoreObservations ExtraFacts.
Open Scope Q_scope.

(** X1: when [createProgressRecord] answers 201 with a record [p] for an
    existing course, [p] is the stored record of the pair; it has one
    entry per course module, in the course's order, none completed and
    with no completed lesson; both percentages compute to 0; it has no
    certificate; and a second call for the same pair answers 400 and
    changes nothing. *)
Theorem X1_create_record sq env g w s c w' p crs :
  createProgressRecord sq env g w s c = (w', P201_created p) ->
  course_findById env c = Some crs ->
  record_of sq w' s c = Some p
  /\ map moduleId (moduleProgress p) = map cm_oid (course_modules crs)
  /\ forallb (fun m => negb (completed m) && Nat.eqb (List.length (completedLessons m)) 0)
             (moduleProgress p) = true
  /\ calculateOverallProgress p = 0 /\ calculateCompletionPercentage p = 0
  /\ certificateGenerated p = false /\ certificateEarned p = None
  /\ createProgressRecord sq env g w' s c = (w', P400_exists).
Proof.
  intros E Ec. destruct (create_cases sq env g w s c) as [[crs' [Ec' [Er [_ E']]]]|E'].
  2:{ rewrite E in E'. simpl in E'. subst w'. unfold createProgressRecord in E.
      rewrite Ec in E. fold (record_of sq w s c) in E.
      destruct (record_of sq w s c); [discriminate|].
      unfold insert_progress in E. destruct (validate _); [|discriminate].
      destruct (_ || _); [discriminate|]. injection E as E _.
      apply (f_equal (fun w => List.length (progresses w))) in E. simpl in E.
      rewrite length_app in E. simpl in E. lia. }
  rewrite Ec in Ec'. injection Ec' as <-. rewrite E in E'. injection E' as -> ->.
  assert (R : record_of sq (mkWorld (progresses w ++ [new_progress g crs s c]) (certificates w)) s c
              = Some (new_progress g crs s c)).
  { rewrite record_of_pair. simpl. rewrite find_app'. rewrite <- (record_of_pair sq), Er.
    simpl. unfold by_pair. simpl. rewrite !Nat.eqb_refl. reflexivity. }
  split; [exact R|]. split.
  { simpl. rewrite map_map. reflexivity. }
  split.
  { simpl. induction (course_modules crs) as [|m l IH]; simpl; [reflexivity|]. exact IH. }
  assert (F : filter completed (moduleProgress (new_progress g crs s c)) = []).
  { simpl. induction (course_modules crs) as [|m l IH]; simpl; [reflexivity|]. exact IH. }
  split.
  { unfold calculateOverallProgress. destruct (moduleProgress _) eqn:EM; [reflexivity|].
    cbv zeta. unfold count_completed. rewrite F. reflexivity. }
  split.
  { unfold calculateCompletionPercentage. cbv zeta. unfold count_completed. rewrite F.
    replace (js_gt (totalAssignments (new_progress g crs s c)) 0) with false by reflexivity.
    replace (js_gt (totalQuizzes (new_progress g crs s c)) 0) with false by reflexivity.
    destruct (js_gt _ 0); reflexivity. }
  split; [reflexivity|]. split; [reflexivity|].
  unfold createProgressRecord. rewrite Ec. unfold record_of in R. rewrite R. reflexivity.
Qed.

Lemma X1_witness :
  createProgressRecord true env_ok gen1 world_empty 1 1
    = (fst create_1, P201_created create_1_record)
  /\ record_of true (fst create_1) 1 1 = Some create_1_record
  /\ createProgressRecord true env_ok gen1 (fst create_1) 1 1 = (fst create_1, P400_exists).
Proof.
  assert (E : createProgressRecord true env_ok gen1 world_empty 1 1
              = (fst create_1, P201_created create_1_record)) by (vm_compute; reflexivity).
  pose proof (X1_create_record true env_ok gen1 world_empty 1 1 _ _ course1 E eq_refl) as H.
  split; [exact E|]. split; [exact (proj1 H)|].
  exact (proj2 (proj2 (proj2 (proj2 (proj2 (proj2 (proj2 H))))))).
Defined.

(** X2: [createProgressRecord] keeps the (student, course) pairs of the
    stored records free of duplicates. *)
Theorem X2_create_unique sq env g w s c :
  NoDup (pairs w) -> NoDup (pairs (fst (createProgressRecord sq env g w s c))).
Proof.
  intros H. destruct (create_cases sq env g w s c) as [[crs [_ [Er [_ E]]]]|E]; rewrite E; [|exact H].
  unfold pairs at 1. simpl. rewrite map_app. simpl.
  apply Permutation.Permutation_NoDup with (l := (s, c) :: pairs w).
  - apply Permutation.Permutation_cons_append.
  - constructor; [|exact H]. apply pairs_not_in. rewrite <- (record_of_pair sq). exact Er.
Qed.

Lemma X2_witness :
  NoDup (pairs world_fresh) /\ NoDup (pairs (fst (createProgressRecord true env_ok gen1 world_fresh 2 1))).
Proof.
  assert (H : NoDup (pairs world_fresh)) by (vm_compute; constructor; [intros []|constructor]).
  split; [exact H|]. exact (X2_create_unique true env_ok gen1 world_fresh 2 1 H).
Defined.

(** X3: when the stored records have distinct [_id]s, as MongoDB's unique
    index on [_id] guarantees, [markLessonComplete], [markModuleComplete]
    and [addTimeSpent] never add, remove or re-key a progress record: the
    record they save is the one they read by (student, course), with its
    [_id] and pair unchanged, so the list of stored (student, course) pairs
    is the same after the call; and [createProgressRecord] keeps the
    [_id]s distinct. *)
Theorem X3_pairs_kept sq env g w s c m l t mo tq :
  NoDup (oids w) ->
  pairs (fst (markLessonComplete sq env g w s c m l t)) = pairs w
  /\ pairs (fst (markModuleComplete sq env g w s c m)) = pairs w
  /\ pairs (fst (addTimeSpent sq g w s c mo tq)) = pairs w
  /\ NoDup (oids (fst (createProgressRecord sq env g w s c))).
Proof.
  intros H. split; [exact (mark_pairs sq env g w s c m l t H)|].
  split; [exact (module_pairs sq env g w s c m H)|].
  split; [exact (time_pairs sq g w s c mo tq H)|].
  destruct (create_cases sq env g w s c) as [[crs [_ [_ [Eo E]]]]|E]; rewrite E; [|exact H].
  unfold oids. simpl. rewrite map_app. simpl.
  apply Permutation.Permutation_NoDup with (l := progress_oid (new_progress g crs s c) :: oids w).
  - apply Permutation.Permutation_cons_append.
  - constructor; [|exact H]. intros Hin. unfold oids in Hin.
    apply in_map_iff in Hin as [d [Ed Hd]].
    assert (T : existsb (same_oid (new_progress g crs s c)) (progresses w) = true).
    { apply existsb_exists. exists d. split; [exact Hd|].
      unfold same_oid. rewrite Ed. apply Nat.eqb_refl. }
    congruence.
Qed.

Lemma X3_witness :
  NoDup (oids world_done)
  /\ pairs (fst (markLessonComplete true env_ok gen1 world_done 1 1 1 10 None)) = pairs world_done
  /\ pairs (fst (markModuleComplete true env_ok gen1 world_done 1 1 1)) = pairs world_done
  /\ pairs (fst (addTimeSpent true gen1 world_done 1 1 (Some 1%nat) (Some 30))) = pairs world_done
  /\ NoDup (oids (fst (createProgressRecord true env_ok gen1 world_done 1 1))).
Proof.
  assert (H : NoDup (oids world_done)) by (vm_compute; constructor; [intros []|constructor]).
  split; [exact H|].
  exact (X3_pairs_kept true env_ok gen1 world_done 1 1 1 10 None (Some 1%nat) (Some 30) H).
Defined.

(** X4: [generateCertificate] never changes the stored progress records. *)
Theorem X4_generate_keeps_progress sq env g w cid sid :
  progresses (fst (generateCertificate sq env g w cid sid)) = progresses w.
Proof. rewrite InvariantFacts.generate_world. reflexivity. Qed.

(** X5: when [markModuleComplete] answers 200 with [p'] on the stored
    record [p], the entry of the module is the first one with its id; in
    [p'] it is completed; every other entry is unchanged; [p'] is the
    stored record of the pair; and the returned percentages are at least
    the ones computed from [p]. *)
Theorem X5_module_complete sq env g w s c m w' p' p :
  markModuleComplete sq env g w s c m = (w', R200_progress p') ->
  record_of sq w s c = Some p ->
  exists i md', findIndex (fun x => Nat.eqb (moduleId x) m) (moduleProgress p) = Some i
    /\ nth_error (moduleProgress p') i = Some md'
    /\ moduleId md' = m /\ completed md' = true
    /\ (forall j, j <> i -> nth_error (moduleProgress p') j = nth_error (moduleProgress p) j)
    /\ record_of sq w' s c = Some p'
    /\ calculateOverallProgress p <= overallProgress p'
    /\ calculateCompletionPercentage p <= completionPercentage p'.
Proof.
  intros E Hp. pose proof (record_of_in _ _ _ _ _ Hp) as [_ [Hs Hc]].
  unfold markModuleComplete in E. fold (record_of sq w s c) in E. rewrite Hp in E.
  destruct (findIndex _ _) as [i|] eqn:Ei; [|discriminate].
  destruct (nth_error _ i) as [md|] eqn:En; [|discriminate].
  set (md1 := set_lastAccessed (set_completed md true) (gen_now g)) in E.
  set (q := set_modules_time p (replace_nth i md1 (moduleProgress p)) (totalTimeSpent p)) in E.
  destruct (updateProgress env g w q) as [w1 [q1|e]] eqn:EU; [|discriminate].
  injection E as <- <-.
  destruct (update_ok _ _ _ _ _ _ EU) as [M [O [Cp [S [C [P Oid]]]]]].
  destruct (findIndex_some _ _ _ Ei) as [y [Hy Hf]]. rewrite En in Hy. injection Hy as <-.
  apply Nat.eqb_eq in Hf.
  exists i, md1. split; [reflexivity|]. rewrite M.
  split; [apply (nth_error_replace _ _ _ _ En)|].
  split; [exact Hf|]. split; [reflexivity|].
  split; [intros j Hj; apply nth_error_replace_other, Hj|].
  split.
  { rewrite record_of_pair, P. apply (record_after_ok sq w s c p); [exact Hp|exact Oid| |];
      rewrite ?S, ?C; assumption. }
  rewrite O, Cp. apply calc_mono; try reflexivity.
  apply (forall2_replace _ _ _ _ md); [intros a Ha; exact Ha|exact En|intros _; reflexivity].
Qed.

Lemma X5_witness :
  markModuleComplete true env_ok gen1 world_fresh 1 1 1 = (fst module_1, R200_progress module_1_record)
  /\ record_of true world_fresh 1 1 = Some rec_fresh
  /\ record_of true (fst module_1) 1 1 = Some module_1_record.
Proof.
  assert (E : markModuleComplete true env_ok gen1 world_fresh 1 1 1
              = (fst module_1, R200_progress module_1_record)) by (vm_compute; reflexivity).
  assert (R : record_of true world_fresh 1 1 = Some rec_fresh) by (vm_compute; reflexivity).
  split; [exact E|]. split; [exact R|].
  destruct (X5_module_complete true env_ok gen1 world_fresh 1 1 1 _ _ _ E R)
    as [i [md' [_ [_ [_ [_ [_ [H _]]]]]]]].
  exact H.
Defined.

(** X6: when [markLessonComplete] answers 200 with [p'] on the stored
    record [p], every module entry keeps its id, stays completed if it
    was, and keeps its completed lessons (more may follow); [p'] is the
    stored record of the pair; and the returned percentages are at least
    the ones computed from [p]. *)
Theorem X6_lesson_complete sq env g w s c m l t w' p' p :
  markLessonComplete sq env g w s c m l t = (w', R200_progress p') ->
  record_of sq w s c = Some p ->
  Forall2 (fun a b => moduleId a = moduleId b /\ (completed a = true -> completed b = true)
                      /\ exists ext, completedLessons b = completedLessons a ++ ext)
          (moduleProgress p) (moduleProgress p')
  /\ record_of sq w' s c = Some p'
  /\ calculateOverallProgress p <= overallProgress p'
  /\ calculateCompletionPercentage p <= completionPercentage p'.
Proof.
  intros E Hp. pose proof (record_of_in _ _ _ _ _ Hp) as [_ [Hs Hc]].
  pose proof (markLessonComplete_unfold sq env g w s c m l t) as U. cbv zeta in U.
  rewrite Hp in U.
  destruct (findIndex _ _) as [i|] eqn:Ei; [|rewrite U in E; discriminate].
  destruct (nth_error _ i) as [md|] eqn:En; [|rewrite U in E; discriminate].
  destruct (course_findById env c) as [crs|]; [|rewrite U in E; discriminate].
  destruct U as [md' [tt [HI [HL [HC [_ [_ U]]]]]]]. rewrite U in E.
  set (q := set_modules_time p (replace_nth i md' (moduleProgress p)) tt) in E.
  destruct (updateProgress env g w q) as [w1 [q1|e]] eqn:EU; [|discriminate].
  injection E as <- <-.
  destruct (update_ok _ _ _ _ _ _ EU) as [M [O [Cp [S [C [P Oid]]]]]].
  assert (F : Forall2 mod_le (moduleProgress p) (moduleProgress q1)).
  { rewrite M. apply (forall2_replace _ _ _ _ md).
    - intros a. split; [reflexivity|]. split; [auto|]. exists []. rewrite app_nil_r. reflexivity.
    - exact En.
    - split; [symmetry; exact HI|]. split.
      + intros H. rewrite HC, H. reflexivity.
      + rewrite HL. destruct (existsb _ _); [exists []; rewrite app_nil_r|exists [l]]; reflexivity. }
  split; [exact F|]. split.
  { rewrite record_of_pair, P. apply (record_after_ok sq w s c p); [exact Hp|exact Oid| |];
      rewrite ?S, ?C; assumption. }
  rewrite O, Cp. apply calc_mono; try reflexivity. rewrite <- M.
  eapply Forall2_impl; [|exact F]. intros a b [_ [H _]]. exact H.
Qed.

Lemma X6_witness :
  markLessonComplete true env_ok gen1 world_fresh 1 1 1 10 None
    = (fst lesson_10, R200_progress lesson_10_record)
  /\ record_of true world_fresh 1 1 = Some rec_fresh
  /\ record_of true (fst lesson_10) 1 1 = Some lesson_10_record.
Proof.
  assert (E : markLessonComplete true env_ok gen1 world_fresh 1 1 1 10 None
              = (fst lesson_10, R200_progress lesson_10_record)) by (vm_compute; reflexivity).
  assert (R : record_of true world_fresh 1 1 = Some rec_fresh) by (vm_compute; reflexivity).
  split; [exact E|]. split; [exact R|].
  exact (proj1 (proj2 (X6_lesson_complete true env_ok gen1 world_fresh 1 1 1 10 None _ _ _ E R))).
Defined.

(** X7: when [addTimeSpent] answers 200 on the stored record [p], and
    the total time of [p] plus the minutes does not exceed
    [Number.MAX_VALUE], the minutes were given; the stored record of the
    pair has the total time of [p] plus the minutes, a finite nonnegative
    number, the value returned as [totalTimeSpent]; its
    percentages, final score, completion dates, certificate fields,
    completion flags and completed lessons are those of [p]; and no
    certificate changes. *)
Theorem X7_time_spent sq g w s c m t w' tt mt p :
  addTimeSpent sq g w s c m t = (w', R200_time tt mt) ->
  record_of sq w s c = Some p ->
  (forall t0, t = Some t0 -> totalTimeSpent p + t0 <= MAX_VALUE) ->
  exists t0 p', t = Some t0 /\ record_of sq w' s c = Some p'
    /\ totalTimeSpent p' = js_add (totalTimeSpent p) t0
    /\ 0 <= totalTimeSpent p' <= MAX_VALUE /\ tt = totalTimeSpent p'
    /\ overallProgress p' = overallProgress p
    /\ completionPercentage p' = completionPercentage p
    /\ ProgressModel.finalScore p' = ProgressModel.finalScore p
    /\ ProgressModel.completionDate p' = ProgressModel.completionDate p
    /\ completedAt p' = completedAt p
    /\ certificateEarned p' = certificateEarned p
    /\ certificateGenerated p' = certificateGenerated p
    /\ map completed (moduleProgress p') = map completed (moduleProgress p)
    /\ map completedLessons (moduleProgress p') = map completedLessons (moduleProgress p)
    /\ certificates w' = certificates w.
Proof.
  intros E Hp Hmax. pose proof (record_of_in _ _ _ _ _ Hp) as [_ [Hs Hc]].
  unfold addTimeSpent in E. destruct t as [t0|]; [|discriminate].
  specialize (Hmax t0 eq_refl).
  destruct (negb (js_gt t0 0)); [discriminate|].
  fold (record_of sq w s c) in E. rewrite Hp in E.
  match type of E with context [save_progress w ?q] => set (q1 := q) in E end.
  assert (K : map completed (moduleProgress q1) = map completed (moduleProgress p)
             /\ map completedLessons (moduleProgress q1) = map completedLessons (moduleProgress p)).
  { unfold q1. simpl. destruct m as [m|]; [|split; reflexivity].
    destruct (findIndex _ _) as [i|]; [|split; reflexivity].
    destruct (nth_error _ i) as [md|] eqn:En; [|split; reflexivity].
    split; apply (map_replace_same _ _ _ _ md En); reflexivity. }
  destruct (save_progress w q1) as [w1 [q2|e]] eqn:ES; [|discriminate].
  pose proof (valid_time _ (save_valid _ _ _ _ ES)) as T0.
  apply save_result in ES as [-> ->]. injection E as <- <- _.
  exists t0, q1. split; [reflexivity|]. split.
  { rewrite record_of_pair. simpl.
    apply (record_after_ok sq w s c p); [exact Hp|reflexivity|exact Hs|exact Hc]. }
  split; [reflexivity|]. split.
  { split; [exact T0|]. simpl. unfold js_add.
    apply Qle_trans with (fl MAX_VALUE); [apply fl_mono; exact Hmax|rewrite fl_max; lra]. }
  destruct K as [K1 K2]. repeat split; assumption.
Qed.

Lemma X7_witness :
  exists tt mt, time_30 = (fst time_30, R200_time tt mt)
  /\ record_of true world_fresh 1 1 = Some rec_fresh
  /\ (forall t0, Some 30 = Some t0 -> totalTimeSpent rec_fresh + t0 <= MAX_VALUE)
  /\ exists t0 p', Some 30 = Some t0 /\ record_of true (fst time_30) 1 1 = Some p'
     /\ totalTimeSpent p' = js_add (totalTimeSpent rec_fresh) t0.
Proof.
  set (tt := match snd time_30 with R200_time a _ => a | _ => 0 end).
  set (mt := match snd time_30 with R200_time _ b => b | _ => JNull end).
  assert (E : time_30 = (fst time_30, R200_time tt mt)) by (vm_compute; reflexivity).
  assert (R : record_of true world_fresh 1 1 = Some rec_fresh) by (vm_compute; reflexivity).
  assert (M : forall t0, Some 30 = Some t0 -> totalTimeSpent rec_fresh + t0 <= MAX_VALUE).
  { intros t0 H. injection H as <-. vm_compute. intros H. discriminate H. }
  exists tt, mt. split; [exact E|]. split; [exact R|]. split; [exact M|].
  destruct (X7_time_spent true gen1 world_fresh 1 1 (Some 1%nat) (Some 30) _ _ _ _ E R M)
    as [t0 [p' [T [P [A _]]]]].
  exists t0, p'. split; [exact T|]. split; [exact P | exact A].
Defined.

(** X8: for a record of 1 to 199 modules, [calculateOverallProgress] is
    100 exactly when every module is completed; with 200 modules, one of
    them not completed, it is already 100. *)
Theorem X8_overall_100 :
  (forall p, (0 < List.length (moduleProgress p) < 200)%nat ->
     (calculateOverallProgress p = 100 <-> forallb completed (moduleProgress p) = true))
  /\ List.length (moduleProgress rec_200) = 200%nat
  /\ forallb completed (moduleProgress rec_200) = false
  /\ calculateOverallProgress rec_200 = 100.
Proof.
  split; [exact overall_100_iff | vm_compute; repeat split; reflexivity].
Qed.

(** X9: when neither [totalAssignments] nor [totalQuizzes] is positive,
    [calculateCompletionPercentage] equals [calculateOverallProgress]. *)
Theorem X9_completion_is_overall p :
  js_gt (totalAssignments p) 0 = false -> js_gt (totalQuizzes p) 0 = false ->
  calculateCompletionPercentage p = calculateOverallProgress p.
Proof. exact (completion_eq_overall p). Qed.

Lemma X9_witness :
  js_gt (totalAssignments rec_40_23) 0 = false /\ js_gt (totalQuizzes rec_40_23) 0 = false
  /\ calculateCompletionPercentage rec_40_23 = calculateOverallProgress rec_40_23.
Proof.
  assert (A : js_gt (totalAssignments rec_40_23) 0 = false) by reflexivity.
  assert (B : js_gt (totalQuizzes rec_40_23) 0 = false) by reflexivity.
  split; [exact A|]. split; [exact B|]. exact (X9_completion_is_overall rec_40_23 A B).
Defined.

(** X10: [updateProgress] on a record whose [completionDate] is already
    set keeps [completionDate], [completedAt], [certificateEarned] and
    [certificateGenerated], and issues no certificate. *)
Theorem X10_completion_dated env g w q w' q' :
  is_set (ProgressModel.completionDate q) = true ->
  updateProgress env g w q = (w', Ok q') ->
  ProgressModel.completionDate q' = ProgressModel.completionDate q
  /\ completedAt q' = completedAt q
  /\ certificateEarned q' = certificateEarned q
  /\ certificateGenerated q' = certificateGenerated q
  /\ certificates w' = certificates w.
Proof.
  intros Hd E. pose proof (update_dates _ _ _ _ _ _ E) as D. cbv zeta in D.
  rewrite Hd, andb_false_r in D. destruct D as [D1 [D2 D3]].
  destruct (D3 eq_refl) as [D4 [D5 D6]]. repeat split; assumption.
Qed.

Lemma X10_witness :
  is_set (ProgressModel.completionDate rec_dated) = true
  /\ update_dated = (fst update_dated, Ok update_dated_record)
  /\ ProgressModel.completionDate update_dated_record = ProgressModel.completionDate rec_dated.
Proof.
  assert (D : is_set (ProgressModel.completionDate rec_dated) = true) by reflexivity.
  assert (E : update_dated = (fst update_dated, Ok update_dated_record))
    by (vm_compute; reflexivity).
  split; [exact D|]. split; [exact E|].
  exact (proj1 (X10_completion_dated env_ok gen1 world_dated rec_dated _ _ D E)).
Defined.

(** X11: on a record of 1 to 199 modules with no assignments or quizzes
    and no [completionDate], a successful [updateProgress] sets
    [completionDate] to the current time when every module is completed,
    and leaves it unset otherwise. *)
Theorem X11_completion_trigger env g w q w' q' :
  js_gt (totalAssignments q) 0 = false -> js_gt (totalQuizzes q) 0 = false ->
  (0 < List.length (moduleProgress q) < 200)%nat ->
  ProgressModel.completionDate q = None ->
  updateProgress env g w q = (w', Ok q') ->
  ProgressModel.completionDate q'
  = (if forallb completed (moduleProgress q) then Some (gen_now g) else None).
Proof.
  intros Ha Hq Hn Hd E. pose proof (update_dates _ _ _ _ _ _ E) as [D _]. cbv zeta in D.
  rewrite D, Hd, completion_eq_overall, overall_ge_100 by assumption. simpl.
  rewrite andb_true_r. reflexivity.
Qed.

Lemma X11_witness :
  update_done = (fst update_done, Ok update_done_record)
  /\ ProgressModel.completionDate update_done_record = Some (gen_now gen1).
Proof.
  assert (E : update_done = (fst update_done, Ok update_done_record))
    by (vm_compute; reflexivity).
  split; [exact E|].
  exact (X11_completion_trigger env_ok gen1 world_done rec_done _ _
           eq_refl eq_refl ltac:(simpl; lia) eq_refl E).
Defined.

(** X12: after a successful [updateProgress] on a record of 1 to 199
    modules, the virtual [isCompleted] is true, and [completionStatus] is
    ['completed'], exactly when every module is completed. *)
Theorem X12_completion_status env g w q w' q' :
  updateProgress env g w q = (w', Ok q') ->
  (0 < List.length (moduleProgress q) < 200)%nat ->
  isCompleted q' = forallb completed (moduleProgress q')
  /\ (completionStatus q' = "completed"%string
      <-> forallb completed (moduleProgress q') = true).
Proof.
  intros E Hn. destruct (update_ok env g w q w' q' E) as [M [O _]].
  assert (G : isCompleted q' = forallb completed (moduleProgress q')).
  { unfold isCompleted. rewrite O, M. apply overall_ge_100. exact Hn. }
  split; [exact G|]. unfold completionStatus. fold (isCompleted q'). rewrite G.
  destruct (forallb completed (moduleProgress q')); split; intros H; try reflexivity;
    try discriminate.
  revert H. destruct (js_ge (overallProgress q') 50); [discriminate|].
  destruct (js_gt (overallProgress q') 0); discriminate.
Qed.

Lemma X12_witness :
  update_done = (fst update_done, Ok update_done_record)
  /\ completionStatus update_done_record = "completed"%string.
Proof.
  assert (E : update_done = (fst update_done, Ok update_done_record))
    by (vm_compute; reflexivity).
  split; [exact E|].
  apply (proj2 (X12_completion_status env_ok gen1 world_done rec_done _ _ E
                  ltac:(simpl; lia))).
  vm_compute. reflexivity.
Defined.

(** X13: the grade chain of the certificate pre-save hook is monotone in
    the score (['F'] below ['D'] below ['C-'] ... below ['A+']), never
    yields ['Pass'] or ['Fail'], and yields ['F'] exactly below 50. *)
Theorem X13_grade_order x y :
  x <= y -> (grade_rank (grade_of x) <= grade_rank (grade_of y))%nat
  /\ grade_of x <> "Pass"%string /\ grade_of x <> "Fail"%string
  /\ (grade_of x = "F"%string <-> x < 50).
Proof.
  intros Hxy. unfold grade_of, js_ge.
  repeat match goal with |- context [Qle_bool ?k x] => destruct (Qle_bool k x) eqn:? end;
  repeat match goal with |- context [Qle_bool ?k y] => destruct (Qle_bool k y) eqn:? end;
  qle_facts; (split; [unfold grade_rank; cbn; first [lia | exfalso; lra] |]);
  (split; [discriminate|]); (split; [discriminate|]);
  split; intros; try reflexivity; try discriminate; lra.
Qed.

Lemma X13_witness :
  72 <= 88 /\ (grade_rank (grade_of 72) <= grade_rank (grade_of 88))%nat.
Proof.
  assert (H : 72 <= 88) by (vm_compute; discriminate).
  split; [exact H | exact (proj1 (X13_grade_order 72 88 H))].
Defined.

(** X14: on the [performance] the certificate controllers build, the
    pre-save hook keeps [finalScore] at [progress.finalScore || 85] (the
    [overallPerformance] fallback never fires) and sets [grade] from it. *)
Theorem X14_presave_score pd :
  perf_finalScore (pre_save_performance (certificate_performance pd))
    = or_default (ProgressModel.finalScore pd) 85
  /\ grade (pre_save_performance (certificate_performance pd))
    = grade_of (or_default (ProgressModel.finalScore pd) 85).
Proof.
  unfold pre_save_performance. cbn [perf_finalScore certificate_performance].
  rewrite truthy_or_default_85. split; reflexivity.
Qed.

(** X15: the virtual [overallPerformance] of that [performance] is
    [calculateFinalScore] of the progress record, except when both
    averages are 0, where it is 0 and not 85. *)
Theorem X15_overall_performance pd :
  overallPerformance (certificate_performance pd)
  = if js_eq (avgQuizScore pd) 0 && js_eq (avgAssignmentScore pd) 0 then 0
    else calculateFinalScore pd.
Proof.
  unfold overallPerformance, calculateFinalScore. cbn [certificate_performance
    perf_avgQuizScore perf_avgAssignmentScore].
  rewrite (Math_round_comp _ _ (performance_weighted pd)).
  destruct (js_eq (avgQuizScore pd) 0 && js_eq (avgAssignmentScore pd) 0) eqn:E;
    [|reflexivity].
  apply andb_true_iff in E as [E1 E2]. unfold js_eq in E1, E2.
  apply Qeq_bool_iff in E1, E2.
  assert (Z0 : js_add (js_mul (avgQuizScore pd) lit_0_4)
                      (js_mul (avgAssignmentScore pd) lit_0_6) == 0).
  { transitivity (js_add (js_mul 0 lit_0_4) (js_mul 0 lit_0_6)).
    - apply js_add_comp; apply js_mul_comp; (assumption || reflexivity).
    - unfold js_add. transitivity (fl 0); [apply fl_comp | apply fl_0].
      rewrite (js_mul_0 lit_0_4), (js_mul_0 lit_0_6). reflexivity. }
  rewrite (Math_round_comp _ _ Z0). reflexivity.
Qed.

(** X16: the certificate's virtual [completionPercentage] is 0 when the
    progress record's assignments and quizzes total at most 0, whatever
    the modules completed. *)
Theorem X16_cert_completion pd :
  totalAssignments pd + totalQuizzes pd <= 0 ->
  completionPercentage_virtual (certificate_performance pd) = 0.
Proof.
  intros H. unfold completionPercentage_virtual. cbn [certificate_performance
    perf_totalAssignments perf_totalQuizzes].
  replace (js_gt (js_add (or_default (totalAssignments pd) 0)
                         (or_default (totalQuizzes pd) 0)) 0) with false; [reflexivity|].
  symmetry. destruct (js_gt _ 0) eqn:E; [|reflexivity].
  apply js_gt_spec in E. exfalso.
  assert (A : js_add (or_default (totalAssignments pd) 0) (or_default (totalQuizzes pd) 0)
              <= 0).
  { unfold js_add. apply Qle_trans with (fl 0); [apply fl_mono | rewrite fl_0; lra].
    rewrite !or_default_0. exact H. }
  lra.
Qed.

Lemma X16_witness :
  totalAssignments rec_done + totalQuizzes rec_done <= 0
  /\ completionPercentage_virtual (certificate_performance rec_done) = 0
  /\ calculateCompletionPercentage rec_done = 100.
Proof.
  assert (H : totalAssignments rec_done + totalQuizzes rec_done <= 0)
    by (vm_compute; discriminate).
  split; [exact H|]. split; [exact (X16_cert_completion rec_done H)|].
  vm_compute. reflexivity.
Defined.

(** X17: after a successful [issueCertificate] on a stored certificate,
    the certificate is found by [verifyCertificate] with any ASCII code
    whose upper case is its stored verification code. *)
Theorem X17_issue_verify g w c w' c' s :
  In c (certificates w) ->
  issueCertificate g w c = (w', Ok c') ->
  is_ascii s = true ->
  CertificateModel.verificationCode c' = Some (toUpperCase s) ->
  verifyCertificate (certificates w') s = Some c'.
Proof.
  intros _ E _ V. unfold issueCertificate in E.
  destruct (cert_save (certificates w) (issueCertificate_doc g c)) as [cs|] eqn:S;
    [|discriminate].
  injection E as <- <-. set (c1 := issueCertificate_doc g c) in *.
  unfold cert_save in S.
  destruct (existsb (conflicts c1) (certificates w)) eqn:C; [discriminate|].
  assert (K : forall d, In d (certificates w) -> oid d <> oid c1 ->
    same_str (CertificateModel.verificationCode d) (Some (toUpperCase s))
    && CertStatus_eqb (status d) issued = false).
  { intros d Hd N. rewrite (verify_pred_other c1 d _ (existsb_false_forall _ _ _ C Hd) N V).
    reflexivity. }
  assert (F1 : same_str (CertificateModel.verificationCode c1) (Some (toUpperCase s))
               && CertStatus_eqb (status c1) issued = true).
  { rewrite V. unfold c1. rewrite issue_doc_status. simpl. rewrite String.eqb_refl.
    reflexivity. }
  unfold verifyCertificate. simpl.
  destruct (existsb (fun d => Nat.eqb (oid d) (oid c1)) (certificates w)) eqn:O;
    injection S as <-; apply find_unique; try exact F1.
  - intros y Hy Fy. apply in_map_iff in Hy as [d [<- Hd]].
    destruct (Nat.eqb (oid d) (oid c1)) eqn:Ed; [reflexivity|].
    apply Nat.eqb_neq in Ed. rewrite (K d Hd Ed) in Fy. discriminate.
  - apply existsb_exists in O as [d [Hd Ed]]. apply in_map_iff. exists d.
    rewrite Ed. split; [reflexivity | exact Hd].
  - intros y Hy Fy. apply in_app_or in Hy as [Hy|[<-|[]]]; [|reflexivity].
    pose proof (existsb_false_forall _ _ _ O Hy) as Ey. simpl in Ey.
    apply Nat.eqb_neq in Ey. rewrite (K y Hy Ey) in Fy. discriminate.
  - apply in_or_app. right. left. reflexivity.
Qed.

Lemma X17_witness :
  In cert_pending (certificates world_pending)
  /\ issue_1 = (fst issue_1, Ok issue_1_cert)
  /\ verifyCertificate (certificates (fst issue_1)) "k7q2m9xa" = Some issue_1_cert.
Proof.
  assert (I : In cert_pending (certificates world_pending)) by (left; reflexivity).
  assert (E : issue_1 = (fst issue_1, Ok issue_1_cert)) by (vm_compute; reflexivity).
  split; [exact I|]. split; [exact E|].
  exact (X17_issue_verify gen1 world_pending cert_pending _ _ "k7q2m9xa" I E
           ltac:(vm_compute; reflexivity) ltac:(vm_compute; reflexivity)).
Defined.

(** X18: when [revokeCertificate] answers 200, the returned certificate
    has the requested id and status ['revoked'] and is stored, the other
    certificates stay stored, and [verifyCertificate] no longer finds any
    certificate with that id. *)
Theorem X18_revoke w certificateId uid adm w' c :
  revokeCertificate w certificateId uid adm = (w', RV200_revoked c) ->
  oid c = certificateId /\ status c = revoked /\ In c (certificates w')
  /\ (forall d, In d (certificates w) -> oid d <> certificateId -> In d (certificates w'))
  /\ (forall s d, verifyCertificate (certificates w') s = Some d -> oid d <> certificateId).
Proof.
  intros E. unfold revokeCertificate in E.
  destruct (find (fun d => Nat.eqb (oid d) certificateId) (certificates w)) as [cert|] eqn:Fd;
    [|discriminate].
  apply find_some in Fd as [Hin Hid]. apply Nat.eqb_eq in Hid.
  destruct (negb (Nat.eqb (instructor cert) uid) && negb adm); [discriminate|].
  destruct (cert_save (certificates w) (revokeCertificate_doc cert)) as [cs|] eqn:S;
    [|discriminate].
  injection E as <- <-. set (c1 := revokeCertificate_doc cert) in *.
  assert (Oc : oid c1 = certificateId) by exact Hid.
  unfold cert_save in S.
  destruct (existsb (conflicts c1) (certificates w)); [discriminate|].
  assert (O : existsb (fun d => Nat.eqb (oid d) (oid c1)) (certificates w) = true).
  { apply existsb_exists. exists cert. split; [exact Hin|]. apply Nat.eqb_eq. reflexivity. }
  rewrite O in S. injection S as <-. simpl.
  assert (M : forall y, In y (map (fun d => if Nat.eqb (oid d) (oid c1) then c1 else d)
                                  (certificates w)) ->
              oid y = certificateId -> y = c1).
  { intros y Hy Ey. apply in_map_iff in Hy as [d [<- Hd]].
    destruct (Nat.eqb (oid d) (oid c1)) eqn:Ed; [reflexivity|].
    apply Nat.eqb_neq in Ed. congruence. }
  split; [exact Oc|]. split; [reflexivity|]. split.
  { apply in_map_iff. exists cert. split; [|exact Hin].
    destruct (Nat.eqb _ _) eqn:X; [reflexivity|].
    apply Nat.eqb_neq in X. exfalso. apply X. reflexivity. }
  split.
  { intros d Hd N. apply in_map_iff. exists d. split; [|exact Hd].
    destruct (Nat.eqb _ _) eqn:X; [|reflexivity].
    apply Nat.eqb_eq in X. exfalso. apply N. rewrite X. exact Hid. }
  intros s d Vd Ed. unfold verifyCertificate in Vd.
  apply find_some in Vd as [Hd Fd].
  rewrite (M d Hd Ed) in Fd. unfold c1 in Fd. simpl in Fd.
  rewrite andb_false_r in Fd. discriminate.
Qed.

Lemma X18_witness :
  revoke_5 = (fst revoke_5, RV200_revoked (revokeCertificate_doc cert_issued))
  /\ status (revokeCertificate_doc cert_issued) = revoked
  /\ (forall s d, verifyCertificate (certificates (fst revoke_5)) s = Some d -> oid d <> 5%nat).
Proof.
  assert (E : revoke_5 = (fst revoke_5, RV200_revoked (revokeCertificate_doc cert_issued)))
    by (vm_compute; reflexivity).
  destruct (X18_revoke world_cert 5 7 false _ _ E) as [_ [S [_ [_ V]]]].
  split; [exact E|]. split; [exact S | exact V].
Defined.

(** X19: [revokeCertificate] changes the certificates, or answers 200,
    only for a stored certificate whose instructor is the user, or for an
    admin. *)
Theorem X19_revoke_auth w certificateId uid adm :
  (fst (revokeCertificate w certificateId uid adm) <> w
   \/ exists c, snd (revokeCertificate w certificateId uid adm) = RV200_revoked c) ->
  exists cert, find (fun d => Nat.eqb (oid d) certificateId) (certificates w) = Some cert
    /\ (instructor cert = uid \/ adm = true).
Proof.
  unfold revokeCertificate.
  destruct (find (fun d => Nat.eqb (oid d) certificateId) (certificates w)) as [cert|];
    [|intros [H|[c H]]; cbn in H; [congruence | discriminate]].
  destruct (negb (Nat.eqb (instructor cert) uid) && negb adm) eqn:A;
    [intros [H|[c H]]; cbn in H; [congruence | discriminate]|].
  intros _. exists cert. split; [reflexivity|].
  destruct (Nat.eqb (instructor cert) uid) eqn:I.
  - left. apply Nat.eqb_eq. exact I.
  - right. destruct adm; [reflexivity | discriminate].
Qed.

Lemma X19_witness :
  exists cert, find (fun d => Nat.eqb (oid d) 5) (certificates world_cert) = Some cert
    /\ (instructor cert = 7%nat \/ false = true).
Proof.
  apply (X19_revoke_auth world_cert 5 7 false).
  right. exists (revokeCertificate_doc cert_issued). vm_compute. reflexivity.
Defined.

End Extras.
